(** * fx-data-generate: synthetic FX tick generator

    A shallow embedding of [src/fx-data-generate.py] and the properties its
    specification states about it.

    Conventions of the embedding.

    - Python [float] is an abstract arithmetic ([PyFloat]) with two
      interpretations: [Binary64.binary64], IEEE-754 double precision as
      specified by the standard library's [SpecFloat] (bit-exact with CPython),
      and [Exact.exact], the rationals, used to say what an identity between
      prices means when rounding is left out.
    - Python [int] is [Z].
    - A naive [datetime] is the number of microseconds since 1970-01-01
      00:00:00, and a [timedelta] a number of microseconds; the process time
      zone is UTC, so [datetime.timestamp()] is that number read in seconds.
    - A raised exception ends the computation: [result] is the error monad.
    - [math.sin], [math.exp], [math.pi] and [random.random] are parameters of
      the models that use them. *)

From Stdlib Require Import ZArith QArith Qabs Qcanon Qround List String Ascii Bool Lia.
From Stdlib Require Import SpecFloat.
Import ListNotations.
Local Open Scope Z_scope.

(** ** Exceptions and the error monad *)

Inductive exn : Type :=
| ZeroDivisionError
| OverflowError
| ValueError
| IndexError
| NameError.

Inductive result (A : Type) : Type :=
| Ok (a : A)
| Raise (e : exn).

Arguments Ok {A} a.
Arguments Raise {A} e.

Definition bind {A B : Type} (c : result A) (k : A -> result B) : result B :=
  match c with
  | Ok a => k a
  | Raise e => Raise e
  end.

Notation "x <- c ;; k" := (bind c (fun x => k))
  (at level 61, c at next level, right associativity).
Notation "' pat <- c ;; k" := (bind c (fun x => match x with pat => k end))
  (at level 61, pat pattern, c at next level, right associativity).

Definition returns {A : Type} (c : result A) : Prop :=
  exists a, c = Ok a.

(** The exception of a run that ended by one, and whether a run returned;
    [None] stands for a run that is still going. *)
Definition raised {A : Type} (r : option (result A)) : option exn :=
  match r with
  | Some (Raise e) => Some e
  | _ => None
  end.

Definition returned {A : Type} (r : option (result A)) : bool :=
  match r with
  | Some (Ok _) => true
  | _ => false
  end.

(** ** The arithmetic of Python floats *)

Class PyFloat : Type := {
  float : Type;
  (** conversion of an integer, rounded to the nearest float *)
  Zfloat : Z -> float;
  is_finite : float -> bool;
  is_nan : float -> bool;
  fadd : float -> float -> float;
  fsub : float -> float -> float;
  fmul : float -> float -> float;
  (** [x / y] of the hardware, defined for every divisor *)
  fdiv_raw : float -> float -> float;
  (** [x % y] on floats *)
  fmod : float -> float -> result float;
  (** [n / m] on integers: the quotient rounded once *)
  int_truediv : Z -> Z -> result float;
  (** the integer part, toward zero, of a finite float *)
  trunc_finite : float -> Z;
  (** the least integer not below a finite float *)
  ceil_finite : float -> Z;
  (** the nearest integer, ties to even, of a finite float *)
  round_half_even : float -> Z;
  fabs : float -> float;
  feqb : float -> float -> bool;
  fltb : float -> float -> bool;
  fleb : float -> float -> bool;
  (** the literal [0.5] *)
  fhalf : float
}.

(** ** IEEE-754 binary64 *)

Module Binary64.

Definition prec : Z := 53.
Definition emax : Z := 1024.

Definition of_Z (n : Z) : spec_float := binary_normalize prec emax n 0 false.

Definition finite (x : spec_float) : bool :=
  match x with
  | S754_zero _ | S754_finite _ _ _ => true
  | S754_infinity _ | S754_nan => false
  end.

Definition nan (x : spec_float) : bool :=
  match x with
  | S754_nan => true
  | _ => false
  end.

Definition is_zero (x : spec_float) : bool :=
  match x with
  | S754_zero _ => true
  | _ => false
  end.

Definition sign (x : spec_float) : bool :=
  match x with
  | S754_zero s | S754_infinity s | S754_finite s _ _ => s
  | S754_nan => false
  end.

(** [m * 2^e] for a remainder that is representable: no rounding happens. *)
Definition of_scaled (s : bool) (m e : Z) : spec_float :=
  match m with
  | Z0 => S754_zero s
  | _ => binary_normalize prec emax (cond_Zopp s (Z.abs m)) e false
  end.

(** C's [fmod]: exact, with the sign of the dividend. *)
Definition c_fmod (x y : spec_float) : spec_float :=
  match x, y with
  | S754_nan, _ | _, S754_nan => S754_nan
  | S754_infinity _, _ => S754_nan
  | _, S754_zero _ => S754_nan
  | _, S754_infinity _ => x
  | S754_zero _, S754_finite _ _ _ => x
  | S754_finite sx mx ex, S754_finite _ my ey =>
      let e := Z.min ex ey in
      let X := Z.shiftl (Zpos mx) (ex - e) in
      let Y := Z.shiftl (Zpos my) (ey - e) in
      of_scaled sx (Z.rem X Y) e
  end.

(** CPython's [float_rem]: the remainder takes the sign of the divisor. *)
Definition py_fmod (x y : spec_float) : result spec_float :=
  if SFeqb y (S754_zero false) then Raise ZeroDivisionError
  else
    let m := c_fmod x y in
    if negb (SFeqb m (S754_zero false)) then
      if negb (Bool.eqb (SFltb y (S754_zero false)) (SFltb m (S754_zero false)))
      then Ok (SFadd prec emax m y)
      else Ok m
    else Ok (S754_zero (sign y)).

(** CPython's [long_true_divide]: correctly rounded quotient of two integers. *)
Definition truediv (a b : Z) : result spec_float :=
  if b =? 0 then Raise ZeroDivisionError
  else
    let s := xorb (a <? 0) (b <? 0) in
    if a =? 0 then Ok (S754_zero s)
    else
      let '(mz, ez, lz) := SFdiv_core_binary prec emax (Z.abs a) 0 (Z.abs b) 0 in
      match binary_round_aux prec emax s mz ez lz with
      | S754_infinity _ => Raise OverflowError
      | q => Ok q
      end.

Definition trunc (x : spec_float) : Z :=
  match x with
  | S754_finite s m e => cond_Zopp s (Z.shiftl (Zpos m) e)
  | _ => 0
  end.

Definition ceil (x : spec_float) : Z :=
  match x with
  | S754_finite s m e =>
      if s then - Z.shiftl (Zpos m) e else - Z.shiftl (Zneg m) e
  | _ => 0
  end.

(** Nearest integer of [m * 2^e], ties to even. *)
Definition rhe (x : spec_float) : Z :=
  match x with
  | S754_finite s m e =>
      if 0 <=? e then cond_Zopp s (Z.shiftl (Zpos m) e)
      else
        let d := Z.shiftl 1 (- e) in
        let q := Zpos m / d in
        let r := Zpos m mod d in
        let up :=
          match 2 * r ?= d with
          | Lt => false
          | Gt => true
          | Eq => Z.odd q
          end in
        cond_Zopp s (if up then q + 1 else q)
  | _ => 0
  end.

#[export] Instance binary64 : PyFloat := {|
  float := spec_float;
  Zfloat := of_Z;
  is_finite := finite;
  is_nan := nan;
  fadd := SFadd prec emax;
  fsub := SFsub prec emax;
  fmul := SFmul prec emax;
  fdiv_raw := SFdiv prec emax;
  fmod := py_fmod;
  int_truediv := truediv;
  trunc_finite := trunc;
  ceil_finite := ceil;
  round_half_even := rhe;
  fabs := SFabs;
  feqb := SFeqb;
  fltb := SFltb;
  fleb := SFleb;
  fhalf := S754_finite false 4503599627370496 (-53)
|}.

End Binary64.

(** ** Exact arithmetic on the rationals *)

Module Exact.

Definition of_Z (n : Z) : Qc := Q2Qc (inject_Z n).

Definition floor (x : Qc) : Z := Qfloor x.

Definition trunc (x : Qc) : Z :=
  if Qle_bool (inject_Z 0) x then Qfloor x else Qceiling x.

Definition qmod (x y : Qc) : result Qc :=
  if Qc_eq_dec y (of_Z 0) then Raise ZeroDivisionError
  else Ok (x - y * of_Z (floor (x / y)))%Qc.

Definition truediv (a b : Z) : result Qc :=
  if b =? 0 then Raise ZeroDivisionError
  else Ok (of_Z a / of_Z b)%Qc.

Definition rhe (x : Qc) : Z :=
  let q := floor x in
  let r := (x - of_Z q)%Qc in
  match Qccompare (of_Z 2 * r)%Qc (of_Z 1) with
  | Lt => q
  | Gt => q + 1
  | Eq => if Z.odd q then q + 1 else q
  end.

Definition qabs (x : Qc) : Qc := Q2Qc (Qabs x).

#[export] Instance exact : PyFloat := {|
  float := Qc;
  Zfloat := of_Z;
  is_finite := fun _ => true;
  is_nan := fun _ => false;
  fadd := Qcplus;
  fsub := Qcminus;
  fmul := Qcmult;
  fdiv_raw := Qcdiv;
  fmod := qmod;
  int_truediv := truediv;
  trunc_finite := trunc;
  ceil_finite := fun x => Qceiling x;
  round_half_even := rhe;
  fabs := qabs;
  feqb := fun x y => Qeq_bool x y;
  fltb := fun x y => negb (Qle_bool y x);
  fleb := fun x y => Qle_bool x y;
  fhalf := Q2Qc (1 # 2)
|}.

End Exact.

(** ** Python's operators on floats and integers *)

Section PythonArithmetic.

Context {PF : PyFloat}.

(** [float(n)] *)
Definition float_of_int (n : Z) : result float :=
  let x := Zfloat n in
  if is_finite x then Ok x else Raise OverflowError.

(** [x / y] on floats *)
Definition fdiv (x y : float) : result float :=
  if feqb y (Zfloat 0) then Raise ZeroDivisionError else Ok (fdiv_raw x y).

(** [x / n], a float by an integer *)
Definition fdiv_int (x : float) (n : Z) : result float :=
  y <- float_of_int n ;; fdiv x y.

(** [n / x], an integer by a float *)
Definition int_fdiv (n : Z) (x : float) : result float :=
  y <- float_of_int n ;; fdiv y x.

(** [n + x], [n - x] and [x * n] with an integer operand *)
Definition int_fadd (n : Z) (x : float) : result float :=
  y <- float_of_int n ;; Ok (fadd y x).

Definition int_fsub (n : Z) (x : float) : result float :=
  y <- float_of_int n ;; Ok (fsub y x).

Definition fmul_int (x : float) (n : Z) : result float :=
  y <- float_of_int n ;; Ok (fmul x y).

(** [int(x)] *)
Definition int_of_float (x : float) : result Z :=
  if is_nan x then Raise ValueError
  else if is_finite x then Ok (trunc_finite x)
  else Raise OverflowError.

(** [math.ceil(x)] *)
Definition math_ceil (x : float) : result Z :=
  if is_nan x then Raise ValueError
  else if is_finite x then Ok (ceil_finite x)
  else Raise OverflowError.

(** [a % b] on integers *)
Definition int_mod (a b : Z) : result Z :=
  if b =? 0 then Raise ZeroDivisionError else Ok (a mod b).

(** The literals [1e5] and [1e3]. *)
Definition f1e5 : float := Zfloat 100000.
Definition f1e3 : float := Zfloat 1000.

(** [datetime.timedelta(seconds=x)], in microseconds: the whole seconds
    exactly, the fraction times 1e6 rounded to the nearest microsecond,
    ties to even; a timedelta holds less than 10^9 days. *)
Definition max_timedelta_us : Z := 86399999999999999999.

Definition timedelta_seconds (x : float) : result Z :=
  whole <- int_of_float x ;;
  let frac := fsub x (Zfloat whole) in
  let us := whole * 1000000 + round_half_even (fmul (Zfloat 1000000) frac) in
  if Z.abs us <=? max_timedelta_us then Ok us else Raise OverflowError.

End PythonArithmetic.

(** ** Strings: [str(n)], [s[-3:]] and [int(s)] *)

Module Str.

Definition digit_char (d : Z) : ascii := ascii_of_nat (48 + Z.to_nat d).

Definition digit_value (c : ascii) : option Z :=
  let n := Z.of_nat (nat_of_ascii c) in
  if (48 <=? n) && (n <=? 57) then Some (n - 48) else None.

(** Decimal digits of a non-negative integer, most significant first. *)
Fixpoint decimal (fuel : nat) (n : Z) (acc : string) : string :=
  match fuel with
  | O => acc
  | S fuel' =>
      let acc' := String (digit_char (n mod 10)) acc in
      if n <? 10 then acc' else decimal fuel' (n / 10) acc'
  end.

Definition decimal_fuel (n : Z) : nat := S (Z.to_nat (Z.log2 n)).

(** [str(n)] *)
Definition str_of_int (n : Z) : string :=
  if n <? 0 then String "-" (decimal (decimal_fuel (- n)) (- n) EmptyString)
  else decimal (decimal_fuel n) n EmptyString.

(** [s[-k:]]: the last [k] characters, or all of [s] when it is shorter. *)
Definition last_chars (k : nat) (s : string) : string :=
  substring (String.length s - k) k s.

Fixpoint parse_digits (s : string) (acc : Z) : option Z :=
  match s with
  | EmptyString => Some acc
  | String c s' =>
      match digit_value c with
      | Some d => parse_digits s' (10 * acc + d)
      | None => None
      end
  end.

(** [int(s)] on an optional minus sign followed by decimal digits. *)
Definition int_of_str (s : string) : result Z :=
  match s with
  | EmptyString => Raise ValueError
  | String "-" EmptyString => Raise ValueError
  | String "-" s' =>
      match parse_digits s' 0 with
      | Some n => Ok (- n)
      | None => Raise ValueError
      end
  | _ =>
      match parse_digits s 0 with
      | Some n => Ok n
      | None => Raise ValueError
      end
  end.

End Str.

(** ** Dates, datetimes and timedeltas *)

Module Datetime.

Definition us_per_second : Z := 1000000.
Definition us_per_day : Z := 86400000000.

Definition is_leap (y : Z) : bool :=
  (y mod 4 =? 0) && (negb (y mod 100 =? 0) || (y mod 400 =? 0)).

Definition days_in_month (y m : Z) : Z :=
  if m =? 2 then (if is_leap y then 29 else 28)
  else if (m =? 4) || (m =? 6) || (m =? 9) || (m =? 11) then 30
  else 31.

Definition days_before_year (y : Z) : Z :=
  let p := y - 1 in p * 365 + p / 4 - p / 100 + p / 400.

Definition days_before_month (y m : Z) : Z :=
  nth (Z.to_nat m) [0; 0; 31; 59; 90; 120; 151; 181; 212; 243; 273; 304; 334] 0
  + (if (2 <? m) && is_leap y then 1 else 0).

(** The proleptic Gregorian ordinal: 0001-01-01 is day 1. *)
Definition ymd_to_ordinal (y m d : Z) : Z :=
  days_before_year y + days_before_month y m + d.

Definition epoch_ordinal : Z := 719163.

(** Midnight of a calendar day, in microseconds since the epoch. *)
Definition of_ymd (y m d : Z) : Z :=
  (ymd_to_ordinal y m d - epoch_ordinal) * us_per_day.

Definition min_datetime : Z := of_ymd 1 1 1.
Definition max_datetime : Z := of_ymd 9999 12 31 + us_per_day - 1.

(** [t + d]: a datetime outside years 1..9999 is an [OverflowError]. *)
Definition add (t d : Z) : result Z :=
  let r := t + d in
  if (min_datetime <=? r) && (r <=? max_datetime) then Ok r
  else Raise OverflowError.

(** *** [datetime.strptime(s, "%Y.%m.%d")] on ASCII text *)

Definition year4 (s : string) : option (Z * string) :=
  match s with
  | String a (String b (String c (String d rest))) =>
      match Str.digit_value a, Str.digit_value b,
            Str.digit_value c, Str.digit_value d with
      | Some a, Some b, Some c, Some d =>
          Some (1000 * a + 100 * b + 10 * c + d, rest)
      | _, _, _, _ => None
      end
  | _ => None
  end.

Definition two_digits (ok : Z -> Z -> bool) (s : string) : list (Z * string) :=
  match s with
  | String a (String b rest) =>
      match Str.digit_value a, Str.digit_value b with
      | Some a, Some b => if ok a b then [(10 * a + b, rest)] else []
      | _, _ => []
      end
  | _ => []
  end.

Definition one_digit (s : string) : list (Z * string) :=
  match s with
  | String a rest =>
      match Str.digit_value a with
      | Some a => if 1 <=? a then [(a, rest)] else []
      | None => []
      end
  | _ => []
  end.

Definition space_digit (s : string) : list (Z * string) :=
  match s with
  | String " " rest => one_digit rest
  | _ => []
  end.

(** The alternatives of [%m], [1[0-2]|0[1-9]|[1-9]], in the order tried. *)
Definition month_alternatives (s : string) : list (Z * string) :=
  two_digits (fun a b => (a =? 1) && (b <=? 2)) s
  ++ two_digits (fun a b => (a =? 0) && (1 <=? b)) s
  ++ one_digit s.

(** The alternatives of [%d], [3[01]|[12]\d|0[1-9]|[1-9]| [1-9]]. *)
Definition day_alternatives (s : string) : list (Z * string) :=
  two_digits (fun a b => (a =? 3) && (b <=? 1)) s
  ++ two_digits (fun a b => (1 <=? a) && (a <=? 2)) s
  ++ two_digits (fun a b => (a =? 0) && (1 <=? b)) s
  ++ one_digit s
  ++ space_digit s.

Definition dot (s : string) : option string :=
  match s with
  | String "." rest => Some rest
  | _ => None
  end.

Definition first_some {A B : Type} (f : A -> option B) (l : list A) : option B :=
  fold_right (fun a r => match f a with Some b => Some b | None => r end) None l.

Definition match_Ymd (s : string) : option (Z * Z * Z) :=
  match year4 s with
  | Some (y, s1) =>
      match dot s1 with
      | Some s2 =>
          first_some (fun '(m, s3) =>
            match dot s3 with
            | Some s4 =>
                first_some (fun '(d, s5) =>
                  match s5 with
                  | EmptyString => Some (y, m, d)
                  | _ => None
                  end) (day_alternatives s4)
            | None => None
            end) (month_alternatives s2)
      | None => None
      end
  | None => None
  end.

Definition strptime (s : string) : result Z :=
  match match_Ymd s with
  | Some (y, m, d) =>
      if (1 <=? y) && (d <=? days_in_month y m) then Ok (of_ymd y m d)
      else Raise ValueError
  | None => Raise ValueError
  end.

End Datetime.

(** ** The generator *)

Section Generator.

Context {PF : PyFloat}.

(** [math.sin], [math.exp], [math.pi]; [random k] is what the [k]-th call
    of [random.random()] returns. *)
Variable sin : float -> result float.
Variable exp : float -> result float.
Variable pi : float.
Variable random : Z -> float.

Record tick : Type := mkTick {
  timestamp : Z;
  bidPrice : float;
  askPrice : float;
  bidVolume : Z;
  askVolume : float
}.

(** [t.timestamp()]: the whole seconds plus the microseconds over 1e6. *)
Definition timestamp_float (t : Z) : float :=
  fadd (Zfloat (t / Datetime.us_per_second))
       (fdiv_raw (Zfloat (t mod Datetime.us_per_second)) (Zfloat 1000000)).

Definition volumesFromTimestamp (timestamp : Z) (spread : float)
  : result (Z * float) :=
  let longTimestamp := timestamp_float timestamp in
  let spread := fmul spread f1e5 in
  minutes <- fdiv_int longTimestamp 60 ;;
  n <- int_of_float minutes ;;
  k <- Str.int_of_str (Str.last_chars 3 (Str.str_of_int n)) ;;
  let d := k + 1 in
  x <- fdiv_int longTimestamp d ;;
  r <- fmod x (fsub f1e3 spread) ;;
  bidVolume <- int_of_float r ;;
  askVolume <- int_fadd bidVolume spread ;;
  Ok (bidVolume, askVolume).

(** The loop variables of a model: the fields of the next tick, and the
    ticks emitted so far. *)
Record vars : Type := mkVars {
  next : tick;
  ticks : list tick
}.

(** [ticks += [{...}]] *)
Definition emit (s : vars) : list tick := ticks s ++ [next s].

(** The assignments before the loop, shared by the five models. *)
Definition initial (startDate : Z) (startPrice spread : float) : result vars :=
  let timestamp := startDate in
  let bidPrice := startPrice in
  let askPrice := fadd bidPrice spread in
  let bidVolume := 1 in
  askVolume <- int_fadd bidVolume spread ;;
  Ok (mkVars (mkTick timestamp bidPrice askPrice bidVolume askVolume) []).

(** [for i in l: body] *)
Fixpoint for_each (l : list Z) (body : Z -> vars -> result vars) (s : vars)
  : result vars :=
  match l with
  | [] => Ok s
  | i :: l' => s' <- body i s ;; for_each l' body s'
  end.

(** [range(a, b)] *)
Definition range (a b : Z) : list Z :=
  map (fun k => a + Z.of_nat k) (seq 0 (Z.to_nat (b - a))).

(** [ceil((endDate + timedelta(days=1) - startDate) / deltaTime)] *)
Definition tick_count (startDate endDate deltaTime : Z) : result Z :=
  limit <- Datetime.add endDate Datetime.us_per_day ;;
  q <- int_truediv (limit - startDate) deltaTime ;;
  math_ceil q.

(** [deltaTime / (endDate + timedelta(days=1) - startDate - deltaTime)
     * (endPrice - startPrice)] *)
Definition drift (startDate endDate : Z) (startPrice endPrice : float)
  (deltaTime : Z) : result float :=
  limit <- Datetime.add endDate Datetime.us_per_day ;;
  q <- int_truediv deltaTime (limit - startDate - deltaTime) ;;
  Ok (fmul q (fsub endPrice startPrice)).

(** *** linearModel *)

Definition linear_step (deltaTime : Z) (deltaPrice spread : float) (s : vars)
  : result vars :=
  let ticks := emit s in
  timestamp <- Datetime.add (timestamp (next s)) deltaTime ;;
  let bidPrice := fadd (bidPrice (next s)) deltaPrice in
  let askPrice := fadd (askPrice (next s)) deltaPrice in
  '(bidVolume, askVolume) <- volumesFromTimestamp timestamp spread ;;
  Ok (mkVars (mkTick timestamp bidPrice askPrice bidVolume askVolume) ticks).

(** [while timestamp < endDate + timedelta(days=1): ...]; [None] when the
    loop is still running after [fuel] iterations. *)
Fixpoint linear_loop (fuel : nat) (endDate deltaTime : Z)
  (deltaPrice spread : float) (s : vars) : option (result (list tick)) :=
  match fuel with
  | O => None
  | S fuel' =>
      match Datetime.add endDate Datetime.us_per_day with
      | Raise e => Some (Raise e)
      | Ok limit =>
          if timestamp (next s) <? limit then
            match linear_step deltaTime deltaPrice spread s with
            | Raise e => Some (Raise e)
            | Ok s' => linear_loop fuel' endDate deltaTime deltaPrice spread s'
            end
          else Some (Ok (ticks s))
      end
  end.

Definition linearModel (fuel : nat) (startDate endDate : Z)
  (startPrice endPrice : float) (deltaTime : Z) (spread : float)
  : option (result (list tick)) :=
  match initial startDate startPrice spread with
  | Raise e => Some (Raise e)
  | Ok s =>
      match drift startDate endDate startPrice endPrice deltaTime with
      | Raise e => Some (Raise e)
      | Ok deltaPrice => linear_loop fuel endDate deltaTime deltaPrice spread s
      end
  end.

(** *** zigzagModel *)

Definition zigzag_body (deltaTime : Z) (spread lift : float)
  (forward backward : Z) (i : Z) (s : vars) : result vars :=
  let ticks := emit s in
  let i := i + 1 in
  timestamp <- Datetime.add (timestamp (next s)) deltaTime ;;
  phase <- int_mod i (forward + backward) ;;
  bidPrice <-
    (if phase <? forward then
       up <- int_truediv (forward + 2 * backward) forward ;;
       Ok (fadd (bidPrice (next s)) (fmul up lift))
     else Ok (fsub (bidPrice (next s)) lift)) ;;
  let askPrice := fadd bidPrice spread in
  '(bidVolume, askVolume) <- volumesFromTimestamp timestamp spread ;;
  Ok (mkVars (mkTick timestamp bidPrice askPrice bidVolume askVolume) ticks).

Definition zigzag_tail (deltaTime : Z) (spread lift : float) (i : Z) (s : vars)
  : result vars :=
  let ticks := emit s in
  timestamp <- Datetime.add (timestamp (next s)) deltaTime ;;
  let bidPrice := fadd (bidPrice (next s)) lift in
  let askPrice := fadd bidPrice spread in
  '(bidVolume, askVolume) <- volumesFromTimestamp timestamp spread ;;
  Ok (mkVars (mkTick timestamp bidPrice askPrice bidVolume askVolume) ticks).

Definition zigzagModel (startDate endDate : Z) (startPrice endPrice : float)
  (deltaTime : Z) (spread volatility : float) : result (list tick) :=
  s <- initial startDate startPrice spread ;;
  let deltaPrice := fsub endPrice startPrice in
  count <- tick_count startDate endDate deltaTime ;;
  lift <- fdiv_int deltaPrice count ;;
  let forward := 500 in
  scaled <- fmul_int volatility 50 ;;
  backward <- int_of_float scaled ;;
  s <- for_each (range 0 (count - backward))
         (zigzag_body deltaTime spread lift forward backward) s ;;
  lift <- fdiv_int (fsub endPrice (bidPrice (next s))) (backward - 1) ;;
  s <- for_each (range (count - backward) count)
         (zigzag_tail deltaTime spread lift) s ;;
  Ok (ticks s).

(** *** waveModel *)

Definition wave_body (startPrice deltaPrice : float) (deltaTime : Z)
  (spread volatility : float) (count : Z) (i : Z) (s : vars) : result vars :=
  let ticks := emit s in
  let i := i + 1 in
  timestamp <- Datetime.add (timestamp (next s)) deltaTime ;;
  bidPrice <-
    (if fltb (Zfloat 0) (fabs deltaPrice) then
       a <- int_truediv i (count - 1) ;;
       b <- int_truediv i (count - 1) ;;
       b3 <- fmul_int b 3 ;;
       w <- sin (fmul b3 pi) ;;
       Ok (fabs (fadd (fadd startPrice (fmul a deltaPrice)) (fmul volatility w)))
     else
       b <- int_truediv i (count - 1) ;;
       b3 <- fmul_int b 3 ;;
       w <- sin (fmul b3 pi) ;;
       Ok (fabs (fadd startPrice (fmul volatility w)))) ;;
  let askPrice := fadd bidPrice spread in
  '(bidVolume, askVolume) <- volumesFromTimestamp timestamp spread ;;
  Ok (mkVars (mkTick timestamp bidPrice askPrice bidVolume askVolume) ticks).

Definition waveModel (startDate endDate : Z) (startPrice endPrice : float)
  (deltaTime : Z) (spread volatility : float) : result (list tick) :=
  s <- initial startDate startPrice spread ;;
  let deltaPrice := fsub endPrice startPrice in
  count <- tick_count startDate endDate deltaTime ;;
  d <- int_truediv count 2 ;;
  s <- for_each (range 0 count)
         (wave_body startPrice deltaPrice deltaTime spread volatility count) s ;;
  Ok (ticks s).

(** *** curveModel *)

Definition curve_body (startPrice deltaPrice : float) (deltaTime : Z)
  (spread : float) (count : Z) (d : float) (i : Z) (s : vars) : result vars :=
  let ticks := emit s in
  let i := i + 1 in
  timestamp <- Datetime.add (timestamp (next s)) deltaTime ;;
  x <- int_fdiv i d ;;
  ex <- exp x ;;
  y <- int_fdiv (count - 1) d ;;
  ey <- exp y ;;
  y' <- int_fdiv (count - 1) d ;;
  ey' <- exp y' ;;
  den <- int_fsub 1 ey' ;;
  ratio <- fdiv (fsub ex ey) den ;;
  weight <- int_fsub 1 ratio ;;
  let bidPrice := fadd startPrice (fmul weight deltaPrice) in
  let askPrice := fadd bidPrice spread in
  '(bidVolume, askVolume) <- volumesFromTimestamp timestamp spread ;;
  Ok (mkVars (mkTick timestamp bidPrice askPrice bidVolume askVolume) ticks).

Definition curveModel (startDate endDate : Z) (startPrice endPrice : float)
  (deltaTime : Z) (spread volatility : float) : result (list tick) :=
  s <- initial startDate startPrice spread ;;
  let deltaPrice := fsub endPrice startPrice in
  count <- tick_count startDate endDate deltaTime ;;
  d <- int_fdiv count volatility ;;
  s <- for_each (range 0 count)
         (curve_body startPrice deltaPrice deltaTime spread count d) s ;;
  Ok (ticks s).

(** *** randomModel *)

Definition random_body (deltaTime : Z) (deltaPrice spread volatility : float)
  (i : Z) (s : vars) : result vars :=
  let ticks := emit s in
  timestamp <- Datetime.add (timestamp (next s)) deltaTime ;;
  let noise := fmul (fmul deltaPrice (fsub (random i) fhalf)) volatility in
  let bidPrice := fadd (bidPrice (next s)) (fadd deltaPrice noise) in
  let askPrice := fadd bidPrice spread in
  '(bidVolume, askVolume) <- volumesFromTimestamp timestamp spread ;;
  Ok (mkVars (mkTick timestamp bidPrice askPrice bidVolume askVolume) ticks).

(** [ticks[-1]["bidPrice"] = bid; ticks[-1]["askPrice"] = ask] *)
Definition set_last_prices (l : list tick) (bid ask : float)
  : result (list tick) :=
  match rev l with
  | [] => Raise IndexError
  | t :: before =>
      Ok (rev before
          ++ [mkTick (timestamp t) bid ask (bidVolume t) (askVolume t)])
  end.

Definition randomModel (startDate endDate : Z) (startPrice endPrice : float)
  (deltaTime : Z) (spread volatility : float) : result (list tick) :=
  s <- initial startDate startPrice spread ;;
  deltaPrice <- drift startDate endDate startPrice endPrice deltaTime ;;
  count <- tick_count startDate endDate deltaTime ;;
  s <- for_each (range 0 count)
         (random_body deltaTime deltaPrice spread volatility) s ;;
  set_last_prices (ticks s) endPrice (fadd endPrice spread).

End Generator.

(** ** The command line driver *)

Inductive pattern : Type := p_none | p_wave | p_curve | p_zigzag | p_random.

Definition pattern_name (p : pattern) : string :=
  match p with
  | p_none => "none"
  | p_wave => "wave"
  | p_curve => "curve"
  | p_zigzag => "zigzag"
  | p_random => "random"
  end.

(** How a run of the script ends: [sys.exit(status)], an exception nobody
    catches, or still looping when the fuel of the model ran out. *)
Inductive termination : Type :=
| Exit (status : Z)
| Uncaught (e : exn)
| Unfinished.

(** The status the shell sees: an uncaught exception exits with 1. *)
Definition exit_status (t : termination) : option Z :=
  match t with
  | Exit n => Some n
  | Uncaught _ => Some 1
  | Unfinished => None
  end.

(** One CSV row: its five fields. *)
Definition row : Type := list string.

(** What the script has written: lines on the error stream, rows on
    standard output, and the rows of each file it opened for writing. *)
Record world : Type := mkWorld {
  stderr : list string;
  stdout : list row;
  files : list (string * list row)
}.

Definition nothing_written : world := mkWorld [] [] [].

(** No row reached a sink: standard output is empty and no file exists. *)
Definition no_output (w : world) : Prop :=
  stdout w = [] /\ files w = [].

Definition io (A : Type) : Type := world -> world * (A + termination).

Definition io_ret {A : Type} (a : A) : io A := fun w => (w, inl a).

Definition io_bind {A B : Type} (c : io A) (k : A -> io B) : io B :=
  fun w =>
    match c w with
    | (w', inl a) => k a w'
    | (w', inr t) => (w', inr t)
    end.

Notation "x <~ c ;; k" := (io_bind c (fun x => k))
  (at level 61, c at next level, right associativity).
Notation "' pat <~ c ;; k" :=
  (io_bind c (fun x => match x with pat => k end))
  (at level 61, pat pattern, c at next level, right associativity).
Notation "c ;;; k" := (io_bind c (fun _ => k))
  (at level 61, right associativity).

Definition terminate {A : Type} (t : termination) : io A :=
  fun w => (w, inr t).

(** An exception that leaves the script's top level. *)
Definition escape {A : Type} (c : result A) : io A :=
  match c with
  | Ok a => io_ret a
  | Raise e => terminate (Uncaught e)
  end.

Definition print_stderr (line : string) : io unit :=
  fun w => (mkWorld (stderr w ++ [line]) (stdout w) (files w), inl tt).

Definition when (b : bool) (c : io unit) : io unit :=
  if b then c else io_ret tt.

(** The builtin [exit] that [error] tests is an object, hence true. *)
Definition exit_builtin_is_true : bool := true.

(** [msg(text)] and [error(text)] *)
Definition msg (text : string) : io unit :=
  print_stderr ("[INFO] " ++ text).

Definition error (text : string) : io unit :=
  print_stderr ("[ERROR] " ++ text) ;;;
  if exit_builtin_is_true then terminate (Exit 1) else io_ret tt.

Section Driver.

Context {PF : PyFloat}.

Variable sin : float -> result float.
Variable exp : float -> result float.
Variable pi : float.
Variable random : Z -> float.

(** Text formatting, left to the libraries: ["%.2f" % x]; [strftime] with
    the last three digits cut; ["{:.Nf}".format] of a float and of an
    integer, for a precision [N] the format accepts; and [10 ** -digits],
    a float for the positive digits the script lets through.  The last
    three can raise: the text of a long precision may not fit in memory,
    an integer or an exponent may be too large for a float. *)
Variable percent_2f : float -> string.
Variable strftime_ms : Z -> string.
Variable format_fixed : Z -> float -> result string.
Variable format_fixed_int : Z -> Z -> result string.
Variable pow10_neg : Z -> result float.

Record arguments : Type := mkArguments {
  arg_startDate : string;
  arg_endDate : string;
  arg_startPrice : float;
  arg_endPrice : float;
  arg_digits : Z;
  arg_spread : Z;
  arg_density : Z;
  arg_pattern : pattern;
  arg_volatility : float;
  arg_outputFile : option string;
  arg_verbose : bool
}.

(** [max(a, b)] *)
Definition py_max (a b : float) : float := if fltb a b then b else a.

(** [("{:.%df}" % digits).format(x)] of a float: with negative digits the
    format has no precision, and a precision above [INT_MAX] is too big;
    [format] raises [ValueError] for both. *)
Definition int_max : Z := 2147483647.

Definition format_f (digits : Z) (x : float) : result string :=
  if (digits <? 0) || (int_max <? digits) then Raise ValueError
  else format_fixed digits x.

(** The list given to [writerow]: its five elements are evaluated in
    order, the argument of each [format] before the call.  The bid volume
    is an integer, formatted once the precision has been accepted for the
    two prices. *)
Definition csv_row (digits : Z) (t : tick) : result row :=
  let stamp := strftime_ms (timestamp t) in
  floor <- pow10_neg digits ;;
  bid <- format_f digits (py_max (bidPrice t) floor) ;;
  floor <- pow10_neg digits ;;
  ask <- format_f digits (py_max (askPrice t) floor) ;;
  bidVolume <- format_fixed_int digits (bidVolume t) ;;
  askVolume <- format_f digits (askVolume t) ;;
  Ok [stamp; bid; ask; bidVolume; askVolume].

(** [toCsv(rows, digits, output)]: each row is formatted and then written
    to [output]; an exception in the formatting of a row leaves the rows
    before it written. *)
Fixpoint toCsv (rows : list tick) (digits : Z) (writerow : row -> io unit)
  : io unit :=
  match rows with
  | [] => io_ret tt
  | t :: rows' =>
      r <~ escape (csv_row digits t) ;;
      writerow r ;;;
      toCsv rows' digits writerow
  end.

(** [sys.stdout] as the output of the rows. *)
Definition stdout_row (r : row) : io unit :=
  fun w => (mkWorld (stderr w) (stdout w ++ [r]) (files w), inl tt).

(** [with open(path, "w") as outputFile]: the file is there, empty, in
    front of the files written before; a row written to [outputFile] goes
    to the file in front. *)
Definition open_file (path : string) : io unit :=
  fun w => (mkWorld (stderr w) (stdout w) ((path, []) :: files w), inl tt).

Definition file_row (r : row) : io unit :=
  fun w =>
    match files w with
    | (path, rows) :: others =>
        (mkWorld (stderr w) (stdout w) ((path, rows ++ [r]) :: others), inl tt)
    | [] => (w, inl tt)
    end.

(** The sampling interval, [timedelta(seconds=60 / density)]. *)
Definition interval (density : Z) : result Z :=
  seconds <- int_truediv 60 density ;;
  timedelta_seconds seconds.

(** The dispatch on [args.pattern]. *)
Definition run_model (fuel : nat) (p : pattern) (startDate endDate : Z)
  (startPrice endPrice : float) (deltaTime : Z) (spread volatility : float)
  : option (result (list tick)) :=
  match p with
  | p_none =>
      linearModel fuel startDate endDate startPrice endPrice deltaTime spread
  | p_zigzag =>
      Some (zigzagModel startDate endDate startPrice endPrice deltaTime
              spread volatility)
  | p_wave =>
      Some (waveModel sin pi startDate endDate startPrice endPrice deltaTime
              spread volatility)
  | p_curve =>
      Some (curveModel exp startDate endDate startPrice endPrice deltaTime
              spread volatility)
  | p_random =>
      Some (randomModel random startDate endDate startPrice endPrice
              deltaTime spread volatility)
  end.

Definition parse_dates (a : arguments) : io (Z * Z) :=
  match Datetime.strptime (arg_startDate a) with
  | Ok startDate =>
      match Datetime.strptime (arg_endDate a) with
      | Ok endDate => io_ret (startDate, endDate)
      | Raise _ => error "Bad date format!" ;;; terminate (Uncaught NameError)
      end
  | Raise _ => error "Bad date format!" ;;; terminate (Uncaught NameError)
  end.

Definition main (fuel : nat) (a : arguments) : io unit :=
  '(startDate, endDate) <~ parse_dates a ;;
  when (endDate <? startDate) (error "Ending date precedes starting date!") ;;;
  when (arg_digits a <=? 0) (error "Digits must be larger than zero!") ;;;
  when (fleb (arg_startPrice a) (Zfloat 0) || fleb (arg_endPrice a) (Zfloat 0))
       (error "Price must be larger than zero!") ;;;
  when (arg_spread a <? 0) (error "Spread must be larger or equal to zero!") ;;;
  when (arg_density a <=? 0) (error "Density must be larger than zero!") ;;;
  when (fleb (arg_volatility a) (Zfloat 0))
       (error "Volatility must be larger than zero!") ;;;
  spread <~ escape (int_fdiv (arg_spread a) f1e5) ;;
  when (arg_verbose a) (msg ("[INFO] Spread: " ++ percent_2f spread)) ;;;
  deltaTime <~ escape (interval (arg_density a)) ;;
  when (arg_verbose a) (msg ("[INFO] Pattern: " ++ pattern_name (arg_pattern a))) ;;;
  rows <~ match run_model fuel (arg_pattern a) startDate endDate
                  (arg_startPrice a) (arg_endPrice a) deltaTime spread
                  (arg_volatility a) with
          | Some r => escape r
          | None => terminate Unfinished
          end ;;
  when (arg_verbose a)
       (msg ("[INFO] Generated rows: "
             ++ Str.str_of_int (Z.of_nat (List.length rows)))) ;;;
  match arg_outputFile a with
  | Some path =>
      if String.eqb path EmptyString then toCsv rows (arg_digits a) stdout_row
      else
        when (arg_verbose a) (msg ("[INFO] Output file: " ++ path)) ;;;
        open_file path ;;;
        toCsv rows (arg_digits a) file_row
  | None => toCsv rows (arg_digits a) stdout_row
  end.

(** The ticks a run generates, for arguments that passed validation. *)
Definition generate (fuel : nat) (a : arguments) : option (result (list tick)) :=
  match Datetime.strptime (arg_startDate a),
        Datetime.strptime (arg_endDate a),
        int_fdiv (arg_spread a) f1e5,
        interval (arg_density a) with
  | Ok startDate, Ok endDate, Ok spread, Ok deltaTime =>
      run_model fuel (arg_pattern a) startDate endDate
        (arg_startPrice a) (arg_endPrice a) deltaTime spread (arg_volatility a)
  | Raise e, _, _, _ | _, Raise e, _, _
  | _, _, Raise e, _ | _, _, _, Raise e => Some (Raise e)
  end.

(** The checks of [main], as a predicate on the arguments. *)
Definition valid (a : arguments) : Prop :=
  exists startDate endDate,
    Datetime.strptime (arg_startDate a) = Ok startDate /\
    Datetime.strptime (arg_endDate a) = Ok endDate /\
    startDate <= endDate /\
    0 < arg_digits a /\
    fleb (arg_startPrice a) (Zfloat 0) = false /\
    fleb (arg_endPrice a) (Zfloat 0) = false /\
    0 <= arg_spread a /\
    0 < arg_density a /\
    fleb (arg_volatility a) (Zfloat 0) = false.

(** What [toCsv] writes when every row formats: the rows of the ticks, in
    order.  It is the vocabulary of the statements about the output, and
    no function of the source. *)
Fixpoint csv_rows (rows : list tick) (digits : Z) : result (list row) :=
  match rows with
  | [] => Ok []
  | t :: rows' =>
      r <- csv_row digits t ;;
      rs <- csv_rows rows' digits ;;
      Ok (r :: rs)
  end.

End Driver.

(** ** Command lines

    The arguments [argparse] builds from a command line, the options that
    are not given taking their defaults. *)

Module Cli.

Import Binary64.

(** A decimal literal [num / den] as Python reads it: the nearest double. *)
Definition literal (num den : Z) : spec_float :=
  match truediv num den with
  | Ok x => x
  | Raise _ => S754_nan
  end.

(** [fx-data-generate.py startDate endDate startPrice endPrice] *)
Definition defaults (startDate endDate : string)
  (startPrice endPrice : spec_float) : @arguments binary64 :=
  mkArguments startDate endDate startPrice endPrice 5 10 1 p_none (of_Z 1)
    None false.

(** The options [-p], [-s], [-d] and [-V]. *)
Definition with_pattern (p : pattern) (a : @arguments binary64)
  : @arguments binary64 :=
  mkArguments (arg_startDate a) (arg_endDate a) (arg_startPrice a)
    (arg_endPrice a) (arg_digits a) (arg_spread a) (arg_density a) p
    (arg_volatility a) (arg_outputFile a) (arg_verbose a).

Definition with_spread (points : Z) (a : @arguments binary64)
  : @arguments binary64 :=
  mkArguments (arg_startDate a) (arg_endDate a) (arg_startPrice a)
    (arg_endPrice a) (arg_digits a) points (arg_density a) (arg_pattern a)
    (arg_volatility a) (arg_outputFile a) (arg_verbose a).

Definition with_density (density : Z) (a : @arguments binary64)
  : @arguments binary64 :=
  mkArguments (arg_startDate a) (arg_endDate a) (arg_startPrice a)
    (arg_endPrice a) (arg_digits a) (arg_spread a) density (arg_pattern a)
    (arg_volatility a) (arg_outputFile a) (arg_verbose a).

Definition with_volatility (volatility : spec_float) (a : @arguments binary64)
  : @arguments binary64 :=
  mkArguments (arg_startDate a) (arg_endDate a) (arg_startPrice a)
    (arg_endPrice a) (arg_digits a) (arg_spread a) (arg_density a)
    (arg_pattern a) volatility (arg_outputFile a) (arg_verbose a).

(** Midnight of 2014-01-01 and of 2014-01-02, and one minute. *)
Definition jan_1 : Z := Datetime.of_ymd 2014 1 1.
Definition jan_2 : Z := Datetime.of_ymd 2014 1 2.
Definition minute : Z := 60 * Datetime.us_per_second.

(** The default spread of 10 points, [10 / 1e5]. *)
Definition ten_points : spec_float := literal 10 100000.

(** A spread of seven and a half points, [7.5e-5]. *)
Definition half_points : spec_float := literal 75 1000000.

(** [2014.01.01 2014.01.02 2.0 2.0] *)
Definition flat : @arguments binary64 :=
  defaults "2014.01.01" "2014.01.02" (of_Z 2) (of_Z 2).

(** [2014.01.01 2014.01.01 2.0 4.0] *)
Definition rising : @arguments binary64 :=
  defaults "2014.01.01" "2014.01.01" (of_Z 2) (of_Z 4).

(** [2014.01.01 2014.01.01 4.0 2.0] *)
Definition falling : @arguments binary64 :=
  defaults "2014.01.01" "2014.01.01" (of_Z 4) (of_Z 2).

(** [2014.01.01 2014.01.01 1.0 1440.0] *)
Definition steep : @arguments binary64 :=
  defaults "2014.01.01" "2014.01.01" (of_Z 1) (of_Z 1440).

(** [2014.01.02 2014.01.01 2.0 4.0] *)
Definition reversed : @arguments binary64 :=
  defaults "2014.01.02" "2014.01.01" (of_Z 2) (of_Z 4).

(** [-p random -s 1000 2014.01.01 2014.01.01 2.0 4.0] *)
Definition wide_random : @arguments binary64 :=
  with_spread 1000 (with_pattern p_random rising).

(** [-p zigzag -V 100 2014.01.01 2014.01.01 2.0 4.0] *)
Definition wild_zigzag : @arguments binary64 :=
  with_volatility (of_Z 100) (with_pattern p_zigzag rising).

(** [-p zigzag -V 0.03 2014.01.01 2014.01.01 2.0 4.0] *)
Definition calm_zigzag : @arguments binary64 :=
  with_volatility (literal 3 100) (with_pattern p_zigzag rising).

(** [-d 7 2014.01.01 2014.01.01 2.0 4.0] *)
Definition seven_per_minute : @arguments binary64 :=
  with_density 7 rising.

(** The options [-D], [-o] and [-v]. *)
Definition with_digits (digits : Z) (a : @arguments binary64)
  : @arguments binary64 :=
  mkArguments (arg_startDate a) (arg_endDate a) (arg_startPrice a)
    (arg_endPrice a) digits (arg_spread a) (arg_density a) (arg_pattern a)
    (arg_volatility a) (arg_outputFile a) (arg_verbose a).

Definition to_file (path : string) (a : @arguments binary64)
  : @arguments binary64 :=
  mkArguments (arg_startDate a) (arg_endDate a) (arg_startPrice a)
    (arg_endPrice a) (arg_digits a) (arg_spread a) (arg_density a)
    (arg_pattern a) (arg_volatility a) (Some path) (arg_verbose a).

Definition verbosely (a : @arguments binary64) : @arguments binary64 :=
  mkArguments (arg_startDate a) (arg_endDate a) (arg_startPrice a)
    (arg_endPrice a) (arg_digits a) (arg_spread a) (arg_density a)
    (arg_pattern a) (arg_volatility a) (arg_outputFile a) true.

(** [2014-01-01 2014.01.01 2.0 4.0], the first date with dashes. *)
Definition dashed : @arguments binary64 :=
  defaults "2014-01-01" "2014.01.01" (of_Z 2) (of_Z 4).

(** [9999.12.31 9999.12.31 2.0 4.0], the last day of [datetime]. *)
Definition last_day : @arguments binary64 :=
  defaults "9999.12.31" "9999.12.31" (of_Z 2) (of_Z 4).

(** [2014.01.01 2014.01.01 nan 4.0] *)
Definition not_a_price : @arguments binary64 :=
  defaults "2014.01.01" "2014.01.01" S754_nan (of_Z 4).

(** A density for which [60 / density] seconds round to no microsecond. *)
Definition too_dense : Z := 120000000.

(** The script with library functions that do nothing of interest: a sine
    and an exponential that return their argument, random numbers that are
    all 0.5, and formatting that prints nothing. *)
Definition plain_function (x : spec_float) : result spec_float := Ok x.
Definition even_odds (i : Z) : spec_float := @fhalf binary64.
Definition no_text {A : Type} (x : A) : string := EmptyString.
Definition no_text2 {A B : Type} (x : A) (y : B) : result string :=
  Ok EmptyString.
Definition no_floor (digits : Z) : result spec_float := Ok (of_Z 0).

Definition script (fuel : nat) (a : @arguments binary64)
  : io unit :=
  @main binary64 plain_function plain_function (of_Z 3) even_odds no_text
    no_text no_text2 no_text2 no_floor fuel a.

Definition rows_of (l : list (@tick binary64)) (digits : Z)
  : result (list row) :=
  @csv_rows binary64 no_text no_text2 no_text2 no_floor l digits.

Definition run (fuel : nat) (a : @arguments binary64)
  : option (result (list (@tick binary64))) :=
  @generate binary64 plain_function plain_function (of_Z 3) even_odds fuel a.

(** A run of six hours' interval in exact arithmetic, on 2014-01-01. *)
Definition six_hours : Z := 6 * 3600 * Datetime.us_per_second.

(** The ticks of the wave model over that day, in binary64. *)
Definition wave_day : list (@tick binary64) :=
  match @waveModel binary64 plain_function (of_Z 3) jan_1 jan_1 (of_Z 2)
          (of_Z 4) six_hours ten_points (of_Z 1) with
  | Ok l => l
  | Raise _ => []
  end.

Definition exact_spread : Qc := Q2Qc (1 # 10000).

(** The ticks of the linear model from 2.0 to 4.0 over that day. *)
Definition exact_day : list (@tick Exact.exact) :=
  match @linearModel Exact.exact 5 jan_1 jan_1 (Exact.of_Z 2) (Exact.of_Z 4)
          six_hours exact_spread with
  | Some (Ok l) => l
  | _ => []
  end.

(** The zigzag model with [backward = 2] and the curve model over that day,
    in exact arithmetic; the exponential is replaced by the identity. *)
Definition exact_identity (x : Qc) : result Qc := Ok x.

Definition exact_zigzag_day : list (@tick Exact.exact) :=
  match @zigzagModel Exact.exact jan_1 jan_1 (Exact.of_Z 2) (Exact.of_Z 4)
          six_hours exact_spread (Q2Qc (1 # 25)) with
  | Ok l => l
  | Raise _ => []
  end.

Definition exact_curve_day : list (@tick Exact.exact) :=
  match @curveModel Exact.exact exact_identity jan_1 jan_1 (Exact.of_Z 2)
          (Exact.of_Z 4) six_hours exact_spread (Exact.of_Z 1) with
  | Ok l => l
  | Raise _ => []
  end.

End Cli.

(** * The vocabulary of the statements *)

Section Shapes.

Context {PF : PyFloat}.

(** [held R k s]: [k] ticks are emitted, and [R j t] holds of the tick [t]
    at each position [j], the one still to be emitted included. *)
Definition held (R : nat -> tick -> Prop) (k : nat) (s : vars) : Prop :=
  List.length (ticks s) = k /\
  forall j t, nth_error (emit s) j = Some t -> R j t.

(** One pass of a loop: the pending tick is emitted, the clock moves on by
    [deltaTime], and the volumes of the new pending tick are those of its
    timestamp. *)
Definition advanced (deltaTime : Z) (spread : float) (s s' : vars) : Prop :=
  ticks s' = emit s /\
  timestamp (next s') = timestamp (next s) + deltaTime /\
  volumesFromTimestamp (timestamp (next s')) spread
  = Ok (bidVolume (next s'), askVolume (next s')).

(** The ask price is the bid price plus the spread. *)
Definition quoted (spread : float) (t : tick) : Prop :=
  askPrice t = fadd (bidPrice t) spread.

(** What every model gives the tick at position [j]: its timestamp is
    [j] intervals after the start; the first tick has the volumes
    [1] and [1 + spread], every later one those of its timestamp. *)
Definition placed (startDate deltaTime : Z) (spread : float) (j : nat) (t : tick)
  : Prop :=
  timestamp t = startDate + Z.of_nat j * deltaTime /\
  match j with
  | O => bidVolume t = 1 /\ int_fadd 1 spread = Ok (askVolume t)
  | S _ =>
      volumesFromTimestamp (timestamp t) spread = Ok (bidVolume t, askVolume t)
  end.

(** A tick sequence whose ticks are all placed and quoted. *)
Definition shaped (startDate deltaTime : Z) (spread : float) (l : list tick)
  : Prop :=
  forall j t, nth_error l j = Some t ->
    placed startDate deltaTime spread j t /\ quoted spread t.

(** The prices of the linear model at position [j]: the start price, and
    the start price plus the spread, each advanced [j] times by the
    per-tick delta. *)
Definition drifted (startPrice spread deltaPrice : float) (j : nat) (t : tick)
  : Prop :=
  bidPrice t = Nat.iter j (fun p => fadd p deltaPrice) startPrice /\
  askPrice t = Nat.iter j (fun p => fadd p deltaPrice) (fadd startPrice spread).

End Shapes.

(** The script after a call of [error]: the line is on the error stream,
    the status is 1, and no later statement has run. *)
Definition complained (text : string) (w : world)
  (r : world * (unit + termination)) : Prop :=
  r = (mkWorld (stderr w ++ [("[ERROR] " ++ text)%string]) (stdout w) (files w),
       inr (Exit 1)).

Module Binary64Spec.

Import Binary64.

Definition pfin (lo hi : Z) (x : spec_float) : Prop :=
  match x with
  | S754_zero _ => True
  | S754_finite false m e => Zpos m < 2 ^ 53 /\ lo <= e <= hi
  | _ => False
  end.

Definition ppos (lo hi : Z) (x : spec_float) : Prop :=
  match x with
  | S754_finite false m e => Zpos m < 2 ^ 53 /\ lo <= e <= hi
  | _ => False
  end.

(** The modulus [1e3 - spread * 1e5] is a positive float below [2^53],
    as it is for every spread under 1000 points. *)
Definition modulus_ok (spread : spec_float) : Prop :=
  ppos (-1074) 0 (SFsub prec emax (of_Z 1000) (SFmul prec emax spread (of_Z 100000))).

(** The modulus test of [modulus_ok], as a boolean. *)
Definition modulus_okb (spread : spec_float) : bool :=
  match SFsub prec emax (of_Z 1000) (SFmul prec emax spread (of_Z 100000)) with
  | S754_finite false m e =>
      (Zpos m <? 2 ^ 53) && (-1074 <=? e) && (e <=? 0)
  | _ => false
  end.

(** The greatest integer not above a finite float. *)
Definition floor (x : spec_float) : Z :=
  match x with
  | S754_finite s m e => Z.shiftl (cond_Zopp s (Zpos m)) e
  | _ => 0
  end.

(** The bid volume in the order of the specification's words: [d] from
    the last three digits of the floor of the minutes, then the floor of
    [seconds / d], and the remainder of that integer by the modulus
    [1000 - spread * 1e5]. *)
Definition floor_then_mod (t : Z) (spread : spec_float) : result spec_float :=
  let seconds := @timestamp_float binary64 t in
  let d := floor (SFdiv prec emax seconds (of_Z 60)) mod 1000 + 1 in
  py_fmod (of_Z (floor (SFdiv prec emax seconds (of_Z d))))
    (SFsub prec emax (of_Z 1000) (SFmul prec emax spread (of_Z 100000))).

(** [args.spread / 1e5] of a spread in points. *)
Definition spread_of_points (points : Z) : result spec_float :=
  @int_fdiv binary64 points (@f1e5 binary64).

Definition points_ok (points : Z) : bool :=
  match spread_of_points points with
  | Ok spread => modulus_okb spread
  | Raise _ => false
  end.

(** The clock of a loop: [k] ticks are emitted, the pending one is [k]
    intervals after the start. *)
Definition clocked (startDate deltaTime : Z) (k : nat) (s : @vars binary64)
  : Prop :=
  List.length (ticks s) = k /\
  timestamp (next s) = startDate + Z.of_nat k * deltaTime.

(** The ticks of the linear model: as many as intervals start before the
    day after the end date. *)
Definition linear_count (startDate endDate deltaTime : Z) : Z :=
  (endDate + Datetime.us_per_day - startDate + deltaTime - 1) / deltaTime.

(** The modulus of a spread in points, tested against [1001 - points]. *)
Definition points_below (points : Z) : bool :=
  match spread_of_points points with
  | Ok spread =>
      match SFsub prec emax (of_Z 1000) (SFmul prec emax spread (of_Z 100000)) with
      | S754_finite false my ey =>
          (Zpos my <? 2 ^ 53) && (-1074 <=? ey) && (ey <=? 0)
          && (Zpos my <=? (1001 - points) * 2 ^ (- ey))
      | _ => false
      end
  | Raise _ => false
  end.

(** The interval of a density, tested against [60 / density] seconds: it
    is positive, at most a minute, and within half a microsecond. *)
Definition interval_near (density : Z) : bool :=
  match @interval binary64 density with
  | Ok dt =>
      (0 <? dt) && (dt <=? 60000000)
      && (2 * Z.abs (dt * density - 60000000) <=? density)
  | Raise _ => false
  end.

End Binary64Spec.

(** * Facts about the arithmetic *)

(** ** Rounding in binary64

    What [SpecFloat]'s rounding does to the sign, the mantissa and the
    exponent, as far as the generator needs it: results of the operations
    on the timestamps are finite, and quotients of positive integers are
    positive. *)

Module Binary64Facts.

Import Binary64.
Import Binary64Spec.

Lemma fexp_eq e : fexp prec emax e = Z.max (e - 53) (-1074).
Proof. reflexivity. Qed.

Lemma digits_log2 p : Zpos (digits2_pos p) = Z.log2 (Zpos p) + 1.
Proof.
  destruct p as [q|q|]; simpl; try reflexivity.
  - induction q; simpl; lia.
  - induction q; simpl; lia.
Qed.

Lemma digits_bounds m : 0 < m -> 2 ^ (Zdigits2 m - 1) <= m < 2 ^ Zdigits2 m.
Proof.
  intros H. destruct m as [|p|p]; try lia.
  unfold Zdigits2. rewrite digits_log2.
  replace (Z.log2 (Zpos p) + 1 - 1) with (Z.log2 (Zpos p)) by lia.
  replace (Z.log2 (Zpos p) + 1) with (Z.succ (Z.log2 (Zpos p))) by lia.
  apply Z.log2_spec. lia.
Qed.

Lemma digits_nonneg m : 0 <= Zdigits2 m.
Proof. destruct m; simpl; lia. Qed.

Lemma digits_pos m : 0 < m -> 1 <= Zdigits2 m.
Proof. destruct m; simpl; lia. Qed.

Lemma digits_le_bound m k : 0 <= m -> 0 <= k -> m < 2 ^ k -> Zdigits2 m <= k.
Proof.
  intros Hm Hk Hlt.
  destruct (Z.eq_dec m 0) as [->|Hne]; [simpl; lia|].
  assert (H := digits_bounds m ltac:(lia)).
  destruct (Z_le_gt_dec (Zdigits2 m) k) as [|Hgt]; [assumption|].
  exfalso.
  assert (2 ^ k <= 2 ^ (Zdigits2 m - 1)) by (apply Z.pow_le_mono_r; lia).
  lia.
Qed.

Lemma digits_ge_bound m k : 0 <= k -> 2 ^ k <= m -> k + 1 <= Zdigits2 m.
Proof.
  intros Hk Hle.
  assert (0 < 2 ^ k) by (apply Z.pow_pos_nonneg; lia).
  assert (H0 := digits_bounds m ltac:(lia)).
  destruct (Z_le_gt_dec (k + 1) (Zdigits2 m)) as [|Hgt]; [assumption|].
  exfalso.
  assert (0 <= Zdigits2 m) by apply digits_nonneg.
  assert (2 ^ Zdigits2 m <= 2 ^ k) by (apply Z.pow_le_mono_r; lia).
  lia.
Qed.

Lemma shr_m_of_loc m l : shr_m (shr_record_of_loc m l) = m.
Proof. destruct l as [|[| |]]; reflexivity. Qed.

Lemma shr_1_half r : 0 <= shr_m r -> shr_m (shr_1 r) = shr_m r / 2.
Proof.
  destruct r as [m r s]. simpl. intros Hm.
  destruct m as [|p|p]; try lia; [reflexivity|].
  destruct p as [q|q|]; simpl shr_m.
  - rewrite Pos2Z.inj_xI. apply Z.div_unique with (r := 1); lia.
  - rewrite Pos2Z.inj_xO. apply Z.div_unique with (r := 0); lia.
  - reflexivity.
Qed.

Lemma shr_iter p : forall r, 0 <= shr_m r ->
  shr_m (iter_pos shr_1 p r) = shr_m r / 2 ^ Zpos p.
Proof.
  assert (Hdiv : forall a b c, 0 <= a -> 0 < b -> 0 < c -> a / b / c = a / (b * c)).
  { intros. apply Z.div_div; lia. }
  assert (Hpow : forall q, 0 < 2 ^ Zpos q) by (intros; apply Z.pow_pos_nonneg; lia).
  assert (Hnn : forall a b, 0 <= a -> 0 < b -> 0 <= a / b) by (intros; apply Z.div_pos; lia).
  induction p as [q IH|q IH|]; intros r Hr; simpl iter_pos.
  - assert (H0 : shr_m (shr_1 r) = shr_m r / 2) by (apply shr_1_half; exact Hr).
    assert (H1 : 0 <= shr_m (shr_1 r)) by (rewrite H0; apply Hnn; lia).
    assert (H2 := IH _ H1).
    assert (H3 : 0 <= shr_m (iter_pos shr_1 q (shr_1 r))) by (rewrite H2; apply Hnn; auto).
    rewrite (IH _ H3), H2, H0.
    pose proof (Hpow q) as Hq.
    rewrite (Hdiv (shr_m r) 2 (2 ^ Zpos q)) by lia.
    rewrite Hdiv; try lia.
    f_equal.
    replace (Zpos q~1) with (1 + Zpos q + Zpos q) by lia.
    rewrite !Z.pow_add_r by lia. change (2 ^ 1) with 2. lia.
  - assert (H2 := IH _ Hr).
    assert (H3 : 0 <= shr_m (iter_pos shr_1 q r)) by (rewrite H2; apply Hnn; auto).
    rewrite (IH _ H3), H2. rewrite Hdiv; auto.
    f_equal.
    replace (Zpos q~0) with (Zpos q + Zpos q) by lia.
    rewrite Z.pow_add_r by lia. reflexivity.
  - rewrite shr_1_half by lia. reflexivity.
Qed.

Lemma rne_bounds m l : m <= round_nearest_even m l <= m + 1.
Proof.
  destruct l as [|[| |]]; simpl; try lia.
  destruct (Z.even m); lia.
Qed.

Lemma pow2_pos k : 0 <= k -> 0 < 2 ^ k.
Proof. intros; apply Z.pow_pos_nonneg; lia. Qed.

Lemma shr_fexp_spec m e l r e' : 0 <= m ->
  shr_fexp prec emax m e l = (r, e') ->
  e' = Z.max e (fexp prec emax (Zdigits2 m + e)) /\
  shr_m r = m / 2 ^ (e' - e) /\
  shr_m r < 2 ^ 53.
Proof.
  intros Hm. unfold shr_fexp, shr. rewrite fexp_eq.
  set (d := Zdigits2 m).
  assert (Hd : 0 <= d) by apply digits_nonneg.
  assert (Hlt : m < 2 ^ d).
  { destruct (Z.eq_dec m 0) as [->|]; [subst d; simpl; lia|].
    apply digits_bounds; lia. }
  destruct (Z.max (d + e - 53) (-1074) - e) as [|p|p] eqn:Hn; intros H; inversion H; subst; clear H.
  - rewrite shr_m_of_loc. replace (e' - e') with 0 by lia.
    rewrite Z.div_1_r. repeat split; try lia.
    assert (2 ^ d <= 2 ^ 53) by (apply Z.pow_le_mono_r; lia). lia.
  - rewrite shr_iter by (rewrite shr_m_of_loc; lia).
    rewrite shr_m_of_loc.
    replace (e + Zpos p - e) with (Zpos p) by lia.
    repeat split; try lia.
    apply Z.div_lt_upper_bound; [apply pow2_pos; lia|].
    rewrite <- Z.pow_add_r by lia.
    assert (2 ^ d <= 2 ^ (Zpos p + 53)) by (apply Z.pow_le_mono_r; lia). lia.
  - rewrite shr_m_of_loc. replace (e' - e') with 0 by lia.
    rewrite Z.div_1_r. repeat split; try lia.
    assert (2 ^ d <= 2 ^ 53) by (apply Z.pow_le_mono_r; lia). lia.
Qed.

Lemma bra_spec s mx ex lx : 0 <= mx ->
  let e1 := Z.max ex (fexp prec emax (Zdigits2 mx + ex)) in
  match binary_round_aux prec emax s mx ex lx with
  | S754_zero s' => s' = s
  | S754_finite s' m e =>
      s' = s /\ Zpos m < 2 ^ 53 /\ e1 <= e <= e1 + 1 /\ e <= 971
  | S754_infinity s' => s' = s /\ 971 <= e1
  | S754_nan => False
  end.
Proof.
  intros Hm e1. unfold binary_round_aux.
  destruct (shr_fexp prec emax mx ex lx) as [r1 e'] eqn:H1.
  destruct (shr_fexp_spec _ _ _ _ _ Hm H1) as (He' & Hr1 & Hr1lt).
  fold e1 in He'.
  assert (Hex : ex <= e1) by (unfold e1; lia).
  assert (He1 : -1074 <= e1) by (unfold e1; rewrite fexp_eq; lia).
  clearbody e1.
  assert (Hr1nn : 0 <= shr_m r1).
  { rewrite Hr1. apply Z.div_pos.
    - exact Hm.
    - apply pow2_pos. lia. }
  set (m1 := round_nearest_even (shr_m r1) (loc_of_shr_record r1)).
  assert (Hm1 := rne_bounds (shr_m r1) (loc_of_shr_record r1)). fold m1 in Hm1.
  destruct (shr_fexp prec emax m1 e' loc_Exact) as [r2 e''] eqn:H2.
  assert (Hm1nn : 0 <= m1) by lia.
  destruct (shr_fexp_spec _ _ _ _ _ Hm1nn H2) as (He'' & Hr2 & Hr2lt).
  rewrite fexp_eq in He''.
  assert (Hd1 : Zdigits2 m1 <= 54).
  { apply digits_le_bound; lia. }
  assert (Hr2nn : 0 <= shr_m r2).
  { rewrite Hr2. apply Z.div_pos; [lia|apply pow2_pos]. lia. }
  assert (Hr2le : shr_m r2 <= 2 ^ 53).
  { rewrite Hr2.
    destruct (Z.eq_dec e'' e') as [->|Hne].
    - replace (e' - e') with 0 by lia. rewrite Z.div_1_r. lia.
    - assert (He : e'' - e' = 1) by lia. rewrite He.
      change (2 ^ 1) with 2.
      apply Z.div_le_upper_bound; lia. }
  destruct (shr_m r2) as [|p|p] eqn:Hp; try lia.
  - reflexivity.
  - destruct (e'' <=? emax - prec) eqn:Hle.
    + apply Z.leb_le in Hle. unfold emax, prec in Hle. repeat split; lia.
    + apply Z.leb_gt in Hle. unfold emax, prec in Hle. split; [reflexivity|lia].
Qed.

Lemma div_pow2_pos m k : 0 < m -> 0 <= k <= Zdigits2 m - 1 -> 1 <= m / 2 ^ k.
Proof.
  intros Hm Hk.
  assert (H := digits_bounds m Hm).
  assert (2 ^ k <= 2 ^ (Zdigits2 m - 1)) by (apply Z.pow_le_mono_r; lia).
  apply Z.div_le_lower_bound; [apply pow2_pos; lia|lia].
Qed.

Lemma bra_nonzero s mx ex lx : 0 < mx -> -1074 <= Zdigits2 mx + ex - 53 ->
  forall s', binary_round_aux prec emax s mx ex lx <> S754_zero s'.
Proof.
  intros Hm Hn s'. unfold binary_round_aux.
  destruct (shr_fexp prec emax mx ex lx) as [r1 e'] eqn:H1.
  assert (Hm0 : 0 <= mx) by lia.
  destruct (shr_fexp_spec _ _ _ _ _ Hm0 H1) as (He' & Hr1 & Hr1lt).
  rewrite fexp_eq in He'.
  assert (Hd := digits_pos mx Hm).
  assert (Hr1pos : 1 <= shr_m r1).
  { rewrite Hr1. apply div_pow2_pos; lia. }
  set (m1 := round_nearest_even (shr_m r1) (loc_of_shr_record r1)).
  assert (Hm1 := rne_bounds (shr_m r1) (loc_of_shr_record r1)). fold m1 in Hm1.
  destruct (shr_fexp prec emax m1 e' loc_Exact) as [r2 e''] eqn:H2.
  assert (Hm1nn : 0 <= m1) by lia.
  destruct (shr_fexp_spec _ _ _ _ _ Hm1nn H2) as (He'' & Hr2 & Hr2lt).
  rewrite fexp_eq in He''.
  assert (Hd1 := digits_pos m1 ltac:(lia)).
  assert (Hr2pos : 1 <= shr_m r2).
  { rewrite Hr2. apply div_pow2_pos; lia. }
  destruct (shr_m r2) as [|p|p]; try lia.
  destruct (e'' <=? emax - prec); discriminate.
Qed.

(** Alignment of a mantissa *)

Lemma iter_xO m d : Zpos (Pos.iter xO m d) = Zpos m * 2 ^ Zpos d.
Proof.
  induction d as [|d IH] using Pos.peano_ind.
  - simpl. lia.
  - rewrite Pos.iter_succ, Pos2Z.inj_xO, IH, Pos2Z.inj_succ, Z.pow_succ_r by lia. lia.
Qed.

Lemma shl_align_spec mx ex ex' mz ez :
  shl_align mx ex ex' = (mz, ez) ->
  ez = Z.min ex ex' /\ Zpos mz = Zpos mx * 2 ^ (ex - ez).
Proof.
  unfold shl_align. destruct (ex' - ex) as [|p|p] eqn:Hd; intros H; inversion H; subst; clear H.
  - split; [lia|]. replace (ez - ez) with 0 by lia. simpl. lia.
  - split; [lia|]. replace (ez - ez) with 0 by lia. simpl. lia.
  - split; [lia|]. rewrite iter_xO. f_equal. f_equal. lia.
Qed.

Lemma digits_shift m k : 0 < m -> 0 <= k -> Zdigits2 (m * 2 ^ k) = Zdigits2 m + k.
Proof.
  intros Hm Hk.
  assert (Hp := pow2_pos k Hk).
  assert (Hmk : 0 < m * 2 ^ k) by lia.
  destruct m as [|p|p]; try lia.
  destruct (Zpos p * 2 ^ k) as [|q|q] eqn:Hq; try lia.
  unfold Zdigits2. rewrite !digits_log2, <- Hq.
  rewrite Z.log2_mul_pow2 by lia. lia.
Qed.

Lemma binary_round_spec s mx ex :
  let F := fexp prec emax (Zdigits2 (Zpos mx) + ex) in
  match binary_round prec emax s mx ex with
  | S754_zero s' => s' = s
  | S754_finite s' m e =>
      s' = s /\ Zpos m < 2 ^ 53 /\ F <= e <= F + 1 /\ e <= 971
  | S754_infinity s' => s' = s /\ 971 <= F
  | S754_nan => False
  end.
Proof.
  intros F. unfold binary_round.
  destruct (shl_align mx ex (fexp prec emax (Zpos (digits2_pos mx) + ex))) as [mz ez] eqn:Ha.
  destruct (shl_align_spec _ _ _ _ _ Ha) as (Hez & Hmz).
  change (Zpos (digits2_pos mx)) with (Zdigits2 (Zpos mx)) in Hez. fold F in Hez.
  assert (Hmz0 : 0 <= Zpos mz) by lia.
  assert (Hb := bra_spec s (Zpos mz) ez loc_Exact Hmz0).
  cbv zeta in Hb.
  assert (Hdig : Zdigits2 (Zpos mz) + ez = Zdigits2 (Zpos mx) + ex).
  { rewrite Hmz, digits_shift by lia. lia. }
  rewrite Hdig in Hb. fold F in Hb.
  replace (Z.max ez F) with F in Hb by lia.
  exact Hb.
Qed.

Lemma binary_round_nonzero s mx ex :
  -1074 <= Zdigits2 (Zpos mx) + ex - 53 ->
  forall s', binary_round prec emax s mx ex <> S754_zero s'.
Proof.
  intros Hn s'. unfold binary_round.
  destruct (shl_align mx ex (fexp prec emax (Zpos (digits2_pos mx) + ex))) as [mz ez] eqn:Ha.
  destruct (shl_align_spec _ _ _ _ _ Ha) as (Hez & Hmz).
  apply bra_nonzero; [lia|].
  rewrite Hmz, digits_shift by lia. lia.
Qed.

(** Non-negative finite floats with a bounded exponent *)



Lemma ppos_pfin lo hi x : ppos lo hi x -> pfin lo hi x.
Proof. destruct x as [| | |[|]]; simpl; tauto. Qed.

Lemma pfin_weaken lo hi lo' hi' x :
  lo' <= lo -> hi <= hi' -> pfin lo hi x -> pfin lo' hi' x.
Proof. destruct x as [| | |[|]]; simpl; try tauto. intros; lia. Qed.

Lemma pfin_finite lo hi x : pfin lo hi x -> finite x = true /\ nan x = false.
Proof. destruct x as [| | |[|]]; simpl; tauto. Qed.

Lemma digits_lt_53 m : Zpos m < 2 ^ 53 -> 1 <= Zdigits2 (Zpos m) <= 53.
Proof.
  intros H. split; [apply digits_pos; lia|apply digits_le_bound; lia].
Qed.

Lemma of_Z_ppos n : 0 < n < 2 ^ 62 -> ppos (-52) 10 (of_Z n).
Proof.
  intros Hn. unfold of_Z, binary_normalize.
  destruct n as [|p|p]; try lia.
  assert (Hd : 1 <= Zdigits2 (Zpos p) <= 62).
  { split; [apply digits_pos; lia|apply digits_le_bound; lia]. }
  assert (Hs := binary_round_spec false p 0).
  assert (Hz := binary_round_nonzero false p 0 ltac:(lia)).
  cbv zeta in Hs. rewrite fexp_eq in Hs.
  destruct (binary_round prec emax false p 0) as [s'|s'| |[|] m e]; simpl.
  - exact (Hz s' eq_refl).
  - lia.
  - exact Hs.
  - destruct Hs as [Hs _]. discriminate.
  - lia.
Qed.

Lemma of_Z_pfin n : 0 <= n < 2 ^ 62 -> pfin (-52) 10 (of_Z n).
Proof.
  intros Hn. destruct (Z.eq_dec n 0) as [->|Hne]; [exact I|].
  apply ppos_pfin, of_Z_ppos. lia.
Qed.

Lemma div_core_spec m1 e1 m2 e2 q e' l : 0 < m1 -> 0 < m2 ->
  SFdiv_core_binary prec emax m1 e1 m2 e2 = (q, e', l) ->
  e' = Z.min (fexp prec emax (Zdigits2 m1 + e1 - (Zdigits2 m2 + e2))) (e1 - e2) /\
  q = (m1 * 2 ^ (e1 - e2 - e')) / m2.
Proof.
  intros H1 H2. unfold SFdiv_core_binary.
  set (E := Z.min (fexp prec emax (Zdigits2 m1 + e1 - (Zdigits2 m2 + e2))) (e1 - e2)).
  assert (Hs : 0 <= e1 - e2 - E) by (unfold E; lia).
  set (m' := match e1 - e2 - E with Z.pos _ => Z.shiftl m1 (e1 - e2 - E) | 0 => m1 | Z.neg _ => 0 end).
  assert (Hm' : m' = m1 * 2 ^ (e1 - e2 - E)).
  { unfold m'. destruct (e1 - e2 - E) as [|p|p] eqn:Hp; try lia.
    rewrite Z.shiftl_mul_pow2 by lia. reflexivity. }
  destruct (Z.div_eucl m' m2) as [q0 r0] eqn:Hq.
  intros H; inversion H; subst q e' l; clear H.
  split; [reflexivity|].
  rewrite <- Hm'. unfold Z.div. rewrite Hq. reflexivity.
Qed.

Lemma quotient_digits m1 m2 s : 0 < m1 -> 0 < m2 -> 0 <= s ->
  0 <= m1 * 2 ^ s / m2 /\
  Zdigits2 (m1 * 2 ^ s / m2) <= Z.max 0 (Zdigits2 m1 + s - Zdigits2 m2 + 1).
Proof.
  intros H1 H2 Hs.
  assert (Hp := pow2_pos s Hs).
  assert (Hq : 0 <= m1 * 2 ^ s / m2) by (apply Z.div_pos; lia).
  split; [exact Hq|].
  assert (B1 := digits_bounds m1 H1). assert (B2 := digits_bounds m2 H2).
  assert (D1 := digits_pos m1 H1). assert (D2 := digits_pos m2 H2).
  set (k := Zdigits2 m1 + s - Zdigits2 m2 + 1).
  assert (Hnum : m1 * 2 ^ s < 2 ^ (Zdigits2 m1 + s)).
  { rewrite Z.pow_add_r by lia. nia. }
  destruct (Z_le_gt_dec k 0) as [Hk|Hk].
  - assert (2 ^ (Zdigits2 m1 + s) <= 2 ^ (Zdigits2 m2 - 1)) by (apply Z.pow_le_mono_r; lia).
    rewrite Z.div_small by lia. simpl. lia.
  - replace (Z.max 0 k) with k by lia.
    apply digits_le_bound; try lia.
    apply Z.div_lt_upper_bound; [lia|].
    assert (Hk2 : 2 ^ (Zdigits2 m1 + s) = 2 ^ (Zdigits2 m2 - 1) * 2 ^ k).
    { rewrite <- Z.pow_add_r by lia. f_equal. unfold k. lia. }
    assert (0 < 2 ^ k) by (apply pow2_pos; lia).
    nia.
Qed.

Lemma SFdiv_pfin lo1 hi1 lo2 hi2 x y :
  pfin lo1 hi1 x -> ppos lo2 hi2 y ->
  -1074 <= hi1 - lo2 <= 970 ->
  pfin (lo1 - hi2 - 105) (hi1 - lo2 + 1) (SFdiv prec emax x y).
Proof.
  intros Hx Hy Hb.
  destruct y as [| | |[|] my ey]; simpl in Hy; try tauto.
  destruct x as [sx| | |[|] mx ex]; simpl in Hx; try tauto.
  destruct Hx as [Hmx Hex]. destruct Hy as [Hmy Hey].
  unfold SFdiv.
  destruct (SFdiv_core_binary prec emax (Zpos mx) ex (Zpos my) ey) as [[q e'] l] eqn:Hc.
  assert (Px : 0 < Zpos mx) by lia. assert (Py : 0 < Zpos my) by lia.
  destruct (div_core_spec _ _ _ _ _ _ _ Px Py Hc) as [He' Hq].
  rewrite fexp_eq in He'.
  assert (Dx := digits_lt_53 _ Hmx). assert (Dy := digits_lt_53 _ Hmy).
  assert (Hs : 0 <= ex - ey - e') by lia.
  destruct (quotient_digits (Zpos mx) (Zpos my) _ Px Py Hs) as [Hq0 Hqd].
  rewrite <- Hq in Hq0, Hqd.
  assert (Hb2 := bra_spec (xorb false false) q e' l Hq0).
  cbv zeta in Hb2. rewrite fexp_eq in Hb2. simpl xorb in *.
  destruct (binary_round_aux prec emax false q e' l) as [s'|s'| |[|] m e]; simpl; try exact I.
  - lia.
  - exact Hb2.
  - destruct Hb2 as [Hb2 _]. discriminate.
  - lia.
Qed.

Lemma SFadd_pfin lo1 hi1 lo2 hi2 x y :
  pfin lo1 hi1 x -> pfin lo2 hi2 y ->
  -1074 <= Z.min lo1 lo2 -> Z.max hi1 hi2 <= 969 ->
  pfin (Z.min lo1 lo2 - 52) (Z.max hi1 hi2 + 2) (SFadd prec emax x y).
Proof.
  intros Hx Hy Hlo Hhi.
  destruct x as [sx| | |[|] mx ex]; simpl in Hx; try tauto;
  destruct y as [sy| | |[|] my ey]; simpl in Hy; try tauto.
  - simpl. destruct sx, sy; exact I.
  - simpl. lia.
  - simpl. lia.
  - destruct Hx as [Hmx Hex]. destruct Hy as [Hmy Hey].
    unfold SFadd.
    destruct (shl_align mx ex (Z.min ex ey)) as [ax ez1] eqn:Hax.
    destruct (shl_align my ey (Z.min ex ey)) as [ay ez2] eqn:Hay.
    destruct (shl_align_spec _ _ _ _ _ Hax) as [Hz1 Hvx].
    destruct (shl_align_spec _ _ _ _ _ Hay) as [Hz2 Hvy].
    simpl fst. simpl cond_Zopp.
    change (Zpos ax + Zpos ay) with (Zpos (ax + ay)).
    unfold binary_normalize.
    set (ez := Z.min ex ey) in *.
    assert (Hs := binary_round_spec false (ax + ay) ez).
    cbv zeta in Hs. rewrite fexp_eq in Hs.
    assert (Hd : 1 <= Zdigits2 (Zpos (ax + ay)) <= 54 + Z.max ex ey - ez).
    { split; [apply digits_pos; lia|].
      apply digits_le_bound; try lia.
      rewrite Pos2Z.inj_add, Hvx, Hvy.
      assert (P1 : 2 ^ (ex - ez1) <= 2 ^ (Z.max ex ey - ez)) by (apply Z.pow_le_mono_r; lia).
      assert (P2 : 2 ^ (ey - ez2) <= 2 ^ (Z.max ex ey - ez)) by (apply Z.pow_le_mono_r; lia).
      assert (P3 : 0 < 2 ^ (ex - ez1)) by (apply pow2_pos; lia).
      assert (P4 : 0 < 2 ^ (ey - ez2)) by (apply pow2_pos; lia).
      replace (54 + Z.max ex ey - ez) with (1 + 53 + (Z.max ex ey - ez)) by lia.
      rewrite !Z.pow_add_r by lia. change (2 ^ 1) with 2.
      nia. }
    destruct (binary_round prec emax false (ax + ay) ez) as [s'|s'| |[|] m e]; simpl; try exact I.
    + lia.
    + exact Hs.
    + destruct Hs as [Hs _]. discriminate.
    + lia.
Qed.

Lemma ceil_ppos lo hi x : ppos lo hi x -> 1 <= ceil x.
Proof.
  destruct x as [| | |[|] m e]; simpl; try tauto. intros _.
  destruct (Z_le_gt_dec 0 e) as [He|He].
  - rewrite Z.shiftl_mul_pow2 by lia.
    assert (0 < 2 ^ e) by (apply pow2_pos; lia). nia.
  - rewrite Z.shiftl_div_pow2 by lia.
    assert (0 < 2 ^ (- e)) by (apply pow2_pos; lia).
    assert (Z.neg m / 2 ^ (- e) < 0) by (apply Z.div_lt_upper_bound; lia).
    lia.
Qed.

Lemma trunc_pfin lo hi x : pfin lo hi x -> 0 <= trunc x.
Proof.
  destruct x as [| | |[|] m e]; simpl; try tauto; try lia. intros _.
  apply Z.shiftl_nonneg. lia.
Qed.

Lemma truediv_ppos a b : 0 < a < 2 ^ 62 -> 0 < b < 2 ^ 62 ->
  exists x, truediv a b = Ok x /\ ppos (-115) 64 x.
Proof.
  intros Ha Hb. unfold truediv.
  destruct (Z.eqb_spec b 0) as [|_]; [lia|].
  destruct (Z.eqb_spec a 0) as [|_]; [lia|].
  replace (a <? 0) with false by (symmetry; apply Z.ltb_ge; lia).
  replace (b <? 0) with false by (symmetry; apply Z.ltb_ge; lia).
  simpl xorb. rewrite !Z.abs_eq by lia.
  destruct (SFdiv_core_binary prec emax a 0 b 0) as [[q e'] l] eqn:Hc.
  assert (Pa : 0 < a) by lia. assert (Pb : 0 < b) by lia.
  destruct (div_core_spec _ _ _ _ _ _ _ Pa Pb Hc) as [He' Hq].
  rewrite fexp_eq in He'.
  assert (Da : 1 <= Zdigits2 a <= 62) by (split; [apply digits_pos; lia|apply digits_le_bound; lia]).
  assert (Db : 1 <= Zdigits2 b <= 62) by (split; [apply digits_pos; lia|apply digits_le_bound; lia]).
  assert (Hs : 0 <= 0 - 0 - e') by lia.
  destruct (quotient_digits a b _ Pa Pb Hs) as [Hq0 Hqd].
  rewrite <- Hq in Hq0, Hqd.
  assert (Hq1 : 1 <= q).
  { rewrite Hq. apply Z.div_le_lower_bound; [lia|].
    assert (Ba := digits_bounds a Pa). assert (Bb := digits_bounds b Pb).
    assert (Hp : 2 ^ Zdigits2 b <= 2 ^ (Zdigits2 a - 1) * 2 ^ (0 - 0 - e')).
    { rewrite <- Z.pow_add_r by lia. apply Z.pow_le_mono_r; lia. }
    assert (0 < 2 ^ (0 - 0 - e')) by (apply pow2_pos; lia).
    nia. }
  assert (Dq := digits_pos q ltac:(lia)).
  assert (Hb2 := bra_spec false q e' l Hq0).
  assert (Hz := bra_nonzero false q e' l ltac:(lia) ltac:(lia)).
  cbv zeta in Hb2. rewrite fexp_eq in Hb2.
  destruct (binary_round_aux prec emax false q e' l) as [s'|s'| |[|] m e].
  - exfalso. exact (Hz s' eq_refl).
  - lia.
  - tauto.
  - destruct Hb2 as [Hb2 _]. discriminate.
  - eexists; split; [reflexivity|]. simpl. lia.
Qed.

Lemma py_fmod_pfin lo hi lo2 hi2 x y :
  pfin lo hi x -> ppos lo2 hi2 y -> hi2 <= 900 ->
  exists r, py_fmod x y = Ok r /\ pfin (-1074) (Z.max hi2 (-1074) + 1) r.
Proof.
  intros Hx Hy Hhi.
  destruct y as [| | |[|] my ey]; simpl in Hy; try tauto.
  destruct Hy as [Hmy Hey].
  destruct x as [sx| | |[|] mx ex]; simpl in Hx; try tauto.
  - exists (S754_zero false). split; [reflexivity|exact I].
  - unfold py_fmod.
    change (SFeqb (S754_finite false my ey) (S754_zero false)) with false.
    change (SFltb (S754_finite false my ey) (S754_zero false)) with false.
    cbv iota. unfold c_fmod.
    set (e := Z.min ex ey).
    rewrite !Z.shiftl_mul_pow2 by lia.
    set (X := Zpos mx * 2 ^ (ex - e)).
    set (Y := Zpos my * 2 ^ (ey - e)).
    assert (PX : 0 < 2 ^ (ex - e)) by (apply pow2_pos; lia).
    assert (PY : 0 < 2 ^ (ey - e)) by (apply pow2_pos; lia).
    assert (HX : 0 <= X) by (unfold X; nia).
    assert (HY : 0 < Y) by (unfold Y; nia).
    assert (HR := Z.rem_bound_pos X Y HX HY).
    assert (DY : Zdigits2 Y = Zdigits2 (Zpos my) + (ey - e)).
    { unfold Y. apply digits_shift; lia. }
    assert (Dmy := digits_lt_53 _ Hmy).
    unfold of_scaled.
    destruct (Z.rem X Y) as [|r|r] eqn:HRr; try lia.
    + exists (S754_zero false). split; [reflexivity|exact I].
    + simpl Z.abs. simpl cond_Zopp. unfold binary_normalize.
      assert (Hs := binary_round_spec false r e).
      cbv zeta in Hs. rewrite fexp_eq in Hs.
      assert (Dr : 1 <= Zdigits2 (Zpos r) <= Zdigits2 Y).
      { split; [apply digits_pos; lia|].
        assert (B := digits_bounds Y HY).
        apply digits_le_bound; lia. }
      destruct (binary_round prec emax false r e) as [s'|s'| |[|] m e0].
      * subst s'. exists (S754_zero false). split; [reflexivity|exact I].
      * lia.
      * tauto.
      * destruct Hs as [Hs _]. discriminate.
      * exists (S754_finite false m e0). split; [reflexivity|]. simpl. lia.
Qed.

End Binary64Facts.

(** ** Decimal text of an integer *)

Module StrFacts.

Import Str.

Lemma digit_cases d : 0 <= d <= 9 ->
  d = 0 \/ d = 1 \/ d = 2 \/ d = 3 \/ d = 4 \/ d = 5 \/ d = 6 \/ d = 7 \/ d = 8 \/ d = 9.
Proof. lia. Qed.

Ltac each_digit H :=
  destruct (digit_cases _ H) as [->|[->|[->|[->|[->|[->|[->|[->|[->| ->]]]]]]]]].

Lemma digit_value_char d : 0 <= d <= 9 -> digit_value (digit_char d) = Some d.
Proof. intros H. each_digit H; reflexivity. Qed.

Lemma int_of_str_digit d s : 0 <= d <= 9 ->
  int_of_str (String (digit_char d) s) =
  match parse_digits s d with
  | Some n => Ok n
  | None => Raise ValueError
  end.
Proof. intros H. each_digit H; reflexivity. Qed.

Lemma parse_digits_cons d s acc : 0 <= d <= 9 ->
  parse_digits (String (digit_char d) s) acc = parse_digits s (10 * acc + d).
Proof.
  intros H. change (parse_digits (String (digit_char d) s) acc)
    with (match digit_value (digit_char d) with
          | Some x => parse_digits s (10 * acc + x)
          | None => None
          end).
  rewrite digit_value_char by exact H. reflexivity.
Qed.

Lemma append_assoc (a b c : string) :
  ((a ++ b) ++ c = a ++ (b ++ c))%string.
Proof. induction a as [|x a IH]; cbn [append]; [reflexivity|now rewrite IH]. Qed.

Lemma decimal_step fuel n acc :
  decimal (S fuel) n acc =
  if n <? 10 then String (digit_char (n mod 10)) acc
  else decimal fuel (n / 10) (String (digit_char (n mod 10)) acc).
Proof. reflexivity. Qed.

Lemma decimal_app fuel : forall n acc,
  decimal fuel n acc = (decimal fuel n EmptyString ++ acc)%string.
Proof.
  induction fuel as [|f IH]; intros n acc.
  - reflexivity.
  - rewrite !decimal_step. destruct (n <? 10).
    + reflexivity.
    + rewrite (IH (n / 10) (String _ acc)), (IH (n / 10) (String _ EmptyString)).
      rewrite append_assoc. reflexivity.
Qed.

Lemma substring_all s : substring 0 (String.length s) s = s.
Proof. induction s as [|c s IH]; cbn [substring String.length]; [reflexivity|now rewrite IH]. Qed.

Lemma substring_skip p : forall k t,
  substring (String.length p) k (p ++ t)%string = substring 0 k t.
Proof. induction p as [|c p IH]; intros; cbn [substring String.length append]; [reflexivity|apply IH]. Qed.

Lemma length_app p t :
  String.length (p ++ t)%string = (String.length p + String.length t)%nat.
Proof. induction p as [|c p IH]; cbn [String.length append]; [reflexivity|rewrite IH; reflexivity]. Qed.

Lemma last_chars_app p t : last_chars (String.length t) (p ++ t)%string = t.
Proof.
  unfold last_chars. rewrite length_app.
  replace (String.length p + String.length t - String.length t)%nat
    with (String.length p) by lia.
  rewrite substring_skip. apply substring_all.
Qed.

Lemma mod10_range n : 0 <= n mod 10 <= 9.
Proof. assert (H := Z.mod_pos_bound n 10 ltac:(lia)). lia. Qed.

Lemma last_chars_short1 a : last_chars 3 (String a EmptyString) = String a EmptyString.
Proof. reflexivity. Qed.

Lemma last_chars_short2 a b :
  last_chars 3 (String a (String b EmptyString)) = String a (String b EmptyString).
Proof. reflexivity. Qed.

Lemma last_chars_short3 a b c :
  last_chars 3 (String a (String b (String c EmptyString)))
  = String a (String b (String c EmptyString)).
Proof. reflexivity. Qed.

Lemma parse_nil acc : parse_digits EmptyString acc = Some acc.
Proof. reflexivity. Qed.

Lemma last3_digits n : 0 <= n ->
  int_of_str (last_chars 3 (str_of_int n)) = Ok (n mod 1000).
Proof.
  intros Hn. unfold str_of_int.
  destruct (Z.ltb_spec n 0) as [|_]; [lia|].
  unfold decimal_fuel.
  assert (R0 := mod10_range n).
  assert (R1 := mod10_range (n / 10)).
  assert (R2 := mod10_range (n / 10 / 10)).
  rewrite decimal_step.
  destruct (Z.ltb_spec n 10) as [H10|H10].
  { rewrite last_chars_short1, int_of_str_digit, parse_nil by exact R0.
    cbv beta iota. f_equal. clear R0 R1 R2. Z.div_mod_to_equations. lia. }
  assert (L : 3 <= Z.log2 n).
  { assert (Z.log2 10 <= Z.log2 n) by (apply Z.log2_le_mono; lia).
    change (Z.log2 10) with 3 in *. lia. }
  destruct (Z.to_nat (Z.log2 n)) as [|[|[|f]]] eqn:Hf; try lia.
  rewrite decimal_step.
  destruct (Z.ltb_spec (n / 10) 10) as [H100|H100].
  { rewrite last_chars_short2, int_of_str_digit, parse_digits_cons, parse_nil
      by assumption.
    cbv beta iota. f_equal. clear R0 R1 R2. Z.div_mod_to_equations. lia. }
  rewrite decimal_step.
  destruct (Z.ltb_spec (n / 10 / 10) 10) as [H1000|H1000].
  { rewrite last_chars_short3, int_of_str_digit, !parse_digits_cons, parse_nil
      by assumption.
    cbv beta iota. f_equal. clear R0 R1 R2. Z.div_mod_to_equations. lia. }
  rewrite decimal_app.
  set (t := String (digit_char (n / 10 / 10 mod 10))
              (String (digit_char (n / 10 mod 10))
                 (String (digit_char (n mod 10)) EmptyString))).
  change 3%nat with (String.length t).
  rewrite last_chars_app. unfold t.
  rewrite int_of_str_digit, !parse_digits_cons, parse_nil by assumption.
  cbv beta iota. f_equal. clear R0 R1 R2. Z.div_mod_to_equations. lia.
Qed.

End StrFacts.

(** ** The volume synthesizer in binary64 never fails after the epoch *)

Module Binary64Volumes.

Import Binary64 Binary64Facts StrFacts.
Import Binary64Spec.

Lemma ppos_nonzero lo hi y : ppos lo hi y -> SFeqb y (of_Z 0) = false.
Proof. destruct y as [| | |[|] m e]; simpl; tauto. Qed.

Lemma float_of_int_b64 n : 0 <= n < 2 ^ 62 ->
  @float_of_int binary64 n = Ok (of_Z n).
Proof.
  intros Hn. unfold float_of_int. cbn [Zfloat is_finite binary64].
  destruct (pfin_finite _ _ _ (of_Z_pfin n Hn)) as [-> _]. reflexivity.
Qed.

Lemma fdiv_int_b64 x n : 0 < n < 2 ^ 62 ->
  @fdiv_int binary64 x n = Ok (SFdiv prec emax x (of_Z n)).
Proof.
  intros Hn. unfold fdiv_int. rewrite float_of_int_b64 by lia.
  cbn [bind]. unfold fdiv. cbn [feqb Zfloat fdiv_raw binary64].
  rewrite (ppos_nonzero _ _ _ (of_Z_ppos n Hn)). reflexivity.
Qed.

Lemma int_of_float_b64 lo hi x : pfin lo hi x ->
  @int_of_float binary64 x = Ok (trunc x).
Proof.
  intros Hx. unfold int_of_float. cbn [is_nan is_finite trunc_finite binary64].
  destruct (pfin_finite _ _ _ Hx) as [-> ->]. reflexivity.
Qed.

Lemma int_fadd_b64 n x : 0 <= n < 2 ^ 62 ->
  @int_fadd binary64 n x = Ok (SFadd prec emax (of_Z n) x).
Proof.
  intros Hn. unfold int_fadd. rewrite float_of_int_b64 by lia. reflexivity.
Qed.

Lemma trunc_bound lo hi x : pfin lo hi x -> hi <= 8 -> 0 <= trunc x < 2 ^ 62.
Proof.
  intros Hx Hhi. split; [eapply trunc_pfin; eassumption|].
  destruct x as [| | |[|] m e]; simpl in Hx; try tauto; simpl trunc; try lia.
  destruct Hx as [Hm He].
  destruct (Z_le_gt_dec 0 e) as [H0|H0].
  - rewrite Z.shiftl_mul_pow2 by lia.
    assert (2 ^ e <= 2 ^ 8) by (apply Z.pow_le_mono_r; lia).
    assert (0 < 2 ^ e) by (apply pow2_pos; lia).
    change (2 ^ 62) with (2 ^ 54 * 2 ^ 8). change (Z.pow_pos 2 53) with (2 ^ 53) in Hm.
    assert (2 ^ 53 < 2 ^ 54) by reflexivity. nia.
  - rewrite Z.shiftl_div_pow2 by lia.
    assert (0 < 2 ^ (- e)) by (apply pow2_pos; lia).
    apply Z.div_lt_upper_bound; [lia|].
    change (Z.pow_pos 2 53) with (2 ^ 53) in Hm.
    assert (2 ^ 53 < 2 ^ 62) by reflexivity. nia.
Qed.

(** The float of a timestamp at or after the epoch. *)
Lemma timestamp_float_pfin t : 0 <= t < 2 ^ 62 ->
  pfin (-219) 65 (@timestamp_float binary64 t).
Proof.
  intros Ht. unfold timestamp_float, Datetime.us_per_second.
  cbn [fadd fdiv_raw Zfloat binary64].
  assert (Hs : 0 <= t / 1000000 < 2 ^ 62).
  { split; [apply Z.div_pos; lia|].
    apply Z.div_lt_upper_bound; lia. }
  assert (Hu : 0 <= t mod 1000000 < 2 ^ 62).
  { assert (H := Z.mod_pos_bound t 1000000 ltac:(lia)).
    assert (1000000 < 2 ^ 62) by reflexivity. lia. }
  assert (H1 := of_Z_pfin _ Hs). assert (H2 := of_Z_pfin _ Hu).
  assert (H3 : ppos (-52) 10 (of_Z 1000000)) by (apply of_Z_ppos; split; reflexivity).
  assert (H4 := SFdiv_pfin _ _ _ _ _ _ H2 H3 ltac:(lia)).
  assert (H5 := SFadd_pfin _ _ _ _ _ _ H1 H4 ltac:(lia) ltac:(lia)).
  eapply pfin_weaken; [| |exact H5]; lia.
Qed.


(** At or after the epoch, and with a positive modulus, the volumes are
    computed without an exception, by the formula of the source. *)
Lemma volumes_formula t spread : 0 <= t < 2 ^ 62 -> modulus_ok spread ->
  let longTimestamp := @timestamp_float binary64 t in
  let scaled := SFmul prec emax spread (of_Z 100000) in
  let d := trunc (SFdiv prec emax longTimestamp (of_Z 60)) mod 1000 + 1 in
  exists r,
    py_fmod (SFdiv prec emax longTimestamp (of_Z d))
            (SFsub prec emax (of_Z 1000) scaled) = Ok r /\
    @volumesFromTimestamp binary64 t spread
    = Ok (trunc r, SFadd prec emax (of_Z (trunc r)) scaled) /\
    0 <= trunc r < 2 ^ 62.
Proof.
  intros Ht HM. cbv zeta. unfold volumesFromTimestamp.
  assert (Hts := timestamp_float_pfin t Ht).
  set (ts := @timestamp_float binary64 t) in *.
  rewrite fdiv_int_b64 by (split; reflexivity). cbn [bind].
  assert (H60 : ppos (-52) 10 (of_Z 60)) by (apply of_Z_ppos; split; reflexivity).
  assert (Hmin := SFdiv_pfin _ _ _ _ _ _ Hts H60 ltac:(lia)).
  rewrite (int_of_float_b64 _ _ _ Hmin). cbn [bind].
  assert (Hn := trunc_pfin _ _ _ Hmin).
  rewrite (last3_digits _ Hn). cbn [bind].
  set (n := trunc (SFdiv prec emax ts (of_Z 60))) in *.
  assert (Hk := Z.mod_pos_bound n 1000 ltac:(lia)).
  assert (Hd : 0 < n mod 1000 + 1 < 2 ^ 62).
  { assert (1001 < 2 ^ 62) by reflexivity. lia. }
  rewrite (fdiv_int_b64 _ _ Hd). cbn [bind].
  assert (Hx := SFdiv_pfin _ _ _ _ _ _ Hts (of_Z_ppos _ Hd) ltac:(lia)).
  cbn [fmod fsub fmul binary64]. unfold f1e3, f1e5. cbn [Zfloat binary64].
  destruct (py_fmod_pfin _ _ _ _ _ _ Hx HM ltac:(lia)) as (r & Hr & Hrfin).
  rewrite Hr. cbn [bind].
  rewrite (int_of_float_b64 _ _ _ Hrfin). cbn [bind].
  assert (Hbv := trunc_bound _ _ _ Hrfin ltac:(lia)).
  rewrite (int_fadd_b64 _ _ Hbv). cbn [bind].
  exists r. split; [reflexivity|]. split; [reflexivity|exact Hbv].
Qed.

Lemma volumes_return t spread : 0 <= t < 2 ^ 62 -> modulus_ok spread ->
  exists bidVolume,
    @volumesFromTimestamp binary64 t spread
    = Ok (bidVolume,
          SFadd prec emax (of_Z bidVolume) (SFmul prec emax spread (of_Z 100000)))
    /\ 0 <= bidVolume < 2 ^ 62.
Proof.
  intros Ht HM. destruct (volumes_formula t spread Ht HM) as (r & _ & Hv & Hb).
  exists (trunc r). split; assumption.
Qed.

End Binary64Volumes.

(** * Facts about the generator, for any arithmetic *)

Lemma raised_spec {A : Type} (r : option (result A)) e :
  raised r = Some e -> r = Some (Raise e).
Proof. destruct r as [[a|e']|]; simpl; congruence. Qed.

Lemma returned_spec {A : Type} (r : option (result A)) :
  returned r = true -> exists a, r = Some (Ok a).
Proof. destruct r as [[a|e']|]; simpl; try discriminate. eauto. Qed.

Lemma bind_Ok {A B : Type} (c : result A) (k : A -> result B) (b : B) :
  bind c k = Ok b -> exists a, c = Ok a /\ k a = Ok b.
Proof. destruct c as [a|e]; simpl; [eauto|discriminate]. Qed.

Lemma datetime_add_Ok t d r : Datetime.add t d = Ok r -> r = t + d.
Proof.
  unfold Datetime.add.
  destruct ((Datetime.min_datetime <=? t + d) && (t + d <=? Datetime.max_datetime));
    intros H; inversion H; reflexivity.
Qed.

Lemma datetime_add_in_range t d :
  Datetime.min_datetime <= t + d <= Datetime.max_datetime ->
  Datetime.add t d = Ok (t + d).
Proof.
  intros [H1 H2]. unfold Datetime.add.
  apply Z.leb_le in H1, H2. rewrite H1, H2. reflexivity.
Qed.

Lemma range_length a b : List.length (range a b) = Z.to_nat (b - a).
Proof. unfold range. rewrite length_map, length_seq. reflexivity. Qed.

Lemma range_nth a b k : (k < Z.to_nat (b - a))%nat ->
  nth_error (range a b) k = Some (a + Z.of_nat k).
Proof.
  intros Hk. unfold range.
  rewrite nth_error_map, nth_error_seq.
  destruct (Nat.ltb_spec k (Z.to_nat (b - a))); [reflexivity|lia].
Qed.

Section RunFacts.

Context {PF : PyFloat}.


Lemma held_step R k s s' :
  held R k s -> ticks s' = emit s -> R (S k) (next s') -> held R (S k) s'.
Proof.
  intros [Hlen HR] Ht Hn. split.
  - rewrite Ht. unfold emit. rewrite length_app. simpl. lia.
  - intros j t. unfold emit at 1. rewrite Ht.
    assert (Hl : List.length (emit s) = S k).
    { unfold emit. rewrite length_app. simpl. lia. }
    destruct (Nat.ltb_spec j (S k)) as [Hj|Hj].
    + rewrite nth_error_app1 by lia. apply HR.
    + rewrite nth_error_app2 by lia. rewrite Hl.
      destruct (j - S k)%nat as [|m] eqn:Hm.
      * simpl. intros H. injection H as <-. replace j with (S k) by lia. exact Hn.
      * simpl. destruct m; discriminate.
Qed.

Lemma held_next R k s : held R k s -> R k (next s).
Proof.
  intros [Hlen HR]. apply HR. unfold emit.
  rewrite nth_error_app2 by lia. rewrite Hlen, Nat.sub_diag. reflexivity.
Qed.

Lemma held_ticks R k s j t :
  held R k s -> nth_error (ticks s) j = Some t -> R j t.
Proof.
  intros [Hlen HR] Hj. apply HR. unfold emit.
  rewrite nth_error_app1; [exact Hj|].
  apply nth_error_Some. rewrite Hj. discriminate.
Qed.

(** The loop [for i in l] keeps what each pass keeps. *)
Lemma for_each_keeps (P : nat -> vars -> Prop) body :
  forall l k0 s s',
    P k0 s ->
    (forall j i s1 s2, nth_error l j = Some i -> P (k0 + j)%nat s1 ->
                       body i s1 = Ok s2 -> P (S (k0 + j)) s2) ->
    for_each l body s = Ok s' ->
    P (k0 + List.length l)%nat s'.
Proof.
  induction l as [|i l IH]; intros k0 s s' H0 Hstep Hrun; simpl in *.
  - inversion Hrun; subst. rewrite Nat.add_0_r. exact H0.
  - apply bind_Ok in Hrun. destruct Hrun as (s1 & Hb & Hrest).
    replace (k0 + S (List.length l))%nat with (S k0 + List.length l)%nat by lia.
    apply (IH (S k0) s1 s'); [| |exact Hrest].
    + specialize (Hstep 0%nat i s s1 eq_refl).
      rewrite Nat.add_0_r in Hstep. apply Hstep; assumption.
    + intros j i' s2 s3 Hj HP Hb'.
      specialize (Hstep (S j) i' s2 s3 Hj).
      replace (k0 + S j)%nat with (S k0 + j)%nat in Hstep by lia.
      apply Hstep; assumption.
Qed.

(** The loop returns when each pass does. *)
Lemma for_each_returns (P : nat -> vars -> Prop) body :
  forall l k0 s,
    P k0 s ->
    (forall j i s1, nth_error l j = Some i -> P (k0 + j)%nat s1 ->
                    exists s2, body i s1 = Ok s2 /\ P (S (k0 + j)) s2) ->
    exists s', for_each l body s = Ok s' /\ P (k0 + List.length l)%nat s'.
Proof.
  induction l as [|i l IH]; intros k0 s H0 Hstep; simpl.
  - exists s. rewrite Nat.add_0_r. auto.
  - destruct (Hstep 0%nat i s eq_refl) as (s1 & Hb & H1).
    { rewrite Nat.add_0_r. exact H0. }
    rewrite Hb. simpl. rewrite Nat.add_0_r in H1.
    destruct (IH (S k0) s1 H1) as (s' & Hrun & HP).
    + intros j i' s2 Hj HP.
      destruct (Hstep (S j) i' s2 Hj) as (s3 & Hb' & H3).
      { replace (k0 + S j)%nat with (S k0 + j)%nat by lia. exact HP. }
      exists s3. split; [exact Hb'|].
      replace (S (S k0 + j)) with (S (k0 + S j)) by lia. exact H3.
    + exists s'. split; [exact Hrun|].
      replace (k0 + S (List.length l))%nat with (S k0 + List.length l)%nat by lia.
      exact HP.
Qed.

End RunFacts.

Ltac inv_bind H :=
  repeat match type of H with
         | bind _ _ = Ok _ =>
             let a := fresh "a" in
             let E := fresh "E" in
             apply bind_Ok in H; destruct H as (a & E & H)
         | match ?p with (_, _) => _ end = Ok _ => destruct p
         end.

Section StepFacts.

Context {PF : PyFloat}.

Variable sin : float -> result float.
Variable exp : float -> result float.
Variable pi : float.
Variable random : Z -> float.



Lemma linear_step_Ok deltaTime deltaPrice spread s s' :
  linear_step deltaTime deltaPrice spread s = Ok s' ->
  advanced deltaTime spread s s' /\
  bidPrice (next s') = fadd (bidPrice (next s)) deltaPrice /\
  askPrice (next s') = fadd (askPrice (next s)) deltaPrice.
Proof.
  unfold linear_step. intros H. inv_bind H.
  inversion H; subst s'; clear H. apply datetime_add_Ok in E.
  unfold advanced. simpl. rewrite <- E. auto.
Qed.

Lemma zigzag_body_Ok deltaTime spread lift forward backward i s s' :
  zigzag_body deltaTime spread lift forward backward i s = Ok s' ->
  advanced deltaTime spread s s' /\ quoted spread (next s').
Proof.
  unfold zigzag_body. intros H. inv_bind H.
  inversion H; subst s'; clear H. apply datetime_add_Ok in E.
  unfold advanced, quoted. simpl. rewrite <- E. auto.
Qed.

Lemma zigzag_tail_Ok deltaTime spread lift i s s' :
  zigzag_tail deltaTime spread lift i s = Ok s' ->
  advanced deltaTime spread s s' /\ quoted spread (next s') /\
  bidPrice (next s') = fadd (bidPrice (next s)) lift.
Proof.
  unfold zigzag_tail. intros H. inv_bind H.
  inversion H; subst s'; clear H. apply datetime_add_Ok in E.
  unfold advanced, quoted. simpl. rewrite <- E. auto.
Qed.

Lemma wave_body_Ok startPrice deltaPrice deltaTime spread volatility count i s s' :
  wave_body sin pi startPrice deltaPrice deltaTime spread volatility count i s
  = Ok s' ->
  advanced deltaTime spread s s' /\ quoted spread (next s').
Proof.
  unfold wave_body. intros H. inv_bind H.
  inversion H; subst s'; clear H. apply datetime_add_Ok in E.
  unfold advanced, quoted. simpl. rewrite <- E. auto.
Qed.

Lemma curve_body_Ok startPrice deltaPrice deltaTime spread count d i s s' :
  curve_body exp startPrice deltaPrice deltaTime spread count d i s = Ok s' ->
  advanced deltaTime spread s s' /\ quoted spread (next s').
Proof.
  unfold curve_body. intros H. inv_bind H.
  inversion H; subst s'; clear H. apply datetime_add_Ok in E.
  unfold advanced, quoted. simpl. rewrite <- E. auto.
Qed.

Lemma random_body_Ok deltaTime deltaPrice spread volatility i s s' :
  random_body random deltaTime deltaPrice spread volatility i s = Ok s' ->
  advanced deltaTime spread s s' /\ quoted spread (next s').
Proof.
  unfold random_body. intros H. inv_bind H.
  inversion H; subst s'; clear H. apply datetime_add_Ok in E.
  unfold advanced, quoted. simpl. rewrite <- E. auto.
Qed.

Lemma initial_Ok startDate startPrice spread s :
  initial startDate startPrice spread = Ok s ->
  ticks s = [] /\
  timestamp (next s) = startDate /\
  bidPrice (next s) = startPrice /\
  quoted spread (next s) /\
  bidVolume (next s) = 1 /\
  int_fadd 1 spread = Ok (askVolume (next s)).
Proof.
  unfold initial. intros H. inv_bind H.
  inversion H; subst s; clear H. unfold quoted. simpl.
  repeat split; try reflexivity. exact E.
Qed.

End StepFacts.

Section SequenceFacts.

Context {PF : PyFloat}.

Variable sin : float -> result float.
Variable exp : float -> result float.
Variable pi : float.
Variable random : Z -> float.


Lemma placed_next startDate deltaTime spread k s s' :
  placed startDate deltaTime spread k (next s) ->
  advanced deltaTime spread s s' ->
  placed startDate deltaTime spread (S k) (next s').
Proof.
  intros [Ht _] (_ & Ht' & Hv). split; [|exact Hv].
  rewrite Ht', Ht. lia.
Qed.

Lemma held_initial startDate deltaTime startPrice spread s :
  initial startDate startPrice spread = Ok s ->
  held (fun j t => placed startDate deltaTime spread j t /\ quoted spread t) 0 s.
Proof.
  intros H. apply initial_Ok in H.
  destruct H as (Hticks & Ht & Hb & Hq & Hbv & Hav).
  split; [rewrite Hticks; reflexivity|].
  intros j t. unfold emit. rewrite Hticks. simpl.
  destruct j as [|[|j]]; simpl; try discriminate.
  intros H; injection H as <-.
  repeat split; auto. rewrite Ht. lia.
Qed.

(** A loop whose passes advance the clock and quote the ask from the bid
    keeps the ticks placed and quoted. *)
Lemma loop_placed_quoted startDate deltaTime spread body l k0 s s' :
  (forall i s1 s2, body i s1 = Ok s2 ->
     advanced deltaTime spread s1 s2 /\ quoted spread (next s2)) ->
  held (fun j t => placed startDate deltaTime spread j t /\ quoted spread t) k0 s ->
  for_each l body s = Ok s' ->
  held (fun j t => placed startDate deltaTime spread j t /\ quoted spread t)
       (k0 + List.length l) s'.
Proof.
  intros Hbody H0 Hrun.
  apply (for_each_keeps
           (held (fun j t => placed startDate deltaTime spread j t /\ quoted spread t))
           body l k0 s s' H0); [|exact Hrun].
  intros j i s1 s2 _ Hheld Hb.
  destruct (Hbody i s1 s2 Hb) as [Hadv Hq].
  apply (held_step _ _ s1 s2 Hheld); [apply Hadv|].
  split; [|exact Hq].
  eapply placed_next; [|exact Hadv].
  apply (held_next _ _ _ Hheld).
Qed.

Lemma held_weaken (R R' : nat -> tick -> Prop) k s :
  (forall j t, R j t -> R' j t) -> held R k s -> held R' k s.
Proof. intros HRR [Hl HR]. split; [exact Hl|]. intros j t Hj. apply HRR, HR, Hj. Qed.


Lemma zigzag_shaped startDate endDate startPrice endPrice deltaTime spread
  volatility l :
  zigzagModel startDate endDate startPrice endPrice deltaTime spread volatility
  = Ok l ->
  shaped startDate deltaTime spread l /\
  exists count scaled backward,
    tick_count startDate endDate deltaTime = Ok count /\
    fmul_int volatility 50 = Ok scaled /\
    int_of_float scaled = Ok backward /\
    List.length l
    = (Z.to_nat (count - backward) + Z.to_nat (count - (count - backward)))%nat.
Proof.
  unfold zigzagModel. intros H. inv_bind H. inversion H; subst l; clear H.
  assert (H0 := held_initial _ deltaTime _ _ _ E).
  assert (H1 := loop_placed_quoted _ _ _ _ _ _ _ _
                  (fun i s1 s2 Hb => zigzag_body_Ok _ _ _ _ _ i s1 s2 Hb) H0 E4).
  assert (H2 := loop_placed_quoted _ _ _ _ _ _ _ _
                  (fun i s1 s2 Hb =>
                     match zigzag_tail_Ok _ _ _ i s1 s2 Hb with
                     | conj A (conj B _) => conj A B
                     end) H1 E6).
  split.
  - intros j t Hj. exact (held_ticks _ _ _ _ _ H2 Hj).
  - exists a0, a2, a3. repeat split; try assumption.
    destruct H2 as [Hlen _]. rewrite Hlen, !range_length. simpl.
    rewrite Z.sub_0_r. reflexivity.
Qed.

End SequenceFacts.

Section ModelFacts.

Context {PF : PyFloat}.

Variable sin : float -> result float.
Variable exp : float -> result float.
Variable pi : float.
Variable random : Z -> float.

Lemma wave_shaped startDate endDate startPrice endPrice deltaTime spread
  volatility l :
  waveModel sin pi startDate endDate startPrice endPrice deltaTime spread
    volatility = Ok l ->
  shaped startDate deltaTime spread l /\
  exists count,
    tick_count startDate endDate deltaTime = Ok count /\
    List.length l = Z.to_nat count.
Proof.
  unfold waveModel. intros H. inv_bind H. inversion H; subst l; clear H.
  assert (H0 := held_initial _ deltaTime _ _ _ E).
  assert (H1 := loop_placed_quoted _ _ _ _ _ _ _ _
                  (fun i s1 s2 Hb =>
                     wave_body_Ok sin pi _ _ _ _ _ _ i s1 s2 Hb) H0 E2).
  split.
  - intros j t Hj. exact (held_ticks _ _ _ _ _ H1 Hj).
  - exists a0. split; [exact E0|].
    destruct H1 as [Hlen _]. rewrite Hlen, range_length. simpl.
    rewrite Z.sub_0_r. reflexivity.
Qed.

Lemma curve_shaped startDate endDate startPrice endPrice deltaTime spread
  volatility l :
  curveModel exp startDate endDate startPrice endPrice deltaTime spread
    volatility = Ok l ->
  shaped startDate deltaTime spread l /\
  exists count,
    tick_count startDate endDate deltaTime = Ok count /\
    List.length l = Z.to_nat count.
Proof.
  unfold curveModel. intros H. inv_bind H. inversion H; subst l; clear H.
  assert (H0 := held_initial _ deltaTime _ _ _ E).
  assert (H1 := loop_placed_quoted _ _ _ _ _ _ _ _
                  (fun i s1 s2 Hb =>
                     curve_body_Ok exp _ _ _ _ _ _ i s1 s2 Hb) H0 E2).
  split.
  - intros j t Hj. exact (held_ticks _ _ _ _ _ H1 Hj).
  - exists a0. split; [exact E0|].
    destruct H1 as [Hlen _]. rewrite Hlen, range_length. simpl.
    rewrite Z.sub_0_r. reflexivity.
Qed.

(** [ticks[-1]] is rewritten in place: the list keeps its length, and only
    the prices of its last tick change. *)
Lemma set_last_prices_Ok l bid ask l' :
  set_last_prices l bid ask = Ok l' ->
  exists before t,
    l = before ++ [t] /\
    l' = before ++ [mkTick (timestamp t) bid ask (bidVolume t) (askVolume t)].
Proof.
  unfold set_last_prices. destruct (rev l) as [|t rb] eqn:Hr; [discriminate|].
  intros H. injection H as <-. exists (rev rb), t. split; [|reflexivity].
  rewrite <- (rev_involutive l), Hr. reflexivity.
Qed.

Lemma set_last_prices_empty bid ask :
  set_last_prices [] bid ask = Raise IndexError.
Proof. reflexivity. Qed.

Lemma random_shaped startDate endDate startPrice endPrice deltaTime spread
  volatility l :
  randomModel random startDate endDate startPrice endPrice deltaTime spread
    volatility = Ok l ->
  shaped startDate deltaTime spread l /\
  exists count before t,
    tick_count startDate endDate deltaTime = Ok count /\
    List.length l = Z.to_nat count /\
    l = before ++ [t] /\
    bidPrice t = endPrice /\ askPrice t = fadd endPrice spread.
Proof.
  unfold randomModel. intros H. inv_bind H.
  assert (H0 := held_initial _ deltaTime _ _ _ E).
  assert (H1 := loop_placed_quoted _ _ _ _ _ _ _ _
                  (fun i s1 s2 Hb =>
                     random_body_Ok random _ _ _ _ i s1 s2 Hb) H0 E2).
  destruct (set_last_prices_Ok _ _ _ _ H) as (before & t & Hl & Hl').
  split.
  - intros j u Hj. rewrite Hl' in Hj.
    destruct (Nat.ltb_spec j (List.length before)) as [Hlt|Hge].
    + rewrite nth_error_app1 in Hj by exact Hlt.
      apply (held_ticks _ _ _ _ _ H1). rewrite Hl.
      rewrite nth_error_app1 by exact Hlt. exact Hj.
    + rewrite nth_error_app2 in Hj by exact Hge.
      destruct (j - List.length before)%nat as [|m] eqn:Hm;
        [|destruct m; discriminate].
      simpl in Hj. injection Hj as <-.
      assert (Ht : nth_error (ticks a2) j = Some t).
      { rewrite Hl, nth_error_app2 by exact Hge. rewrite Hm. reflexivity. }
      destruct (held_ticks _ _ _ _ _ H1 Ht) as [[Hp1 Hp2] _].
      split; [|reflexivity]. split; [exact Hp1|].
      destruct j; exact Hp2.
  - exists a1, before, (mkTick (timestamp t) endPrice (fadd endPrice spread)
                          (bidVolume t) (askVolume t)).
    split; [exact E1|]. split.
    + rewrite Hl', length_app. simpl.
      destruct H1 as [Hlen _]. rewrite Hl, length_app in Hlen. simpl in Hlen.
      rewrite range_length, Z.sub_0_r in Hlen. exact Hlen.
    + split; [exact Hl'|]. split; reflexivity.
Qed.

(** *** The linear model *)


Lemma linear_loop_keeps (P : nat -> vars -> Prop) endDate deltaTime deltaPrice
  spread :
  (forall k s1 s2, P k s1 ->
     linear_step deltaTime deltaPrice spread s1 = Ok s2 -> P (S k) s2) ->
  forall fuel k0 s l,
    P k0 s ->
    linear_loop fuel endDate deltaTime deltaPrice spread s = Some (Ok l) ->
    exists k s' limit,
      P k s' /\ l = ticks s' /\
      Datetime.add endDate Datetime.us_per_day = Ok limit /\
      limit <= timestamp (next s') /\
      ((k = k0 /\ s' = s) \/
       exists s1, P (Nat.pred k) s1 /\ timestamp (next s1) < limit /\
                  linear_step deltaTime deltaPrice spread s1 = Ok s').
Proof.
  intros Hstep. induction fuel as [|fuel IH]; intros k0 s l H0 Hrun;
    simpl in Hrun.
  - discriminate.
  - destruct (Datetime.add endDate Datetime.us_per_day) as [limit|e] eqn:Hlim;
      [|discriminate].
    destruct (Z.ltb_spec (timestamp (next s)) limit) as [Hlt|Hge].
    + destruct (linear_step deltaTime deltaPrice spread s) as [s1|e] eqn:Hs;
        [|discriminate].
      assert (H1 := Hstep _ _ _ H0 Hs).
      destruct (IH (S k0) s1 l H1 Hrun)
        as (k & s' & limit' & HP & Hl & Hlim' & Hex & Hprev).
      exists k, s', limit'. repeat split; try assumption.
      right. destruct Hprev as [[-> ->]|Hprev]; [|exact Hprev].
      exists s. simpl. injection Hlim' as <-. repeat split; assumption.
    + injection Hrun as <-. exists k0, s, limit.
      repeat split; try assumption. left. split; reflexivity.
Qed.

(** With enough fuel the loop of the linear model comes to its end, when
    every pass made before the limit returns. *)
Lemma linear_loop_returns (P : nat -> vars -> Prop) startDate endDate deltaTime
  deltaPrice spread limit :
  Datetime.add endDate Datetime.us_per_day = Ok limit ->
  0 < deltaTime ->
  (forall k s, P k s -> timestamp (next s) = startDate + Z.of_nat k * deltaTime) ->
  (forall k s1, P k s1 -> timestamp (next s1) < limit ->
     exists s2, linear_step deltaTime deltaPrice spread s1 = Ok s2 /\ P (S k) s2) ->
  forall fuel k0 s,
    P k0 s ->
    limit <= startDate + (Z.of_nat k0 + Z.of_nat fuel) * deltaTime ->
    exists l,
      linear_loop (S fuel) endDate deltaTime deltaPrice spread s = Some (Ok l).
Proof.
  intros Hlim Hdt Hts Hstep. induction fuel as [|fuel IH]; intros k0 s H0 Hfuel.
  - simpl. rewrite Hlim. assert (Hk := Hts _ _ H0).
    destruct (Z.ltb_spec (timestamp (next s)) limit) as [Hlt|Hge]; [lia|].
    eexists. reflexivity.
  - change (linear_loop (S (S fuel)) endDate deltaTime deltaPrice spread s)
      with (match Datetime.add endDate Datetime.us_per_day with
            | Raise e => Some (Raise e)
            | Ok limit =>
                if timestamp (next s) <? limit then
                  match linear_step deltaTime deltaPrice spread s with
                  | Raise e => Some (Raise e)
                  | Ok s' =>
                      linear_loop (S fuel) endDate deltaTime deltaPrice spread s'
                  end
                else Some (Ok (ticks s))
            end).
    rewrite Hlim.
    destruct (Z.ltb_spec (timestamp (next s)) limit) as [Hlt|Hge].
    + destruct (Hstep _ _ H0 Hlt) as (s2 & Hs & H2). rewrite Hs.
      apply (IH (S k0) s2 H2). lia.
    + eexists. reflexivity.
Qed.

End ModelFacts.

(** * Runs of the models in binary64 *)

Module Binary64Runs.

Import Binary64 Binary64Facts Binary64Volumes.
Import Binary64Spec.

Lemma max_datetime_small : Datetime.max_datetime < 2 ^ 62.
Proof. reflexivity. Qed.

Lemma min_datetime_early : Datetime.min_datetime <= 0.
Proof. discriminate. Qed.

Lemma us_per_day_value : Datetime.us_per_day = 86400000000.
Proof. reflexivity. Qed.

Lemma math_ceil_b64 lo hi x : pfin lo hi x -> @math_ceil binary64 x = Ok (ceil x).
Proof.
  intros Hx. unfold math_ceil. cbn [is_nan is_finite ceil_finite binary64].
  destruct (pfin_finite _ _ _ Hx) as [-> ->]. reflexivity.
Qed.

Lemma limit_returns endDate :
  0 <= endDate -> endDate + Datetime.us_per_day <= Datetime.max_datetime ->
  Datetime.add endDate Datetime.us_per_day = Ok (endDate + Datetime.us_per_day).
Proof.
  intros H0 H1. apply datetime_add_in_range.
  assert (H := min_datetime_early). rewrite us_per_day_value in *. lia.
Qed.

(** The number of ticks of the counted models is at least one. *)
Lemma tick_count_returns startDate endDate deltaTime :
  0 <= startDate <= endDate ->
  endDate + Datetime.us_per_day <= Datetime.max_datetime ->
  0 < deltaTime < 2 ^ 62 ->
  exists count,
    @tick_count binary64 startDate endDate deltaTime = Ok count /\ 1 <= count.
Proof.
  intros Hd Hmax Hdt. unfold tick_count.
  rewrite limit_returns by lia. cbn [bind].
  assert (Hs : 0 < endDate + Datetime.us_per_day - startDate < 2 ^ 62).
  { assert (H := max_datetime_small). rewrite us_per_day_value in *. lia. }
  destruct (truediv_ppos _ _ Hs Hdt) as (x & Hx & Hpos).
  cbn [int_truediv binary64]. rewrite Hx. cbn [bind].
  rewrite (math_ceil_b64 _ _ _ (ppos_pfin _ _ _ Hpos)).
  exists (ceil x). split; [reflexivity|]. eapply ceil_ppos; eassumption.
Qed.

(** The per-tick delta of the linear and the random model. *)
Lemma drift_returns startDate endDate startPrice endPrice deltaTime :
  0 <= startDate <= endDate ->
  endDate + Datetime.us_per_day <= Datetime.max_datetime ->
  0 < deltaTime < Datetime.us_per_day ->
  exists q,
    truediv deltaTime (endDate + Datetime.us_per_day - startDate - deltaTime)
    = Ok q /\
    @drift binary64 startDate endDate startPrice endPrice deltaTime
    = Ok (SFmul prec emax q (SFsub prec emax endPrice startPrice)).
Proof.
  intros Hd Hmax Hdt. unfold drift.
  rewrite limit_returns by lia. cbn [bind].
  assert (Hs : 0 < endDate + Datetime.us_per_day - startDate - deltaTime < 2 ^ 62).
  { assert (H := max_datetime_small). rewrite us_per_day_value in *. lia. }
  assert (Hdt' : 0 < deltaTime < 2 ^ 62).
  { rewrite us_per_day_value in *. assert (86400000000 < 2 ^ 62) by reflexivity. lia. }
  destruct (truediv_ppos _ _ Hdt' Hs) as (x & Hx & _).
  cbn [int_truediv binary64]. rewrite Hx. cbn [bind].
  exists x. split; reflexivity.
Qed.

Lemma initial_returns startDate startPrice spread :
  @initial binary64 startDate startPrice spread
  = Ok (mkVars (mkTick startDate startPrice (SFadd prec emax startPrice spread) 1
                  (SFadd prec emax (of_Z 1) spread)) []).
Proof.
  unfold initial. rewrite int_fadd_b64 by (split; [lia|reflexivity]). reflexivity.
Qed.


Lemma clocked_step startDate deltaTime spread k s s' :
  clocked startDate deltaTime k s -> advanced deltaTime spread s s' ->
  clocked startDate deltaTime (S k) s'.
Proof.
  intros [Hl Ht] (Hticks & Hts & _). split.
  - rewrite Hticks. unfold emit. rewrite length_app. simpl. lia.
  - rewrite Hts, Ht. lia.
Qed.

(** Moving the clock and computing the volumes of the new timestamp. *)
Lemma tick_returns t deltaTime spread :
  0 <= t -> 0 <= deltaTime -> t + deltaTime <= Datetime.max_datetime ->
  modulus_ok spread ->
  exists bidVolume askVolume,
    Datetime.add t deltaTime = Ok (t + deltaTime) /\
    @volumesFromTimestamp binary64 (t + deltaTime) spread
    = Ok (bidVolume, askVolume).
Proof.
  intros Ht Hdt Hmax HM.
  assert (H := max_datetime_small). assert (H' := min_datetime_early).
  destruct (volumes_return (t + deltaTime) spread ltac:(lia) HM) as (bv & Hv & _).
  eexists _, _. split; [apply datetime_add_in_range; lia|exact Hv].
Qed.

Lemma linear_step_returns deltaTime deltaPrice spread s :
  0 <= timestamp (next s) -> 0 <= deltaTime ->
  timestamp (next s) + deltaTime <= Datetime.max_datetime ->
  modulus_ok spread ->
  exists s', @linear_step binary64 deltaTime deltaPrice spread s = Ok s'.
Proof.
  intros Ht Hdt Hmax HM.
  destruct (tick_returns _ _ _ Ht Hdt Hmax HM) as (bv & av & Ha & Hv).
  unfold linear_step. rewrite Ha. cbn [bind]. rewrite Hv. cbn [bind].
  eexists. reflexivity.
Qed.

Lemma random_body_returns random deltaTime deltaPrice spread volatility i s :
  0 <= timestamp (next s) -> 0 <= deltaTime ->
  timestamp (next s) + deltaTime <= Datetime.max_datetime ->
  modulus_ok spread ->
  exists s',
    @random_body binary64 random deltaTime deltaPrice spread volatility i s
    = Ok s'.
Proof.
  intros Ht Hdt Hmax HM.
  destruct (tick_returns _ _ _ Ht Hdt Hmax HM) as (bv & av & Ha & Hv).
  unfold random_body. rewrite Ha. cbn [bind]. rewrite Hv. cbn [bind].
  eexists. reflexivity.
Qed.

Lemma zigzag_tail_returns deltaTime spread lift i s :
  0 <= timestamp (next s) -> 0 <= deltaTime ->
  timestamp (next s) + deltaTime <= Datetime.max_datetime ->
  modulus_ok spread ->
  exists s', @zigzag_tail binary64 deltaTime spread lift i s = Ok s'.
Proof.
  intros Ht Hdt Hmax HM.
  destruct (tick_returns _ _ _ Ht Hdt Hmax HM) as (bv & av & Ha & Hv).
  unfold zigzag_tail. rewrite Ha. cbn [bind]. rewrite Hv. cbn [bind].
  eexists. reflexivity.
Qed.

Lemma zigzag_body_returns deltaTime spread lift backward i s :
  0 <= timestamp (next s) -> 0 <= deltaTime ->
  timestamp (next s) + deltaTime <= Datetime.max_datetime ->
  modulus_ok spread ->
  0 <= backward < 2 ^ 60 ->
  exists s', @zigzag_body binary64 deltaTime spread lift 500 backward i s = Ok s'.
Proof.
  intros Ht Hdt Hmax HM Hb.
  destruct (tick_returns _ _ _ Ht Hdt Hmax HM) as (bv & av & Ha & Hv).
  unfold zigzag_body. rewrite Ha. cbn [bind].
  unfold int_mod. destruct (Z.eqb_spec (500 + backward) 0) as [E|_]; [lia|].
  cbn [bind].
  assert (H1 : 0 < 500 + 2 * backward < 2 ^ 62).
  { change (2 ^ 62) with (4 * 2 ^ 60). lia. }
  destruct (truediv_ppos (500 + 2 * backward) 500 H1 ltac:(split; reflexivity))
    as (up & Hup & _).
  cbn [int_truediv binary64]. rewrite Hup.
  destruct ((i + 1) mod (500 + backward) <? 500); cbn [bind];
    rewrite Hv; cbn [bind]; eexists; reflexivity.
Qed.

(** A counted loop returns when the clock stays within the range of
    [datetime] and each pass only moves the clock and computes volumes. *)
Lemma counted_loop_returns startDate deltaTime spread body l k0 s :
  0 <= startDate -> 0 < deltaTime ->
  startDate + (Z.of_nat k0 + Z.of_nat (List.length l)) * deltaTime
  <= Datetime.max_datetime ->
  (forall i s1, 0 <= timestamp (next s1) ->
     timestamp (next s1) + deltaTime <= Datetime.max_datetime ->
     exists s2, body i s1 = Ok s2) ->
  (forall i s1 s2, body i s1 = Ok s2 -> advanced deltaTime spread s1 s2) ->
  clocked startDate deltaTime k0 s ->
  exists s', for_each l body s = Ok s' /\
             clocked startDate deltaTime (k0 + List.length l) s'.
Proof.
  intros H0 Hdt Hmax Hret Hadv Hs.
  apply (for_each_returns (clocked startDate deltaTime) body l k0 s Hs).
  intros j i s1 Hj [Hl Ht].
  assert (Hjl : (j < List.length l)%nat).
  { apply nth_error_Some. rewrite Hj. discriminate. }
  destruct (Hret i s1) as (s2 & Hb).
  - rewrite Ht. nia.
  - rewrite Ht. nia.
  - exists s2. split; [exact Hb|].
    eapply clocked_step; [split; eassumption|]. eapply Hadv; exact Hb.
Qed.

(** ** The random model returns *)

Lemma random_returns random startDate endDate startPrice endPrice deltaTime
  spread volatility count :
  0 <= startDate <= endDate ->
  endDate + Datetime.us_per_day <= Datetime.max_datetime ->
  0 < deltaTime < Datetime.us_per_day ->
  modulus_ok spread ->
  @tick_count binary64 startDate endDate deltaTime = Ok count ->
  startDate + count * deltaTime <= Datetime.max_datetime ->
  exists l,
    @randomModel binary64 random startDate endDate startPrice endPrice
      deltaTime spread volatility = Ok l.
Proof.
  intros Hd Hmax Hdt HM Hcount Hrange.
  assert (Hdt' : 0 < deltaTime < 2 ^ 62).
  { rewrite us_per_day_value in *. assert (86400000000 < 2 ^ 62) by reflexivity. lia. }
  destruct (tick_count_returns _ _ _ Hd Hmax Hdt') as (c & Hc & Hc1).
  rewrite Hcount in Hc. injection Hc as <-.
  destruct (drift_returns _ _ startPrice endPrice _ Hd Hmax Hdt) as (q & _ & Hq).
  unfold randomModel. rewrite initial_returns. cbn [bind].
  rewrite Hq. cbn [bind]. rewrite Hcount. cbn [bind].
  set (s0 := mkVars _ _).
  assert (Hs0 : clocked startDate deltaTime 0 s0).
  { split; [reflexivity|]. simpl. lia. }
  destruct (counted_loop_returns startDate deltaTime spread
              (random_body random deltaTime
                 (SFmul prec emax q (SFsub prec emax endPrice startPrice))
                 spread volatility)
              (range 0 count) 0 s0) as (s' & Hrun & [Hlen _]); try lia.
  - rewrite range_length. simpl. rewrite Z2Nat.id by lia. lia.
  - intros i s1 Ht Hr. apply random_body_returns; try assumption; lia.
  - intros i s1 s2 Hb. apply (random_body_Ok random _ _ _ _ _ _ _ Hb).
  - exact Hs0.
  - rewrite Hrun. cbn [bind]. unfold set_last_prices.
    destruct (rev (ticks s')) as [|t before] eqn:Hr.
    + exfalso. apply (f_equal (@List.length _)) in Hr.
      rewrite length_rev, Hlen, range_length in Hr. simpl in Hr. lia.
    + eexists. reflexivity.
Qed.

(** ** The linear model returns *)


Lemma linear_returns fuel startDate endDate startPrice endPrice deltaTime spread :
  0 <= startDate <= endDate ->
  endDate + Datetime.us_per_day + deltaTime <= Datetime.max_datetime ->
  0 < deltaTime < Datetime.us_per_day ->
  modulus_ok spread ->
  (Z.to_nat (linear_count startDate endDate deltaTime) < fuel)%nat ->
  exists q l,
    truediv deltaTime (endDate + Datetime.us_per_day - startDate - deltaTime)
    = Ok q /\
    @linearModel binary64 fuel startDate endDate startPrice endPrice deltaTime
      spread = Some (Ok l) /\
    List.length l = Z.to_nat (linear_count startDate endDate deltaTime) /\
    forall j t, nth_error l j = Some t ->
      placed startDate deltaTime spread j t /\
      drifted startPrice spread
        (SFmul prec emax q (SFsub prec emax endPrice startPrice)) j t.
Proof.
  intros Hd Hmax Hdt HM Hfuel.
  destruct (drift_returns _ _ startPrice endPrice _ Hd ltac:(lia) Hdt)
    as (q & Hq & Hdrift).
  set (deltaPrice := SFmul prec emax q (SFsub prec emax endPrice startPrice)) in *.
  set (limit := endDate + Datetime.us_per_day).
  assert (Hlim : Datetime.add endDate Datetime.us_per_day = Ok limit)
    by (apply limit_returns; lia).
  set (R := fun (j : nat) (t : @tick binary64) =>
              @placed binary64 startDate deltaTime spread j t /\
              @drifted binary64 startPrice spread deltaPrice j t).
  set (s0 := mkVars (mkTick startDate startPrice (SFadd prec emax startPrice spread)
                       1 (SFadd prec emax (of_Z 1) spread)) []).
  assert (Hs0 : held R 0 s0).
  { split; [reflexivity|]. intros j t. unfold emit. simpl.
    destruct j as [|[|j]]; simpl; try discriminate.
    intros H; injection H as <-. split.
    - split; simpl; [lia|]. split; [reflexivity|].
      apply int_fadd_b64. split; [lia|reflexivity].
    - split; reflexivity. }
  assert (Hkeep : forall k s1 s2, held R k s1 ->
            linear_step deltaTime deltaPrice spread s1 = Ok s2 -> held R (S k) s2).
  { intros k s1 s2 Hk Hs. destruct (linear_step_Ok _ _ _ _ _ Hs) as (Hadv & Hb & Ha).
    apply (held_step _ _ s1 s2 Hk); [apply Hadv|].
    destruct (held_next _ _ _ Hk) as [Hp [Hdb Hda]]. split.
    - eapply placed_next; eassumption.
    - split; simpl; [rewrite Hb, Hdb|rewrite Ha, Hda]; reflexivity. }
  set (n := linear_count startDate endDate deltaTime) in *.
  assert (Hn : limit - startDate <= n * deltaTime /\
               (n - 1) * deltaTime < limit - startDate /\ 1 <= n).
  { unfold n, linear_count. subst limit.
    rewrite us_per_day_value in *.
    assert (0 < endDate + 86400000000 - startDate) by lia.
    split; [|split].
    - Z.div_mod_to_equations. nia.
    - Z.div_mod_to_equations. nia.
    - apply Z.div_le_lower_bound; lia. }
  destruct fuel as [|fuel]; [lia|].
  destruct (linear_loop_returns (held R) startDate endDate deltaTime deltaPrice
              spread limit Hlim ltac:(lia)) with (fuel := fuel) (k0 := 0%nat) (s := s0)
    as (l & Hl).
  - intros k s Hk. destruct (held_next _ _ _ Hk) as [[Ht _] _]. exact Ht.
  - intros k s1 Hk Hlt.
    assert (Ht : timestamp (next s1) = startDate + Z.of_nat k * deltaTime).
    { destruct (held_next _ _ _ Hk) as [[Ht _] _]. exact Ht. }
    assert (H1 : 0 <= timestamp (next s1)) by (rewrite Ht; nia).
    assert (H2 : timestamp (next s1) + deltaTime <= Datetime.max_datetime)
      by (subst limit; lia).
    destruct (linear_step_returns deltaTime deltaPrice spread s1 H1 ltac:(lia) H2 HM)
      as (s2 & Hs2).
    exists s2. split; [exact Hs2|]. eapply Hkeep; eassumption.
  - exact Hs0.
  - simpl Z.of_nat at 1. assert (n <= Z.of_nat fuel) by lia. nia.
  - exists q, l. split; [exact Hq|].
    unfold linearModel. rewrite initial_returns. fold s0. rewrite Hdrift.
    split; [exact Hl|].
    destruct (linear_loop_keeps (held R) endDate deltaTime deltaPrice spread Hkeep
                _ _ _ _ Hs0 Hl)
      as (k & s' & limit' & Hk & -> & Hlim' & Hge & Hprev).
    rewrite Hlim in Hlim'. injection Hlim' as <-.
    assert (Ht : timestamp (next s') = startDate + Z.of_nat k * deltaTime).
    { destruct (held_next _ _ _ Hk) as [[Ht _] _]. exact Ht. }
    assert (Hkn : Z.of_nat k = n).
    { destruct Hprev as [[-> ->]|(s1 & Hk1 & Hlt1 & Hs1)].
      - simpl in Hge. subst limit. rewrite us_per_day_value in *. lia.
      - assert (Ht1 : timestamp (next s1)
                      = startDate + Z.of_nat (Nat.pred k) * deltaTime).
        { destruct (held_next _ _ _ Hk1) as [[Ht1 _] _]. exact Ht1. }
        destruct (linear_step_Ok _ _ _ _ _ Hs1) as ((_ & Hts & _) & _).
        assert (Z.of_nat k = Z.of_nat (Nat.pred k) + 1).
        { rewrite Ht, Ht1 in Hts. nia. }
        rewrite Ht in Hge. rewrite Ht1 in Hlt1. nia. }
    split.
    + destruct Hk as [Hlen _]. rewrite Hlen. lia.
    + intros j t Hj. exact (held_ticks _ _ _ _ _ Hk Hj).
Qed.

End Binary64Runs.

(** * The zigzag model in binary64 *)

Module Binary64Zigzag.

Import Binary64 Binary64Facts Binary64Volumes Binary64Runs.
Import Binary64Spec.

Lemma max_datetime_below : Datetime.max_datetime < 2 ^ 58.
Proof. reflexivity. Qed.

Lemma range_empty a b : b <= a -> range a b = [].
Proof.
  intros H. unfold range. replace (Z.to_nat (b - a)) with 0%nat by lia. reflexivity.
Qed.

Lemma finite_not_nan x : finite x = true -> nan x = false.
Proof. destruct x; simpl; congruence. Qed.

(** [backward = int(volatility * 50)] for a finite product. *)
Lemma backward_returns volatility :
  finite (SFmul prec emax volatility (of_Z 50)) = true ->
  exists scaled,
    @fmul_int binary64 volatility 50 = Ok scaled /\
    @int_of_float binary64 scaled
    = Ok (trunc (SFmul prec emax volatility (of_Z 50))).
Proof.
  intros Hf. exists (SFmul prec emax volatility (of_Z 50)). split.
  - unfold fmul_int. rewrite float_of_int_b64 by (split; [lia|reflexivity]).
    reflexivity.
  - unfold int_of_float. cbn [is_nan is_finite trunc_finite binary64].
    rewrite (finite_not_nan _ Hf), Hf. reflexivity.
Qed.

(** [x / 0] with an integer zero: [ZeroDivisionError]. *)
Lemma fdiv_int_zero x : @fdiv_int binary64 x 0 = Raise ZeroDivisionError.
Proof. reflexivity. Qed.

(** [x / -1] returns. *)
Lemma fdiv_int_minus_one x :
  @fdiv_int binary64 x (-1) = Ok (SFdiv prec emax x (of_Z (-1))).
Proof. reflexivity. Qed.

(** The body of the zigzag model, run for [count - backward] ticks. *)
Lemma zigzag_body_loop startDate deltaTime spread lift backward count :
  0 <= startDate -> 0 < deltaTime -> modulus_ok spread ->
  0 <= backward ->
  startDate + (Z.max 0 (count - backward) + backward) * deltaTime
  <= Datetime.max_datetime ->
  forall s, clocked startDate deltaTime 0 s ->
  exists s',
    for_each (range 0 (count - backward))
      (@zigzag_body binary64 deltaTime spread lift 500 backward) s = Ok s' /\
    clocked startDate deltaTime (Z.to_nat (count - backward)) s'.
Proof.
  intros H0 Hdt HM Hb Hmax s Hs.
  assert (Hsmall := max_datetime_below).
  assert (Hb' : 0 <= backward < 2 ^ 60).
  { assert (2 ^ 58 < 2 ^ 60) by reflexivity. nia. }
  destruct (counted_loop_returns startDate deltaTime spread
              (@zigzag_body binary64 deltaTime spread lift 500 backward)
              (range 0 (count - backward)) 0 s) as (s' & Hrun & Hc);
    try assumption.
  - rewrite range_length, Z.sub_0_r. simpl Z.of_nat at 1.
    assert (E : Z.of_nat (Z.to_nat (count - backward)) = Z.max 0 (count - backward))
      by lia.
    rewrite E. nia.
  - intros i s1 Ht Hr. apply zigzag_body_returns; try assumption; lia.
  - intros i s1 s2 Hbody. apply (zigzag_body_Ok _ _ _ _ _ _ _ _ Hbody).
  - exists s'. split; [exact Hrun|].
    rewrite range_length, Z.sub_0_r in Hc. exact Hc.
Qed.

(** The zigzag model returns, with [count - backward] ticks of the body
    (none when [backward] exceeds [count]) and [backward] ticks of the
    tail, unless [backward] is one. *)
Lemma zigzag_returns startDate endDate startPrice endPrice deltaTime spread
  volatility count :
  0 <= startDate <= endDate ->
  endDate + Datetime.us_per_day <= Datetime.max_datetime ->
  0 < deltaTime < Datetime.us_per_day ->
  modulus_ok spread ->
  finite (SFmul prec emax volatility (of_Z 50)) = true ->
  let backward := trunc (SFmul prec emax volatility (of_Z 50)) in
  backward = 0 \/ 2 <= backward ->
  @tick_count binary64 startDate endDate deltaTime = Ok count ->
  startDate + (Z.max 0 (count - backward) + backward) * deltaTime
  <= Datetime.max_datetime ->
  exists l,
    @zigzagModel binary64 startDate endDate startPrice endPrice deltaTime
      spread volatility = Ok l /\
    List.length l = (Z.to_nat (count - backward) + Z.to_nat backward)%nat.
Proof.
  intros Hd Hmax Hdt HM Hf backward Hb Hcount Hrange.
  assert (Hdt' : 0 < deltaTime < 2 ^ 62).
  { rewrite us_per_day_value in *. assert (86400000000 < 2 ^ 62) by reflexivity. lia. }
  destruct (tick_count_returns _ _ _ Hd Hmax Hdt') as (c & Hc & Hc1).
  rewrite Hcount in Hc. injection Hc as <-.
  assert (Hsmall := max_datetime_below).
  assert (Hb0 : 0 <= backward) by lia.
  assert (Hcsmall : 0 < count < 2 ^ 62).
  { assert (2 ^ 58 < 2 ^ 62) by reflexivity. split; [lia|].
    assert (count <= Z.max 0 (count - backward) + backward) by lia. nia. }
  destruct (backward_returns volatility Hf) as (scaled & Hscaled & Hback).
  fold backward in Hback.
  unfold zigzagModel. rewrite initial_returns. cbn [bind].
  rewrite Hcount. cbn [bind].
  rewrite (fdiv_int_b64 _ _ Hcsmall). cbn [bind].
  rewrite Hscaled. cbn [bind]. rewrite Hback. cbn [bind].
  set (s0 := mkVars _ _).
  assert (Hs0 : clocked startDate deltaTime 0 s0).
  { split; [reflexivity|]. simpl. lia. }
  destruct (zigzag_body_loop startDate deltaTime spread
              (SFdiv prec emax (fsub endPrice startPrice) (of_Z count))
              backward count ltac:(lia) ltac:(lia) HM Hb0 Hrange s0 Hs0)
    as (s1 & Hrun1 & Hc1').
  rewrite Hrun1. cbn [bind].
  assert (Hlift : exists lift,
             @fdiv_int binary64 (fsub endPrice (bidPrice (next s1))) (backward - 1)
             = Ok lift).
  { destruct Hb as [->|Hb].
    - eexists. apply fdiv_int_minus_one.
    - eexists. apply fdiv_int_b64.
      assert (2 ^ 58 < 2 ^ 62) by reflexivity. split; [lia|nia]. }
  destruct Hlift as (lift & Hlift). rewrite Hlift. cbn [bind].
  destruct (counted_loop_returns startDate deltaTime spread
              (@zigzag_tail binary64 deltaTime spread lift)
              (range (count - backward) count)
              (Z.to_nat (count - backward)) s1) as (s2 & Hrun2 & [Hlen _]);
    try assumption; try lia.
  - rewrite range_length.
    replace (count - (count - backward)) with backward by lia.
    assert (E : Z.of_nat (Z.to_nat (count - backward)) = Z.max 0 (count - backward))
      by lia.
    rewrite E, Z2Nat.id by lia. exact Hrange.
  - intros i s Ht Hr. apply zigzag_tail_returns; try assumption; lia.
  - intros i s s' Hbody. apply (zigzag_tail_Ok _ _ _ _ _ _ Hbody).
  - rewrite Hrun2. cbn [bind]. eexists. split; [reflexivity|].
    rewrite Hlen, range_length.
    replace (count - (count - backward)) with backward by lia. reflexivity.
Qed.

End Binary64Zigzag.

(** * Spreads given in points *)

Module Binary64Spread.

Import Binary64 Binary64Facts Binary64Volumes.
Import Binary64Spec.


Lemma modulus_okb_spec spread : modulus_okb spread = true -> modulus_ok spread.
Proof.
  unfold modulus_okb, modulus_ok.
  destruct (SFsub _ _ _ _) as [| | |[|] m e]; simpl; try discriminate.
  intros H. apply andb_prop in H. destruct H as [H H3].
  apply andb_prop in H. destruct H as [H1 H2].
  apply Z.ltb_lt in H1. apply Z.leb_le in H2, H3. auto.
Qed.



Lemma points_checked : forallb points_ok (range 0 1000) = true.
Proof. vm_compute. reflexivity. Qed.

(** Every spread from 0 to 999 points gives a positive modulus. *)
Lemma points_modulus_ok points : 0 <= points < 1000 ->
  exists spread,
    spread_of_points points = Ok spread /\ modulus_ok spread.
Proof.
  intros Hp.
  assert (Hin : In points (range 0 1000)).
  { unfold range. apply in_map_iff. exists (Z.to_nat points). split; [lia|].
    apply in_seq. simpl. lia. }
  assert (H := proj1 (forallb_forall _ _) points_checked _ Hin).
  unfold points_ok in H.
  destruct (spread_of_points points) as [spread|e]; [|discriminate].
  exists spread. split; [reflexivity|]. apply modulus_okb_spec, H.
Qed.

End Binary64Spread.

(** * Every model at once *)

Lemma pattern_eq_dec (p q : pattern) : {p = q} + {p <> q}.
Proof. decide equality. Defined.

Section DispatchFacts.

Context {PF : PyFloat}.

Variable sin : float -> result float.
Variable exp : float -> result float.
Variable pi : float.
Variable random : Z -> float.

(** What a returned run of the linear model looks like: the ticks are
    placed and drifted, and the loop stopped at the first timestamp not
    before the limit. *)
Lemma linear_shaped fuel startDate endDate startPrice endPrice deltaTime
  spread l :
  linearModel fuel startDate endDate startPrice endPrice deltaTime spread
  = Some (Ok l) ->
  exists deltaPrice limit,
    drift startDate endDate startPrice endPrice deltaTime = Ok deltaPrice /\
    Datetime.add endDate Datetime.us_per_day = Ok limit /\
    (forall j t, nth_error l j = Some t ->
       placed startDate deltaTime spread j t /\
       drifted startPrice spread deltaPrice j t) /\
    limit <= startDate + Z.of_nat (List.length l) * deltaTime /\
    (List.length l = 0%nat \/
     startDate + (Z.of_nat (List.length l) - 1) * deltaTime < limit).
Proof.
  unfold linearModel.
  destruct (initial startDate startPrice spread) as [s0|e] eqn:Hinit;
    [|discriminate].
  destruct (drift startDate endDate startPrice endPrice deltaTime)
    as [deltaPrice|e] eqn:Hdrift; [|discriminate].
  intros Hrun.
  set (R := fun (j : nat) (t : tick) =>
              placed startDate deltaTime spread j t /\
              drifted startPrice spread deltaPrice j t).
  assert (Hs0 : held R 0 s0).
  { apply initial_Ok in Hinit.
    destruct Hinit as (Hticks & Ht & Hb & Hq & Hbv & Hav).
    split; [rewrite Hticks; reflexivity|].
    intros j t. unfold emit. rewrite Hticks. simpl.
    destruct j as [|[|j]]; simpl; try discriminate.
    intros H; injection H as <-. split.
    - split; [rewrite Ht; lia|]. split; assumption.
    - split; simpl; [exact Hb|]. unfold quoted in Hq. rewrite Hq, Hb. reflexivity. }
  assert (Hkeep : forall k s1 s2, held R k s1 ->
            linear_step deltaTime deltaPrice spread s1 = Ok s2 -> held R (S k) s2).
  { intros k s1 s2 Hk Hs. destruct (linear_step_Ok _ _ _ _ _ Hs) as (Hadv & Hb & Ha).
    apply (held_step _ _ s1 s2 Hk); [apply Hadv|].
    destruct (held_next _ _ _ Hk) as [Hp [Hdb Hda]]. split.
    - eapply placed_next; eassumption.
    - split; simpl; [rewrite Hb, Hdb|rewrite Ha, Hda]; reflexivity. }
  destruct (linear_loop_keeps (held R) endDate deltaTime deltaPrice spread Hkeep
              _ _ _ _ Hs0 Hrun)
    as (k & s' & limit & Hk & -> & Hlim & Hge & Hprev).
  exists deltaPrice, limit. split; [reflexivity|]. split; [exact Hlim|].
  assert (Ht : timestamp (next s') = startDate + Z.of_nat k * deltaTime).
  { destruct (held_next _ _ _ Hk) as [[Ht _] _]. exact Ht. }
  assert (Hlen : List.length (ticks s') = k) by (destruct Hk; assumption).
  split; [|split].
  - intros j t Hj. exact (held_ticks _ _ _ _ _ Hk Hj).
  - rewrite Hlen, <- Ht. exact Hge.
  - rewrite Hlen. destruct Hprev as [[-> _]|(s1 & Hk1 & Hlt1 & Hs1)].
    + left. reflexivity.
    + right.
      assert (Ht1 : timestamp (next s1)
                    = startDate + Z.of_nat (Nat.pred k) * deltaTime).
      { destruct (held_next _ _ _ Hk1) as [[Ht1 _] _]. exact Ht1. }
      destruct (linear_step_Ok _ _ _ _ _ Hs1) as ((Hticks & Hts & _) & _).
      assert (Hk' : k = S (Nat.pred k)).
      { rewrite <- Hlen, Hticks. unfold emit. rewrite length_app. simpl.
        destruct Hk1 as [Hl1 _]. rewrite Hl1. lia. }
      rewrite Ht1 in Hlt1.
      replace (Z.of_nat k - 1) with (Z.of_nat (Nat.pred k)) by lia. exact Hlt1.
Qed.

(** Whatever the pattern, the tick at position [j] of a returned run is
    placed: [j] intervals after the start, with the volumes of the first
    tick or those of its timestamp. *)
Lemma run_model_placed fuel p startDate endDate startPrice endPrice deltaTime
  spread volatility l :
  run_model sin exp pi random fuel p startDate endDate startPrice endPrice
    deltaTime spread volatility = Some (Ok l) ->
  forall j t, nth_error l j = Some t -> placed startDate deltaTime spread j t.
Proof.
  intros Hrun j t Hj. destruct p; simpl in Hrun.
  - destruct (linear_shaped _ _ _ _ _ _ _ _ Hrun) as (dp & limit & _ & _ & H & _).
    apply (H j t Hj).
  - injection Hrun as Hrun. apply wave_shaped in Hrun. apply (proj1 Hrun j t Hj).
  - injection Hrun as Hrun. apply curve_shaped in Hrun. apply (proj1 Hrun j t Hj).
  - injection Hrun as Hrun. apply zigzag_shaped in Hrun. apply (proj1 Hrun j t Hj).
  - injection Hrun as Hrun. apply random_shaped in Hrun. apply (proj1 Hrun j t Hj).
Qed.

(** The four counted models quote the ask from the bid at every tick. *)
Lemma run_model_quoted fuel p startDate endDate startPrice endPrice deltaTime
  spread volatility l :
  p <> p_none ->
  run_model sin exp pi random fuel p startDate endDate startPrice endPrice
    deltaTime spread volatility = Some (Ok l) ->
  forall j t, nth_error l j = Some t -> quoted spread t.
Proof.
  intros Hp Hrun j t Hj. destruct p; simpl in Hrun; [congruence| | | |].
  - injection Hrun as Hrun. apply wave_shaped in Hrun. apply (proj1 Hrun j t Hj).
  - injection Hrun as Hrun. apply curve_shaped in Hrun. apply (proj1 Hrun j t Hj).
  - injection Hrun as Hrun. apply zigzag_shaped in Hrun. apply (proj1 Hrun j t Hj).
  - injection Hrun as Hrun. apply random_shaped in Hrun. apply (proj1 Hrun j t Hj).
Qed.

End DispatchFacts.

(** * Runs from the command line *)

Section GenerateFacts.

Context {PF : PyFloat}.

Variable sin : float -> result float.
Variable exp : float -> result float.
Variable pi : float.
Variable random : Z -> float.

(** Once the dates, the spread and the interval are computed, [generate]
    is the dispatch on the pattern. *)
Lemma generate_run fuel (a : arguments) startDate endDate spread deltaTime :
  Datetime.strptime (arg_startDate a) = Ok startDate ->
  Datetime.strptime (arg_endDate a) = Ok endDate ->
  int_fdiv (arg_spread a) f1e5 = Ok spread ->
  interval (arg_density a) = Ok deltaTime ->
  generate sin exp pi random fuel a
  = run_model sin exp pi random fuel (arg_pattern a) startDate endDate
      (arg_startPrice a) (arg_endPrice a) deltaTime spread (arg_volatility a).
Proof. intros H1 H2 H3 H4. unfold generate. rewrite H1, H2, H3, H4. reflexivity. Qed.

End GenerateFacts.

(** The linear model does not call the library functions. *)
Lemma generate_none {PF : PyFloat} sin exp pi random sin' exp' pi' random'
  fuel (a : arguments) :
  arg_pattern a = p_none ->
  generate sin exp pi random fuel a = generate sin' exp' pi' random' fuel a.
Proof. intros Hp. unfold generate, run_model. rewrite Hp. reflexivity. Qed.

Module CliFacts.

Import Binary64 Binary64Facts Binary64Volumes Binary64Runs Binary64Spread Cli.
Import Binary64Spec.

Lemma jan_1_value : jan_1 = 1388534400000000.
Proof. reflexivity. Qed.

Lemma jan_2_value : jan_2 = 1388620800000000.
Proof. reflexivity. Qed.

Lemma minute_value : minute = 60000000.
Proof. reflexivity. Qed.

Lemma max_datetime_value : Datetime.max_datetime = 253402300799999999.
Proof. reflexivity. Qed.

Lemma strptime_jan_1 : Datetime.strptime "2014.01.01" = Ok jan_1.
Proof. vm_compute. reflexivity. Qed.

Lemma strptime_jan_2 : Datetime.strptime "2014.01.02" = Ok jan_2.
Proof. vm_compute. reflexivity. Qed.

Lemma spread_ten_points : @int_fdiv binary64 10 (@f1e5 binary64) = Ok ten_points.
Proof. vm_compute. reflexivity. Qed.

Lemma ten_points_ok : modulus_ok ten_points.
Proof. apply modulus_okb_spec. vm_compute. reflexivity. Qed.

Lemma interval_one : @interval binary64 1 = Ok minute.
Proof. vm_compute. reflexivity. Qed.

Lemma interval_seven : @interval binary64 7 = Ok 8571429.
Proof. vm_compute. reflexivity. Qed.

(** Adding a zero delta leaves a price as it is. *)
Lemma iter_add_zero j s m e :
  Nat.iter j (fun p => SFadd prec emax p (S754_zero false)) (S754_finite s m e)
  = S754_finite s m e.
Proof. induction j as [|j IH]; simpl; [reflexivity|]. rewrite IH. reflexivity. Qed.

(** A run of the linear model with the default spread. *)
Lemma linear_cli sin exp pi random fuel (a : @arguments binary64) sd ed dt :
  arg_pattern a = p_none -> arg_spread a = 10 ->
  Datetime.strptime (arg_startDate a) = Ok sd ->
  Datetime.strptime (arg_endDate a) = Ok ed ->
  @interval binary64 (arg_density a) = Ok dt ->
  0 <= sd <= ed ->
  ed + Datetime.us_per_day + dt <= Datetime.max_datetime ->
  0 < dt < Datetime.us_per_day ->
  (Z.to_nat (linear_count sd ed dt) < fuel)%nat ->
  exists q l,
    truediv dt (ed + Datetime.us_per_day - sd - dt) = Ok q /\
    generate sin exp pi random fuel a = Some (Ok l) /\
    List.length l = Z.to_nat (linear_count sd ed dt) /\
    forall j t, nth_error l j = Some t ->
      placed sd dt ten_points j t /\
      drifted (arg_startPrice a) ten_points
        (SFmul prec emax q (SFsub prec emax (arg_endPrice a) (arg_startPrice a)))
        j t.
Proof.
  intros Hp Hs Hsd Hed Hdt Hd Hmax Hdt' Hfuel.
  destruct (linear_returns fuel sd ed (arg_startPrice a) (arg_endPrice a) dt
              ten_points Hd Hmax Hdt' ten_points_ok Hfuel)
    as (q & l & Hq & Hrun & Hlen & Hshape).
  exists q, l. split; [exact Hq|]. split; [|split; assumption].
  rewrite (generate_run sin exp pi random fuel a sd ed ten_points dt Hsd Hed);
    [|rewrite Hs; exact spread_ten_points|exact Hdt].
  rewrite Hp. exact Hrun.
Qed.

(** One day, or two, of the linear model at one tick a minute. *)
Lemma one_day_count : linear_count jan_1 jan_1 minute = 1440.
Proof. reflexivity. Qed.

Lemma two_days_count : linear_count jan_1 jan_2 minute = 2880.
Proof. reflexivity. Qed.

Lemma one_day_run sin exp pi random fuel startPrice endPrice :
  exists l,
    generate sin exp pi random (Z.to_nat 1441 + fuel)
      (defaults "2014.01.01" "2014.01.01" startPrice endPrice) = Some (Ok l) /\
    Z.of_nat (List.length l) = 1440 /\
    forall j t, nth_error l j = Some t ->
      placed jan_1 minute ten_points j t /\
      drifted startPrice ten_points
        (SFmul prec emax (literal 60000000 86340000000)
           (SFsub prec emax endPrice startPrice)) j t.
Proof.
  destruct (linear_cli sin exp pi random (Z.to_nat 1441 + fuel)
              (defaults "2014.01.01" "2014.01.01" startPrice endPrice)
              jan_1 jan_1 minute eq_refl eq_refl strptime_jan_1 strptime_jan_1
              interval_one)
    as (q & l & Hq & Hrun & Hlen & Hshape).
  - rewrite jan_1_value. lia.
  - rewrite jan_1_value, minute_value, max_datetime_value, us_per_day_value. lia.
  - rewrite minute_value, us_per_day_value. lia.
  - rewrite one_day_count. lia.
  - vm_compute in Hq. injection Hq as <-.
    exists l. split; [exact Hrun|]. split; [rewrite Hlen, one_day_count; lia|].
    exact Hshape.
Qed.

Lemma two_days_run sin exp pi random fuel startPrice endPrice :
  exists l,
    generate sin exp pi random (Z.to_nat 2881 + fuel)
      (defaults "2014.01.01" "2014.01.02" startPrice endPrice) = Some (Ok l) /\
    Z.of_nat (List.length l) = 2880 /\
    forall j t, nth_error l j = Some t ->
      placed jan_1 minute ten_points j t /\
      drifted startPrice ten_points
        (SFmul prec emax (literal 60000000 172740000000)
           (SFsub prec emax endPrice startPrice)) j t.
Proof.
  destruct (linear_cli sin exp pi random (Z.to_nat 2881 + fuel)
              (defaults "2014.01.01" "2014.01.02" startPrice endPrice)
              jan_1 jan_2 minute eq_refl eq_refl strptime_jan_1 strptime_jan_2
              interval_one)
    as (q & l & Hq & Hrun & Hlen & Hshape).
  - rewrite jan_1_value, jan_2_value. lia.
  - rewrite jan_2_value, minute_value, max_datetime_value, us_per_day_value. lia.
  - rewrite minute_value, us_per_day_value. lia.
  - rewrite two_days_count. lia.
  - vm_compute in Hq. injection Hq as <-.
    exists l. split; [exact Hrun|]. split; [rewrite Hlen, two_days_count; lia|].
    exact Hshape.
Qed.

End CliFacts.

(** * Exact arithmetic *)

Module ExactFacts.

Import Exact.

Lemma of_Z_add a b : of_Z (a + b) = (of_Z a + of_Z b)%Qc.
Proof.
  apply Qc_is_canon. unfold of_Z, Qcplus, Q2Qc. cbn [this].
  rewrite !Qred_correct. rewrite inject_Z_plus. reflexivity.
Qed.

Lemma of_Z_mul a b : of_Z (a * b) = (of_Z a * of_Z b)%Qc.
Proof.
  apply Qc_is_canon. unfold of_Z, Qcmult, Q2Qc. cbn [this].
  rewrite !Qred_correct. rewrite inject_Z_mult. reflexivity.
Qed.

Lemma of_Z_nonzero a : a <> 0 -> of_Z a <> of_Z 0.
Proof.
  intros Ha H. apply Ha.
  apply (f_equal this) in H. unfold of_Z, Q2Qc in H. cbn [this] in H.
  assert (E : inject_Z a == inject_Z 0).
  { rewrite <- (Qred_correct (inject_Z a)), <- (Qred_correct (inject_Z 0)).
    rewrite H. reflexivity. }
  unfold Qeq in E. simpl in E. lia.
Qed.

Lemma of_Z_one : of_Z 1 = 1%Qc.
Proof. apply Qc_is_canon. reflexivity. Qed.

Lemma of_Z_zero : of_Z 0 = 0%Qc.
Proof. apply Qc_is_canon. reflexivity. Qed.

(** Advancing a price [j] times by a delta, without rounding. *)
Lemma iter_add j x d :
  Nat.iter j (fun p : Qc => (p + d)%Qc) x = (x + of_Z (Z.of_nat j) * d)%Qc.
Proof.
  induction j as [|j IH].
  - simpl. rewrite of_Z_zero. ring.
  - rewrite Nat2Z.inj_succ. unfold Z.succ. rewrite of_Z_add, of_Z_one.
    simpl. rewrite IH. ring.
Qed.

Lemma reach (a b s e : Qc) : a <> 0%Qc -> b <> 0%Qc ->
  (s + a * (b / (a * b) * (e - s)))%Qc = e.
Proof. intros Ha Hb. field. split; assumption. Qed.

(** The delta of the linear model is the price range over the number of
    steps between the first and the last tick. *)
Lemma drift_exact startDate endDate startPrice endPrice deltaTime deltaPrice :
  @drift exact startDate endDate startPrice endPrice deltaTime = Ok deltaPrice ->
  exists limit,
    Datetime.add endDate Datetime.us_per_day = Ok limit /\
    limit - startDate - deltaTime <> 0 /\
    deltaPrice
    = (of_Z deltaTime / of_Z (limit - startDate - deltaTime)
       * (endPrice - startPrice))%Qc.
Proof.
  unfold drift. intros H. inv_bind H. exists a. split; [exact E|].
  cbn [int_truediv exact] in E0. unfold truediv in E0.
  destruct (Z.eqb_spec (a - startDate - deltaTime) 0) as [Hz|Hz]; [discriminate|].
  injection E0 as <-. injection H as <-. split; [exact Hz|reflexivity].
Qed.

(** The run of six hours' interval returns. *)
Lemma exact_day_run :
  @linearModel exact 5 Cli.jan_1 Cli.jan_1 (of_Z 2) (of_Z 4) Cli.six_hours
    Cli.exact_spread = Some (Ok Cli.exact_day).
Proof.
  assert (H : returned (@linearModel exact 5 Cli.jan_1 Cli.jan_1 (of_Z 2) (of_Z 4)
                          Cli.six_hours Cli.exact_spread) = true)
    by (vm_compute; reflexivity).
  unfold Cli.exact_day.
  destruct (@linearModel exact 5 Cli.jan_1 Cli.jan_1 (of_Z 2) (of_Z 4)
              Cli.six_hours Cli.exact_spread) as [[l|e]|];
    [reflexivity|discriminate|discriminate].
Qed.

End ExactFacts.

(** * The specification, claim by claim *)

Module Claims.

Import Binary64 Binary64Facts Binary64Volumes Binary64Runs Binary64Zigzag.
Import Binary64Spec.
Import Binary64Spread Cli CliFacts.

(** ** The random-walk model ends on the end price *)

(** C1, counterexample: [-p random -s 1000 2014.01.01 2014.01.01 2.0 4.0]
    passes the checks of the command line, and the random-walk model
    raises [ZeroDivisionError] there, whatever the random numbers: the
    modulus [1e3 - spread * 1e5] of the volumes is zero. *)
Lemma wide_random_raises :
  valid wide_random /\
  forall sin exp pi random,
    generate sin exp pi random 0 wide_random = Some (Raise ZeroDivisionError).
Proof.
  split.
  - exists jan_1, jan_1. repeat split; try reflexivity; try discriminate.
  - intros sin exp pi random. apply raised_spec. vm_compute. reflexivity.
Qed.

(** C1, amended: in binary64, for dates from the epoch on whose run stays
    within the years of [datetime], an interval shorter than a day and a
    spread of 0 to 999 points, the random-walk model returns [count >= 1]
    ticks, and the last of them has the bid price [endPrice] and the ask
    price [endPrice + spread], whatever the random numbers. *)
Theorem random_last_tick random startDate endDate startPrice endPrice deltaTime
  points spread volatility :
  0 <= startDate <= endDate ->
  endDate + Datetime.us_per_day <= Datetime.max_datetime ->
  0 < deltaTime < Datetime.us_per_day ->
  0 <= points < 1000 ->
  spread_of_points points = Ok spread ->
  exists count,
    @tick_count binary64 startDate endDate deltaTime = Ok count /\
    1 <= count /\
    (startDate + count * deltaTime <= Datetime.max_datetime ->
     exists before t,
       @randomModel binary64 random startDate endDate startPrice endPrice
         deltaTime spread volatility = Ok (before ++ [t]) /\
       Z.of_nat (List.length (before ++ [t])) = count /\
       bidPrice t = endPrice /\
       askPrice t = SFadd prec emax endPrice spread).
Proof.
  intros Hd Hmax Hdt Hp Hs.
  destruct (points_modulus_ok points Hp) as (spread' & Hs' & HM).
  rewrite Hs in Hs'. injection Hs' as <-.
  assert (Hdt' : 0 < deltaTime < 2 ^ 62).
  { rewrite us_per_day_value in *. assert (86400000000 < 2 ^ 62) by reflexivity. lia. }
  destruct (tick_count_returns _ _ _ Hd Hmax Hdt') as (count & Hcount & Hc1).
  exists count. split; [exact Hcount|]. split; [exact Hc1|]. intros Hrange.
  destruct (random_returns random _ _ startPrice endPrice _ _ volatility _
              Hd Hmax Hdt HM Hcount Hrange) as (l & Hl).
  destruct (random_shaped random _ _ _ _ _ _ _ _ Hl)
    as (_ & count' & before & t & Hcount' & Hlen & -> & Hb & Ha).
  rewrite Hcount in Hcount'. injection Hcount' as <-.
  exists before, t. split; [exact Hl|]. split; [rewrite Hlen; lia|].
  split; [exact Hb|exact Ha].
Qed.

Lemma random_last_tick_witness :
  exists before t,
    @randomModel binary64 (fun _ => fhalf) jan_1 jan_1 (of_Z 2) (of_Z 4) minute
      ten_points (of_Z 1) = Ok (before ++ [t]) /\
    Z.of_nat (List.length (before ++ [t])) = 1440 /\
    bidPrice t = of_Z 4 /\
    askPrice t = SFadd prec emax (of_Z 4) ten_points.
Proof.
  destruct (random_last_tick (fun _ => fhalf) jan_1 jan_1 (of_Z 2) (of_Z 4) minute
              10 ten_points (of_Z 1))
    as (count & Hcount & _ & H).
  - rewrite jan_1_value. lia.
  - rewrite jan_1_value, max_datetime_value, us_per_day_value. lia.
  - rewrite minute_value, us_per_day_value. lia.
  - lia.
  - vm_compute. reflexivity.
  - vm_compute in Hcount. injection Hcount as <-. apply H.
    rewrite jan_1_value, minute_value, max_datetime_value. lia.
Defined.


(** ** The number of ticks *)

(** C2: when [backward = int(volatility * 50)] exceeds the count
    [ceil((endDate + 1 day - startDate) / deltaTime)], the body of the
    zigzag model emits nothing and its tail emits [backward] ticks: the
    model returns [backward] ticks, more than the count.  In binary64, for
    dates from the epoch on and a positive modulus of the volumes. *)
Theorem zigzag_long_tail startDate endDate startPrice endPrice deltaTime spread
  volatility count :
  0 <= startDate <= endDate ->
  endDate + Datetime.us_per_day <= Datetime.max_datetime ->
  0 < deltaTime < Datetime.us_per_day ->
  modulus_ok spread ->
  finite (SFmul prec emax volatility (of_Z 50)) = true ->
  @tick_count binary64 startDate endDate deltaTime = Ok count ->
  count < trunc (SFmul prec emax volatility (of_Z 50)) ->
  startDate + trunc (SFmul prec emax volatility (of_Z 50)) * deltaTime
  <= Datetime.max_datetime ->
  exists l,
    @zigzagModel binary64 startDate endDate startPrice endPrice deltaTime
      spread volatility = Ok l /\
    Z.of_nat (List.length l) = trunc (SFmul prec emax volatility (of_Z 50)) /\
    count < Z.of_nat (List.length l).
Proof.
  intros Hd Hmax Hdt HM Hf Hcount Hlt Hrange.
  set (backward := trunc (SFmul prec emax volatility (of_Z 50))) in *.
  assert (Hdt' : 0 < deltaTime < 2 ^ 62).
  { rewrite us_per_day_value in *. assert (86400000000 < 2 ^ 62) by reflexivity. lia. }
  destruct (tick_count_returns _ _ _ Hd Hmax Hdt') as (c & Hc & Hc1).
  rewrite Hcount in Hc. injection Hc as <-.
  destruct (zigzag_returns startDate endDate startPrice endPrice deltaTime spread
              volatility count Hd Hmax Hdt HM Hf) as (l & Hl & Hlen).
  - right. fold backward. lia.
  - exact Hcount.
  - fold backward. replace (Z.max 0 (count - backward)) with 0 by lia. exact Hrange.
  - fold backward in Hlen. exists l. split; [exact Hl|].
    replace (Z.to_nat (count - backward)) with 0%nat in Hlen by lia.
    rewrite Hlen. simpl. split; lia.
Qed.

Lemma zigzag_long_tail_witness :
  exists l,
    @zigzagModel binary64 jan_1 jan_1 (of_Z 2) (of_Z 4) minute ten_points
      (of_Z 100) = Ok l /\
    Z.of_nat (List.length l) = 5000 /\
    1440 < Z.of_nat (List.length l).
Proof.
  apply (zigzag_long_tail jan_1 jan_1 (of_Z 2) (of_Z 4) minute ten_points
           (of_Z 100) 1440).
  - rewrite jan_1_value. lia.
  - rewrite jan_1_value, max_datetime_value, us_per_day_value. lia.
  - rewrite minute_value, us_per_day_value. lia.
  - exact ten_points_ok.
  - reflexivity.
  - vm_compute. reflexivity.
  - reflexivity.
  - vm_compute. discriminate.
Defined.

(** ** The example of the documentation *)

(** C3, counterexample: the run of the example has 2880 ticks, not 1440:
    the end date is included, so the run covers two days. *)
Lemma flat_run_not_1440 :
  exists l,
    (forall sin exp pi random,
       generate sin exp pi random (Z.to_nat 2881) flat = Some (Ok l)) /\
    Z.of_nat (List.length l) = 2880 /\
    Z.of_nat (List.length l) <> 1440.
Proof.
  destruct (two_days_run (fun x => Ok x) (fun x => Ok x) (of_Z 3) (fun _ => fhalf)
              0 (of_Z 2) (of_Z 2)) as (l & Hrun & Hlen & _).
  exists l. split; [|split; lia].
  intros sin exp pi random.
  rewrite (generate_none sin exp pi random (fun x => Ok x) (fun x => Ok x)
             (of_Z 3) (fun _ => fhalf)); [|reflexivity].
  rewrite Nat.add_0_r in Hrun. exact Hrun.
Qed.

(** C3, amended: [2014.01.01 2014.01.02 2.0 2.0] with the defaults (pattern
    none, density 1, spread 10) gives 2880 ticks, one minute apart from
    midnight of 2014-01-01 on, each with the bid price 2.0 and the ask
    price 2.0001. *)
Theorem flat_run sin exp pi random fuel :
  exists l,
    generate sin exp pi random (Z.to_nat 2881 + fuel) flat = Some (Ok l) /\
    Z.of_nat (List.length l) = 2880 /\
    forall j t, nth_error l j = Some t ->
      timestamp t = jan_1 + Z.of_nat j * minute /\
      bidPrice t = of_Z 2 /\
      askPrice t = literal 20001 10000.
Proof.
  destruct (two_days_run sin exp pi random fuel (of_Z 2) (of_Z 2))
    as (l & Hrun & Hlen & Hshape).
  exists l. split; [exact Hrun|]. split; [exact Hlen|].
  intros j t Hj. destruct (Hshape j t Hj) as [[Ht _] [Hb Ha]].
  split; [exact Ht|].
  assert (Hzero : SFmul prec emax (literal 60000000 172740000000)
                    (SFsub prec emax (of_Z 2) (of_Z 2)) = S754_zero false)
    by (vm_compute; reflexivity).
  rewrite Hzero in Hb, Ha. split.
  - rewrite Hb. apply iter_add_zero.
  - rewrite Ha.
    change (@fadd binary64 (of_Z 2) ten_points) with (literal 20001 10000).
    apply iter_add_zero.
Qed.


(** ** The ask price *)

(** C4: the zigzag, wave, curve and random models set the ask price of
    every tick to its bid price plus the spread.  The linear model does so
    for its first tick only: in its loop it advances the bid and the ask
    apart, each by the per-tick delta, so that the tick at position [j] has
    the start price advanced [j] times for its bid, and the start price
    plus the spread advanced [j] times for its ask, which in binary64 is
    not the bid plus the spread: the sums round differently. *)
Theorem ask_quoted_or_advanced {PF : PyFloat} sin exp pi random fuel p
  startDate endDate startPrice endPrice deltaTime spread volatility l :
  run_model sin exp pi random fuel p startDate endDate startPrice endPrice
    deltaTime spread volatility = Some (Ok l) ->
  (p <> p_none -> forall t, In t l -> askPrice t = fadd (bidPrice t) spread) /\
  (p = p_none ->
   exists deltaPrice,
     drift startDate endDate startPrice endPrice deltaTime = Ok deltaPrice /\
     forall j t, nth_error l j = Some t ->
       bidPrice t = Nat.iter j (fun x => fadd x deltaPrice) startPrice /\
       askPrice t
       = Nat.iter j (fun x => fadd x deltaPrice) (fadd startPrice spread)).
Proof.
  intros Hrun. split.
  - intros Hp t Hin. destruct (In_nth_error _ _ Hin) as (j & Hj).
    exact (run_model_quoted sin exp pi random _ _ _ _ _ _ _ _ _ _ Hp Hrun j t Hj).
  - intros ->. simpl in Hrun.
    destruct (linear_shaped _ _ _ _ _ _ _ _ Hrun)
      as (dp & limit & Hdrift & _ & H & _).
    exists dp. split; [exact Hdrift|].
    intros j t Hj. destruct (H j t Hj) as [_ Hd]. exact Hd.
Qed.

Lemma ask_quoted_or_advanced_witness :
  exists l deltaPrice t,
    run (Z.to_nat 1441) falling = Some (Ok l) /\
    @run_model binary64 plain_function plain_function (of_Z 3) even_odds
      (Z.to_nat 1441) p_none jan_1 jan_1 (of_Z 4) (of_Z 2) minute ten_points
      (of_Z 1) = Some (Ok l) /\
    @drift binary64 jan_1 jan_1 (of_Z 4) (of_Z 2) minute = Ok deltaPrice /\
    nth_error l 1 = Some t /\
    bidPrice t = SFadd prec emax (of_Z 4) deltaPrice /\
    askPrice t = SFadd prec emax (SFadd prec emax (of_Z 4) ten_points) deltaPrice /\
    askPrice t <> SFadd prec emax (bidPrice t) ten_points /\
    SFltb (bidPrice t) (askPrice t) = true.
Proof.
  destruct (one_day_run plain_function plain_function (of_Z 3) even_odds 0
              (of_Z 4) (of_Z 2)) as (l & Hrun & Hlen & _).
  rewrite Nat.add_0_r in Hrun. pose proof Hrun as Hcli.
  rewrite (@generate_run binary64 plain_function plain_function (of_Z 3)
             even_odds (Z.to_nat 1441)
             (defaults "2014.01.01" "2014.01.01" (of_Z 4) (of_Z 2))
             jan_1 jan_1 ten_points minute strptime_jan_1 strptime_jan_1
             spread_ten_points interval_one) in Hrun.
  destruct (@ask_quoted_or_advanced binary64 plain_function plain_function
              (of_Z 3) even_odds (Z.to_nat 1441) p_none jan_1 jan_1 (of_Z 4)
              (of_Z 2) minute ten_points (of_Z 1) l Hrun) as [_ Hlinear].
  destruct (Hlinear eq_refl) as (deltaPrice & Hdrift & Hprices).
  destruct (nth_error l 1) as [t|] eqn:Ht.
  - destruct (Hprices 1%nat t Ht) as [Hb Ha].
    exists l, deltaPrice, t. split; [exact Hcli|].
    split; [exact Hrun|]. split; [exact Hdrift|]. split; [exact Ht|].
    split; [exact Hb|]. split; [exact Ha|].
    rewrite Ha, Hb.
    assert (Hdp : deltaPrice
                  = SFmul prec emax (literal 60000000 86340000000)
                      (SFsub prec emax (of_Z 2) (of_Z 4))).
    { assert (E : @drift binary64 jan_1 jan_1 (of_Z 4) (of_Z 2) minute
                  = Ok (SFmul prec emax (literal 60000000 86340000000)
                          (SFsub prec emax (of_Z 2) (of_Z 4))))
        by (vm_compute; reflexivity).
      rewrite E in Hdrift. injection Hdrift as <-. reflexivity. }
    rewrite Hdp. split; [vm_compute; discriminate|vm_compute; reflexivity].
  - apply nth_error_None in Ht. lia.
Defined.

(** ** The last price of the linear model *)

(** C5, counterexample: [2014.01.01 2014.01.01 1.0 1440.0] with the
    defaults.  The last of the 1440 ticks of the linear model has the bid
    price 1440.0, the end price. *)
Lemma steep_reaches_end :
  exists l t,
    (forall sin exp pi random,
       generate sin exp pi random (Z.to_nat 1441) steep = Some (Ok l)) /\
    Z.of_nat (List.length l) = 1440 /\
    nth_error l 1439 = Some t /\
    arg_startPrice steep <> arg_endPrice steep /\
    bidPrice t = arg_endPrice steep.
Proof.
  destruct (one_day_run (fun x => Ok x) (fun x => Ok x) (of_Z 3) (fun _ => fhalf)
              0 (of_Z 1) (of_Z 1440)) as (l & Hrun & Hlen & Hshape).
  destruct (nth_error l 1439) as [t|] eqn:Ht.
  - exists l, t. split; [|split; [exact Hlen|split; [exact Ht|split]]].
    + intros sin exp pi random.
      rewrite (generate_none sin exp pi random (fun x => Ok x) (fun x => Ok x)
                 (of_Z 3) (fun _ => fhalf)); [|reflexivity].
      rewrite Nat.add_0_r in Hrun. exact Hrun.
    + vm_compute. discriminate.
    + destruct (Hshape 1439%nat t Ht) as [_ [Hb _]]. rewrite Hb.
      vm_compute. reflexivity.
  - apply nth_error_None in Ht. lia.
Qed.

(** C5, amended: the delta of the linear model is the price range over the
    number of steps from the first to the last emitted tick, so that in
    exact arithmetic, when the interval divides the time span, the last
    emitted tick has the bid price [endPrice]. *)
Theorem exact_linear_reaches_end fuel startDate endDate startPrice endPrice
  deltaTime spread n l :
  0 < deltaTime -> 0 < n ->
  endDate + Datetime.us_per_day - startDate = n * deltaTime ->
  @linearModel Exact.exact fuel startDate endDate startPrice endPrice deltaTime
    spread = Some (Ok l) ->
  exists t,
    Z.of_nat (List.length l) = n /\
    nth_error l (Z.to_nat (n - 1)) = Some t /\
    bidPrice t = endPrice.
Proof.
  intros Hdt Hn Hspan Hrun.
  destruct (linear_shaped _ _ _ _ _ _ _ _ Hrun)
    as (dp & limit & Hdrift & Hlim & Hshape & Hge & Hlast).
  destruct (ExactFacts.drift_exact _ _ _ _ _ _ Hdrift)
    as (limit' & Hlim' & Hnz & Hdp).
  rewrite Hlim in Hlim'. injection Hlim' as <-.
  apply datetime_add_Ok in Hlim.
  assert (Hlen : Z.of_nat (List.length l) = n).
  { destruct Hlast as [H0|Hlt].
    - rewrite H0 in Hge. simpl in Hge. nia.
    - nia. }
  assert (Hn1 : n <> 1).
  { intros ->. apply Hnz. lia. }
  destruct (nth_error l (Z.to_nat (n - 1))) as [t|] eqn:Ht.
  - exists t. split; [exact Hlen|]. split; [reflexivity|].
    destruct (Hshape _ _ Ht) as [_ [Hb _]]. rewrite Hb.
    cbn [fadd Exact.exact]. rewrite ExactFacts.iter_add.
    rewrite Z2Nat.id by lia. rewrite Hdp.
    replace (limit - startDate - deltaTime) with ((n - 1) * deltaTime) by lia.
    rewrite ExactFacts.of_Z_mul.
    assert (H1 : Exact.of_Z (n - 1) <> 0%Qc).
    { rewrite <- ExactFacts.of_Z_zero. apply ExactFacts.of_Z_nonzero. lia. }
    assert (H2 : Exact.of_Z deltaTime <> 0%Qc).
    { rewrite <- ExactFacts.of_Z_zero. apply ExactFacts.of_Z_nonzero. lia. }
    exact (ExactFacts.reach _ _ _ _ H1 H2).
  - apply nth_error_None in Ht. lia.
Qed.

Lemma exact_linear_reaches_end_witness :
  exists t,
    Z.of_nat (List.length exact_day) = 4 /\
    nth_error exact_day (Z.to_nat (4 - 1)) = Some t /\
    bidPrice t = Exact.of_Z 4.
Proof.
  apply (exact_linear_reaches_end 5 jan_1 jan_1 (Exact.of_Z 2) (Exact.of_Z 4)
           six_hours exact_spread 4 exact_day).
  - reflexivity.
  - reflexivity.
  - reflexivity.
  - exact ExactFacts.exact_day_run.
Defined.

(** ** The volumes *)

(** Before the epoch the last three characters of the minutes can hold
    the minus sign: one minute before it the minutes are [-1], their last
    three characters read as [-1], the divisor [d] is zero, and the
    function raises [ZeroDivisionError]. *)
Lemma volumes_before_epoch :
  @volumesFromTimestamp binary64 (- minute) ten_points
  = Raise ZeroDivisionError.
Proof. vm_compute. reflexivity. Qed.

(** C6, counterexample: at 2014-01-01 00:01:00 with a spread of 7.5 points
    the modulus is 992.5 and [d] is 242.  The function takes the remainder
    of [seconds / d = 5737745.70...] first, 103.20..., and returns its
    integer part 103 with the ask volume 110.5; the floor 5737745 taken
    first leaves the remainder 102.5. *)
Lemma remainder_before_floor :
  SFleb (of_Z 0) (SFmul prec emax half_points (of_Z 100000)) = true /\
  SFltb (SFmul prec emax half_points (of_Z 100000)) (of_Z 1000) = true /\
  @volumesFromTimestamp binary64 (jan_1 + minute) half_points
  = Ok (103, literal 221 2) /\
  floor_then_mod (jan_1 + minute) half_points = Ok (literal 205 2) /\
  literal 205 2 <> of_Z 103.
Proof.
  split; [vm_compute; reflexivity|]. split; [vm_compute; reflexivity|].
  split; [vm_compute; reflexivity|]. split; [vm_compute; reflexivity|].
  vm_compute. discriminate.
Qed.

(** C6, amended: for a timestamp from the epoch on and a positive modulus
    [1e3 - spread * 1e5], the last three characters of the minutes since
    the epoch are their remainder modulo 1000, [d] is that remainder plus
    one, the bid volume is the integer part of the float remainder of
    [seconds / d] by the modulus (the remainder is taken first, then the
    integer part), and the ask volume is the bid volume plus
    [spread * 1e5]. *)
Theorem volumes_by_formula t spread :
  0 <= t <= Datetime.max_datetime ->
  modulus_ok spread ->
  exists d r,
    Str.int_of_str
      (Str.last_chars 3
         (Str.str_of_int
            (trunc (SFdiv prec emax (@timestamp_float binary64 t) (of_Z 60)))))
    = Ok (d - 1) /\
    d = trunc (SFdiv prec emax (@timestamp_float binary64 t) (of_Z 60)) mod 1000 + 1 /\
    py_fmod (SFdiv prec emax (@timestamp_float binary64 t) (of_Z d))
      (SFsub prec emax (of_Z 1000) (SFmul prec emax spread (of_Z 100000)))
    = Ok r /\
    @volumesFromTimestamp binary64 t spread
    = Ok (trunc r,
          SFadd prec emax (of_Z (trunc r)) (SFmul prec emax spread (of_Z 100000))) /\
    0 <= trunc r.
Proof.
  intros Ht HM.
  assert (Ht' : 0 <= t < 2 ^ 62).
  { assert (H := max_datetime_small). lia. }
  destruct (volumes_formula t spread Ht' HM) as (r & Hr & Hv & Hb).
  assert (Hts := timestamp_float_pfin t Ht').
  assert (H60 : ppos (-52) 10 (of_Z 60)) by (apply of_Z_ppos; split; reflexivity).
  assert (Hmin := SFdiv_pfin _ _ _ _ _ _ Hts H60 ltac:(lia)).
  assert (Hn := trunc_pfin _ _ _ Hmin).
  eexists _, r. split; [|split; [reflexivity|split; [exact Hr|split; [exact Hv|lia]]]].
  rewrite (StrFacts.last3_digits _ Hn). f_equal. lia.
Qed.

Lemma volumes_by_formula_witness :
  exists d r,
    Str.int_of_str
      (Str.last_chars 3
         (Str.str_of_int
            (trunc (SFdiv prec emax (@timestamp_float binary64 (jan_1 + minute))
                      (of_Z 60)))))
    = Ok (d - 1) /\
    d = trunc (SFdiv prec emax (@timestamp_float binary64 (jan_1 + minute))
                 (of_Z 60)) mod 1000 + 1 /\
    py_fmod (SFdiv prec emax (@timestamp_float binary64 (jan_1 + minute)) (of_Z d))
      (SFsub prec emax (of_Z 1000) (SFmul prec emax ten_points (of_Z 100000)))
    = Ok r /\
    @volumesFromTimestamp binary64 (jan_1 + minute) ten_points
    = Ok (trunc r,
          SFadd prec emax (of_Z (trunc r))
            (SFmul prec emax ten_points (of_Z 100000))) /\
    0 <= trunc r.
Proof.
  apply (volumes_by_formula (jan_1 + minute) ten_points).
  - rewrite jan_1_value, minute_value, max_datetime_value. lia.
  - exact ten_points_ok.
Defined.

(** C7: whatever the model, the first tick of a run has the bid volume [1]
    and the ask volume [1 + spread], with the spread of the prices and not
    its value in points; only the later ticks take their volumes, scaled
    by [1e5], from their timestamp. *)
Theorem first_tick_volumes {PF : PyFloat} sin exp pi random fuel p startDate
  endDate startPrice endPrice deltaTime spread volatility l :
  run_model sin exp pi random fuel p startDate endDate startPrice endPrice
    deltaTime spread volatility = Some (Ok l) ->
  forall j t, nth_error l j = Some t ->
    match j with
    | O => bidVolume t = 1 /\ int_fadd 1 spread = Ok (askVolume t)
    | S _ =>
        volumesFromTimestamp (timestamp t) spread
        = Ok (bidVolume t, askVolume t)
    end.
Proof.
  intros Hrun j t Hj.
  destruct (run_model_placed sin exp pi random _ _ _ _ _ _ _ _ _ _ Hrun j t Hj)
    as [_ H].
  destruct j; exact H.
Qed.

Lemma first_tick_volumes_witness :
  exists l t,
    @run_model binary64 (fun x => Ok x) (fun x => Ok x) (of_Z 3) (fun _ => fhalf)
      (Z.to_nat 1441) p_none jan_1 jan_1 (of_Z 2) (of_Z 4) minute ten_points
      (of_Z 1) = Some (Ok l) /\
    nth_error l 0 = Some t /\
    bidVolume t = 1 /\
    askVolume t = literal 10001 10000 /\
    askVolume t <> SFadd prec emax (of_Z 1) (SFmul prec emax ten_points (of_Z 100000)).
Proof.
  destruct (one_day_run (fun x => Ok x) (fun x => Ok x) (of_Z 3) (fun _ => fhalf)
              0 (of_Z 2) (of_Z 4)) as (l & Hrun & Hlen & _).
  rewrite Nat.add_0_r in Hrun.
  rewrite (@generate_run binary64 (fun x => Ok x) (fun x => Ok x) (of_Z 3)
             (fun _ => fhalf)
             (Z.to_nat 1441)
             (defaults "2014.01.01" "2014.01.01" (of_Z 2) (of_Z 4))
             jan_1 jan_1 ten_points minute
             strptime_jan_1 strptime_jan_1 spread_ten_points interval_one) in Hrun.
  destruct (nth_error l 0) as [t|] eqn:Ht.
  - exists l, t. split; [exact Hrun|]. split; [exact Ht|].
    destruct (first_tick_volumes _ _ _ _ _ _ _ _ _ _ _ _ _ _ Hrun 0%nat t Ht)
      as [Hb Ha].
    split; [exact Hb|].
    assert (E' : @int_fadd binary64 1 ten_points = Ok (literal 10001 10000))
      by (vm_compute; reflexivity).
    assert (E : askVolume t = literal 10001 10000).
    { rewrite E' in Ha. injection Ha as <-. reflexivity. }
    split; [exact E|]. rewrite E. vm_compute. discriminate.
  - apply nth_error_None in Ht. lia.
Defined.

(** ** The timestamps *)

(** C8, counterexample: [-d 7 2014.01.01 2014.01.01 2.0 4.0].  The interval
    is [timedelta(seconds=60/7)], which holds whole microseconds: the ticks
    are 8571429 microseconds apart, and seven of these intervals are not a
    minute. *)
Lemma seven_per_minute_spacing :
  exists l t t',
    (forall sin exp pi random,
       generate sin exp pi random (Z.to_nat 10081) seven_per_minute
       = Some (Ok l)) /\
    nth_error l 0 = Some t /\
    nth_error l 1 = Some t' /\
    timestamp t' - timestamp t = 8571429 /\
    7 * (timestamp t' - timestamp t) <> 60 * Datetime.us_per_second.
Proof.
  destruct (linear_cli (fun x => Ok x) (fun x => Ok x) (of_Z 3) (fun _ => fhalf)
              (Z.to_nat 10081) seven_per_minute jan_1 jan_1 8571429
              eq_refl eq_refl strptime_jan_1 strptime_jan_1 interval_seven)
    as (q & l & _ & Hrun & Hlen & Hshape).
  - rewrite jan_1_value. lia.
  - rewrite jan_1_value, max_datetime_value, us_per_day_value. lia.
  - rewrite us_per_day_value. lia.
  - replace (linear_count jan_1 jan_1 8571429) with 10080 by reflexivity. lia.
  - replace (linear_count jan_1 jan_1 8571429) with 10080 in Hlen by reflexivity.
    destruct (nth_error l 0) as [t|] eqn:Ht;
      [|apply nth_error_None in Ht; lia].
    destruct (nth_error l 1) as [t'|] eqn:Ht';
      [|apply nth_error_None in Ht'; lia].
    exists l, t, t'. split; [|split; [exact Ht|split; [exact Ht'|]]].
    + intros sin exp pi random.
      rewrite (generate_none sin exp pi random (fun x => Ok x) (fun x => Ok x)
                 (of_Z 3) (fun _ => fhalf)); [exact Hrun|reflexivity].
    + destruct (Hshape 0%nat t Ht) as [[H0 _] _].
      destruct (Hshape 1%nat t' Ht') as [[H1 _] _].
      rewrite H0, H1. unfold Datetime.us_per_second. split; lia.
Qed.

(** C8, amended: whatever the model, consecutive ticks of a run are exactly
    one interval [deltaTime] apart, the interval being the timedelta that
    the script builds from [60 / density] seconds, in whole microseconds;
    the timestamps increase strictly when that interval is positive. *)
Theorem timestamps_spaced {PF : PyFloat} sin exp pi random fuel p startDate
  endDate startPrice endPrice deltaTime spread volatility l :
  0 < deltaTime ->
  run_model sin exp pi random fuel p startDate endDate startPrice endPrice
    deltaTime spread volatility = Some (Ok l) ->
  forall j t t', nth_error l j = Some t -> nth_error l (S j) = Some t' ->
    timestamp t' = timestamp t + deltaTime /\ timestamp t < timestamp t'.
Proof.
  intros Hdt Hrun j t t' Hj Hj'.
  destruct (run_model_placed sin exp pi random _ _ _ _ _ _ _ _ _ _ Hrun j t Hj)
    as [Ht _].
  destruct (run_model_placed sin exp pi random _ _ _ _ _ _ _ _ _ _ Hrun (S j) t' Hj')
    as [Ht' _].
  rewrite Ht, Ht'. split; lia.
Qed.

Lemma timestamps_spaced_witness :
  exists l t t',
    @run_model binary64 (fun x => Ok x) (fun x => Ok x) (of_Z 3) (fun _ => fhalf)
      (Z.to_nat 1441) p_none jan_1 jan_1 (of_Z 2) (of_Z 4) minute ten_points
      (of_Z 1) = Some (Ok l) /\
    nth_error l 0 = Some t /\
    nth_error l 1 = Some t' /\
    timestamp t' = timestamp t + minute /\ timestamp t < timestamp t'.
Proof.
  destruct (one_day_run (fun x => Ok x) (fun x => Ok x) (of_Z 3) (fun _ => fhalf)
              0 (of_Z 2) (of_Z 4)) as (l & Hrun & Hlen & _).
  rewrite Nat.add_0_r in Hrun.
  rewrite (@generate_run binary64 (fun x => Ok x) (fun x => Ok x) (of_Z 3)
             (fun _ => fhalf)
             (Z.to_nat 1441)
             (defaults "2014.01.01" "2014.01.01" (of_Z 2) (of_Z 4))
             jan_1 jan_1 ten_points minute
             strptime_jan_1 strptime_jan_1 spread_ten_points interval_one) in Hrun.
  destruct (nth_error l 0) as [t|] eqn:Ht;
    [|apply nth_error_None in Ht; lia].
  destruct (nth_error l 1) as [t'|] eqn:Ht';
    [|apply nth_error_None in Ht'; lia].
  exists l, t, t'. split; [exact Hrun|]. split; [exact Ht|].
  split; [exact Ht'|].
  apply (timestamps_spaced _ _ _ _ _ _ _ _ _ _ minute _ _ l eq_refl Hrun
           0%nat t t' Ht Ht').
Defined.

(** ** The checks of the command line *)

(** C9: when both dates parse and the end date precedes the start date,
    the script prints the line
    ["[ERROR] Ending date precedes starting date!"] on the error stream and
    exits with status 1; nothing is written to standard output or to a
    file. *)
Theorem end_before_start_exits {PF : PyFloat} sin exp pi random percent_2f
  strftime_ms format_fixed format_fixed_int pow10_neg fuel (a : arguments)
  startDate endDate w :
  Datetime.strptime (arg_startDate a) = Ok startDate ->
  Datetime.strptime (arg_endDate a) = Ok endDate ->
  endDate < startDate ->
  exists w',
    main sin exp pi random percent_2f strftime_ms format_fixed format_fixed_int
      pow10_neg fuel a w = (w', inr (Exit 1)) /\
    exit_status (Exit 1) = Some 1 /\
    stderr w' = stderr w ++ ["[ERROR] Ending date precedes starting date!"%string] /\
    stdout w' = stdout w /\
    files w' = files w.
Proof.
  intros Hs He Hlt.
  unfold main, parse_dates. rewrite Hs, He.
  unfold io_bind at 1. unfold io_ret at 1.
  unfold io_bind at 1.
  apply Z.ltb_lt in Hlt. rewrite Hlt.
  unfold when at 1. unfold error, io_bind, print_stderr, terminate.
  unfold exit_builtin_is_true.
  eexists. split; [reflexivity|]. repeat split.
Qed.

Lemma end_before_start_exits_witness :
  exists w',
    @main binary64 (fun x => Ok x) (fun x => Ok x) (of_Z 3) (fun _ => fhalf)
      (fun _ => EmptyString) (fun _ => EmptyString) (fun _ _ => Ok EmptyString)
      (fun _ _ => Ok EmptyString) (fun _ => Ok (of_Z 0)) 0 reversed
      nothing_written
    = (w', inr (Exit 1)) /\
    exit_status (Exit 1) = Some 1 /\
    stderr w'
    = stderr nothing_written
      ++ ["[ERROR] Ending date precedes starting date!"%string] /\
    stdout w' = stdout nothing_written /\
    files w' = files nothing_written.
Proof.
  apply (@end_before_start_exits binary64 (fun x => Ok x) (fun x => Ok x) (of_Z 3)
           (fun _ => fhalf) (fun _ => EmptyString) (fun _ => EmptyString)
           (fun _ _ => Ok EmptyString) (fun _ _ => Ok EmptyString)
           (fun _ => Ok (of_Z 0)) 0 reversed jan_2 jan_1 nothing_written).
  - exact strptime_jan_2.
  - exact strptime_jan_1.
  - reflexivity.
Defined.

(** ** The tail of the zigzag model *)

(** C10: when [backward = int(volatility * 50)] is one, as for every
    volatility from 0.02 up to 0.04, the zigzag model runs its body and
    then raises [ZeroDivisionError] at the step of its tail, which divides
    by [backward - 1]; no tick sequence is returned.  In binary64, for
    dates from the epoch on whose run stays within the years of
    [datetime], and a positive modulus of the volumes. *)
Theorem zigzag_backward_one_raises startDate endDate startPrice endPrice deltaTime spread
  volatility count :
  0 <= startDate <= endDate ->
  endDate + Datetime.us_per_day <= Datetime.max_datetime ->
  0 < deltaTime < Datetime.us_per_day ->
  modulus_ok spread ->
  finite (SFmul prec emax volatility (of_Z 50)) = true ->
  trunc (SFmul prec emax volatility (of_Z 50)) = 1 ->
  @tick_count binary64 startDate endDate deltaTime = Ok count ->
  startDate + count * deltaTime <= Datetime.max_datetime ->
  @zigzagModel binary64 startDate endDate startPrice endPrice deltaTime
    spread volatility = Raise ZeroDivisionError.
Proof.
  intros Hd Hmax Hdt HM Hf Hb Hcount Hrange.
  assert (Hdt' : 0 < deltaTime < 2 ^ 62).
  { rewrite us_per_day_value in *. assert (86400000000 < 2 ^ 62) by reflexivity. lia. }
  destruct (tick_count_returns _ _ _ Hd Hmax Hdt') as (c & Hc & Hc1).
  rewrite Hcount in Hc. injection Hc as <-.
  assert (Hsmall := max_datetime_below).
  assert (Hcsmall : 0 < count < 2 ^ 62).
  { assert (2 ^ 58 < 2 ^ 62) by reflexivity. split; [lia|nia]. }
  destruct (backward_returns volatility Hf) as (scaled & Hscaled & Hback).
  rewrite Hb in Hback.
  unfold zigzagModel. rewrite initial_returns. cbn [bind].
  rewrite Hcount. cbn [bind].
  rewrite (fdiv_int_b64 _ _ Hcsmall). cbn [bind].
  rewrite Hscaled. cbn [bind]. rewrite Hback. cbn [bind].
  set (s0 := mkVars _ _).
  assert (Hs0 : clocked startDate deltaTime 0 s0).
  { split; [reflexivity|]. simpl. lia. }
  destruct (zigzag_body_loop startDate deltaTime spread
              (SFdiv prec emax (fsub endPrice startPrice) (of_Z count))
              1 count ltac:(lia) ltac:(lia) HM ltac:(lia)) with (s := s0)
    as (s1 & Hrun1 & _).
  - replace (Z.max 0 (count - 1) + 1) with count by lia. exact Hrange.
  - exact Hs0.
  - rewrite Hrun1. cbn [bind].
    change (1 - 1) with 0. rewrite fdiv_int_zero. reflexivity.
Qed.


Lemma zigzag_backward_one_raises_witness :
  valid calm_zigzag /\
  forall sin exp pi random fuel,
    generate sin exp pi random fuel calm_zigzag
    = Some (Raise ZeroDivisionError).
Proof.
  split.
  - exists jan_1, jan_1. repeat split; try reflexivity; try discriminate.
  - intros sin exp pi random fuel.
    rewrite (@generate_run binary64 sin exp pi random fuel calm_zigzag
               jan_1 jan_1 ten_points minute strptime_jan_1 strptime_jan_1
               spread_ten_points interval_one).
    change (Some (@zigzagModel binary64 jan_1 jan_1 (of_Z 2) (of_Z 4) minute
                    ten_points (literal 3 100))
            = Some (Raise ZeroDivisionError)).
    apply (f_equal Some).
    apply (zigzag_backward_one_raises jan_1 jan_1 (of_Z 2) (of_Z 4) minute
             ten_points (literal 3 100) 1440).
    + rewrite jan_1_value. lia.
    + rewrite jan_1_value, max_datetime_value, us_per_day_value. lia.
    + rewrite minute_value, us_per_day_value. lia.
    + exact ten_points_ok.
    + reflexivity.
    + reflexivity.
    + vm_compute. reflexivity.
    + rewrite jan_1_value, minute_value, max_datetime_value. lia.
Defined.

End Claims.
(** * The script, from the checks to the output *)

Section ScriptFacts.

Context {PF : PyFloat}.

Variable sin : float -> result float.
Variable exp : float -> result float.
Variable pi : float.
Variable random : Z -> float.
Variable percent_2f : float -> string.
Variable strftime_ms : Z -> string.
Variable format_fixed : Z -> float -> result string.
Variable format_fixed_int : Z -> Z -> result string.
Variable pow10_neg : Z -> result float.

(** The checks of [valid], as the tests of the script. *)
Lemma valid_checks (a : arguments) : valid a ->
  exists startDate endDate,
    Datetime.strptime (arg_startDate a) = Ok startDate /\
    Datetime.strptime (arg_endDate a) = Ok endDate /\
    (endDate <? startDate) = false /\
    (arg_digits a <=? 0) = false /\
    (fleb (arg_startPrice a) (Zfloat 0) || fleb (arg_endPrice a) (Zfloat 0))
    = false /\
    (arg_spread a <? 0) = false /\
    (arg_density a <=? 0) = false /\
    fleb (arg_volatility a) (Zfloat 0) = false.
Proof.
  intros (sd & ed & Hs & He & Hd & Hdig & Hp1 & Hp2 & Hsp & Hden & Hv).
  exists sd, ed. repeat split; try assumption.
  - apply Z.ltb_ge. lia.
  - apply Z.leb_gt. lia.
  - rewrite Hp1, Hp2. reflexivity.
  - apply Z.ltb_ge. lia.
  - apply Z.leb_gt. lia.
Qed.

(** What [generate] computed when it returned or raised in the model. *)
Lemma generate_inv fuel (a : arguments) startDate endDate r :
  Datetime.strptime (arg_startDate a) = Ok startDate ->
  Datetime.strptime (arg_endDate a) = Ok endDate ->
  generate sin exp pi random fuel a = r ->
  (exists e, int_fdiv (arg_spread a) f1e5 = Raise e /\ r = Some (Raise e)) \/
  (exists spread e,
     int_fdiv (arg_spread a) f1e5 = Ok spread /\
     interval (arg_density a) = Raise e /\ r = Some (Raise e)) \/
  (exists spread deltaTime,
     int_fdiv (arg_spread a) f1e5 = Ok spread /\
     interval (arg_density a) = Ok deltaTime /\
     run_model sin exp pi random fuel (arg_pattern a) startDate endDate
       (arg_startPrice a) (arg_endPrice a) deltaTime spread (arg_volatility a)
     = r).
Proof.
  intros Hs He <-. unfold generate. rewrite Hs, He.
  destruct (int_fdiv (arg_spread a) f1e5) as [spread|e].
  - destruct (interval (arg_density a)) as [dt|e].
    + right. right. eauto.
    + right. left. eauto.
  - left. destruct (interval (arg_density a)); eauto.
Qed.

Ltac run_check H := rewrite H; cbv beta iota delta [when io_ret escape].

(** The rows that format are as many as the ticks, of five fields each. *)
Lemma csv_rows_shape l digits rows :
  csv_rows strftime_ms format_fixed format_fixed_int pow10_neg l digits = Ok rows ->
  List.length rows = List.length l /\
  Forall (fun r : row => List.length r = 5%nat) rows.
Proof.
  revert rows. induction l as [|t l IH]; intros rows H; simpl in H.
  - injection H as <-. split; [reflexivity|constructor].
  - destruct (csv_row strftime_ms format_fixed format_fixed_int pow10_neg digits t)
      as [r|e] eqn:Hr; [|discriminate].
    simpl in H.
    destruct (csv_rows strftime_ms format_fixed format_fixed_int pow10_neg l digits)
      as [rs|e]; [|discriminate].
    injection H as <-. destruct (IH rs eq_refl) as [Hlen Hall].
    split; [simpl; rewrite Hlen; reflexivity|]. constructor; [|exact Hall].
    unfold csv_row in Hr. inv_bind Hr. injection Hr as <-. reflexivity.
Qed.

(** Rows that all format are all written, to standard output or to the
    file in front. *)
Lemma toCsv_stdout l digits rows w :
  csv_rows strftime_ms format_fixed format_fixed_int pow10_neg l digits = Ok rows ->
  toCsv strftime_ms format_fixed format_fixed_int pow10_neg l digits stdout_row w
  = (mkWorld (stderr w) (stdout w ++ rows) (files w), inl tt).
Proof.
  revert rows w. induction l as [|t l IH]; intros rows w H; simpl in H.
  - injection H as <-. rewrite app_nil_r. destruct w; reflexivity.
  - destruct (csv_row strftime_ms format_fixed format_fixed_int pow10_neg digits t)
      as [r|e] eqn:Hr; [|discriminate].
    simpl in H.
    destruct (csv_rows strftime_ms format_fixed format_fixed_int pow10_neg l digits)
      as [rs|e] eqn:Hrs; [|discriminate].
    injection H as <-.
    cbn [toCsv]. unfold io_bind at 1. rewrite Hr.
    cbv beta iota delta [escape io_ret]. unfold io_bind at 1.
    unfold stdout_row at 1. rewrite (IH rs _ eq_refl).
    cbn [stderr stdout files]. rewrite <- app_assoc. reflexivity.
Qed.

Lemma toCsv_file l digits rows err out path before others :
  csv_rows strftime_ms format_fixed format_fixed_int pow10_neg l digits = Ok rows ->
  toCsv strftime_ms format_fixed format_fixed_int pow10_neg l digits file_row
    (mkWorld err out ((path, before) :: others))
  = (mkWorld err out ((path, before ++ rows) :: others), inl tt).
Proof.
  revert rows before. induction l as [|t l IH]; intros rows before H; simpl in H.
  - injection H as <-. rewrite app_nil_r. reflexivity.
  - destruct (csv_row strftime_ms format_fixed format_fixed_int pow10_neg digits t)
      as [r|e] eqn:Hr; [|discriminate].
    simpl in H.
    destruct (csv_rows strftime_ms format_fixed format_fixed_int pow10_neg l digits)
      as [rs|e] eqn:Hrs; [|discriminate].
    injection H as <-.
    cbn [toCsv]. unfold io_bind at 1. rewrite Hr.
    cbv beta iota delta [escape io_ret]. unfold io_bind at 1.
    unfold file_row at 1. cbn [stderr stdout files].
    rewrite (IH rs _ eq_refl). rewrite <- app_assoc. reflexivity.
Qed.

(** A row that does not format ends [toCsv] there, by its exception. *)
Lemma toCsv_raises t l digits writerow e w :
  csv_row strftime_ms format_fixed format_fixed_int pow10_neg digits t = Raise e ->
  toCsv strftime_ms format_fixed format_fixed_int pow10_neg (t :: l) digits
    writerow w
  = (w, inr (Uncaught e)).
Proof.
  intros Hr. cbn [toCsv]. unfold io_bind at 1. rewrite Hr. reflexivity.
Qed.

(** With more digits than [INT_MAX], the first [format] of a row raises
    [ValueError], once [10 ** -digits] is computed. *)
Lemma csv_row_precision digits t floor :
  int_max < digits -> pow10_neg digits = Ok floor ->
  csv_row strftime_ms format_fixed format_fixed_int pow10_neg digits t
  = Raise ValueError.
Proof.
  intros Hd Hp. unfold csv_row. rewrite Hp. cbn [bind]. unfold format_f.
  apply Z.ltb_lt in Hd. rewrite Hd, Bool.orb_true_r. reflexivity.
Qed.

(** X1: a run whose arguments pass the checks, without [-v] and without
    [-o], and whose model returns.  When every row formats, the script ends
    normally, with one CSV row of five fields per tick appended to standard
    output and nothing written to the error stream or to a file.  With more
    digits than [INT_MAX] and a tick to write, [format] refuses the
    precision: the script ends by [ValueError], and has written nothing. *)
Theorem script_writes_rows fuel (a : arguments) w l :
  valid a -> arg_verbose a = false -> arg_outputFile a = None ->
  generate sin exp pi random fuel a = Some (Ok l) ->
  (forall rows,
     csv_rows strftime_ms format_fixed format_fixed_int pow10_neg l (arg_digits a)
     = Ok rows ->
     main sin exp pi random percent_2f strftime_ms format_fixed format_fixed_int
       pow10_neg fuel a w
     = (mkWorld (stderr w) (stdout w ++ rows) (files w), inl tt) /\
     List.length rows = List.length l /\
     Forall (fun r : row => List.length r = 5%nat) rows) /\
  (forall t l' floor,
     l = t :: l' -> int_max < arg_digits a ->
     pow10_neg (arg_digits a) = Ok floor ->
     main sin exp pi random percent_2f strftime_ms format_fixed format_fixed_int
       pow10_neg fuel a w
     = (w, inr (Uncaught ValueError))).
Proof.
  intros Hv Hq Ho Hg.
  destruct (valid_checks a Hv) as (sd & ed & Hs & He & H1 & H2 & H3 & H4 & H5 & H6).
  destruct (generate_inv fuel a sd ed _ Hs He Hg)
    as [(e & _ & Hr)|[(spread & e & _ & _ & Hr)|(spread & dt & Hsp & Hdt & Hr)]];
    try discriminate.
  assert (Hmain :
    main sin exp pi random percent_2f strftime_ms format_fixed format_fixed_int
      pow10_neg fuel a w
    = toCsv strftime_ms format_fixed format_fixed_int pow10_neg l (arg_digits a)
        stdout_row w).
  { unfold main, parse_dates. rewrite Hs, He.
    cbv beta iota delta [io_bind io_ret].
    run_check H1. run_check H2. run_check H3. run_check H4. run_check H5.
    run_check H6. run_check Hsp. run_check Hq. run_check Hdt. run_check Hr.
    rewrite Ho. reflexivity. }
  split.
  - intros rows Hrows. split; [|exact (csv_rows_shape _ _ _ Hrows)].
    rewrite Hmain. exact (toCsv_stdout _ _ _ w Hrows).
  - intros t l' floor -> Hd Hp. rewrite Hmain.
    exact (toCsv_raises t l' _ _ _ w (csv_row_precision _ t floor Hd Hp)).
Qed.

(** X2: the same run with [-o path].  When every row formats, the rows go
    to the file [path] and standard output is left alone; but [-o] with an
    empty path is taken for no [-o] at all, and the rows go to standard
    output.  With more digits than [INT_MAX] and a tick to write, the file
    [path] is opened, and the script ends by [ValueError] with no row in
    it. *)
Theorem script_writes_file fuel (a : arguments) w l path :
  valid a -> arg_verbose a = false -> arg_outputFile a = Some path ->
  generate sin exp pi random fuel a = Some (Ok l) ->
  (forall rows,
     csv_rows strftime_ms format_fixed format_fixed_int pow10_neg l (arg_digits a)
     = Ok rows ->
     (path <> EmptyString ->
      main sin exp pi random percent_2f strftime_ms format_fixed format_fixed_int
        pow10_neg fuel a w
      = (mkWorld (stderr w) (stdout w) ((path, rows) :: files w), inl tt)) /\
     (path = EmptyString ->
      main sin exp pi random percent_2f strftime_ms format_fixed format_fixed_int
        pow10_neg fuel a w
      = (mkWorld (stderr w) (stdout w ++ rows) (files w), inl tt))) /\
  (forall t l' floor,
     l = t :: l' -> int_max < arg_digits a ->
     pow10_neg (arg_digits a) = Ok floor ->
     path <> EmptyString ->
     main sin exp pi random percent_2f strftime_ms format_fixed format_fixed_int
       pow10_neg fuel a w
     = (mkWorld (stderr w) (stdout w) ((path, []) :: files w),
        inr (Uncaught ValueError))).
Proof.
  intros Hv Hq Ho Hg.
  destruct (valid_checks a Hv) as (sd & ed & Hs & He & H1 & H2 & H3 & H4 & H5 & H6).
  destruct (generate_inv fuel a sd ed _ Hs He Hg)
    as [(e & _ & Hr)|[(spread & e & _ & _ & Hr)|(spread & dt & Hsp & Hdt & Hr)]];
    try discriminate.
  assert (Hmain :
    main sin exp pi random percent_2f strftime_ms format_fixed format_fixed_int
      pow10_neg fuel a w
    = if String.eqb path EmptyString
      then toCsv strftime_ms format_fixed format_fixed_int pow10_neg l
             (arg_digits a) stdout_row w
      else toCsv strftime_ms format_fixed format_fixed_int pow10_neg l
             (arg_digits a) file_row
             (mkWorld (stderr w) (stdout w) ((path, []) :: files w))).
  { unfold main, parse_dates. rewrite Hs, He.
    cbv beta iota delta [io_bind io_ret].
    run_check H1. run_check H2. run_check H3. run_check H4. run_check H5.
    run_check H6. run_check Hsp. run_check Hq. run_check Hdt. run_check Hr.
    rewrite Ho. destruct (String.eqb path EmptyString); reflexivity. }
  split.
  - intros rows Hrows. split; intros Hp; rewrite Hmain.
    + apply String.eqb_neq in Hp. rewrite Hp.
      exact (toCsv_file _ _ _ _ _ path [] _ Hrows).
    + rewrite Hp. cbn [String.eqb]. exact (toCsv_stdout _ _ _ w Hrows).
  - intros t l' floor -> Hd Hf Hp. rewrite Hmain.
    apply String.eqb_neq in Hp. rewrite Hp.
    exact (toCsv_raises t l' _ _ _ _ (csv_row_precision _ t floor Hd Hf)).
Qed.

(** X3: when the model raises an exception, nothing catches it: the script
    ends by it, with status 1, and has written no row. *)
Theorem model_exception_ends_script fuel (a : arguments) w e :
  valid a -> arg_verbose a = false ->
  generate sin exp pi random fuel a = Some (Raise e) ->
  main sin exp pi random percent_2f strftime_ms format_fixed format_fixed_int
    pow10_neg fuel a w = (w, inr (Uncaught e)) /\
  exit_status (Uncaught e) = Some 1.
Proof.
  intros Hv Hq Hg. split; [|reflexivity].
  destruct (valid_checks a Hv) as (sd & ed & Hs & He & H1 & H2 & H3 & H4 & H5 & H6).
  unfold main, parse_dates. rewrite Hs, He.
  cbv beta iota delta [io_bind io_ret].
  run_check H1. run_check H2. run_check H3. run_check H4. run_check H5.
  run_check H6.
  destruct (generate_inv fuel a sd ed _ Hs He Hg)
    as [(e' & Hsp & Hr)|[(spread & e' & Hsp & Hdt & Hr)|(spread & dt & Hsp & Hdt & Hr)]].
  - injection Hr as <-. run_check Hsp. destruct w; reflexivity.
  - injection Hr as <-. run_check Hsp. run_check Hq. run_check Hdt.
    destruct w; reflexivity.
  - run_check Hsp. run_check Hq. run_check Hdt. run_check Hr.
    destruct w; reflexivity.
Qed.

(** X4: a date that [strptime] does not accept ends the script with the
    line ["[ERROR] Bad date format!"] and the status 1, whatever the other
    arguments are: [error] exits, so that the dates left unbound by the
    failed [try] are never read. *)
Theorem bad_date_exits fuel (a : arguments) w :
  (exists e, Datetime.strptime (arg_startDate a) = Raise e) \/
  (exists e, Datetime.strptime (arg_endDate a) = Raise e) ->
  complained "Bad date format!" w
    (main sin exp pi random percent_2f strftime_ms format_fixed format_fixed_int
       pow10_neg fuel a w).
Proof.
  intros H. unfold complained, main, parse_dates.
  destruct (Datetime.strptime (arg_startDate a)) as [sd|e1].
  - destruct (Datetime.strptime (arg_endDate a)) as [ed|e2].
    + destruct H as [(e & H)|(e & H)]; discriminate.
    + reflexivity.
  - reflexivity.
Qed.

(** X5: with dates that parse and are in order, the first of the checks on
    the digits, the prices, the spread, the density and the volatility
    that fails ends the script with its own message and the status 1, and
    no row is written. *)
Theorem failed_check_exits fuel (a : arguments) startDate endDate w :
  Datetime.strptime (arg_startDate a) = Ok startDate ->
  Datetime.strptime (arg_endDate a) = Ok endDate ->
  startDate <= endDate ->
  let run := main sin exp pi random percent_2f strftime_ms format_fixed
               format_fixed_int pow10_neg fuel a w in
  let bad_price :=
    fleb (arg_startPrice a) (Zfloat 0) || fleb (arg_endPrice a) (Zfloat 0) in
  (arg_digits a <= 0 -> complained "Digits must be larger than zero!" w run) /\
  (0 < arg_digits a -> bad_price = true ->
   complained "Price must be larger than zero!" w run) /\
  (0 < arg_digits a -> bad_price = false -> arg_spread a < 0 ->
   complained "Spread must be larger or equal to zero!" w run) /\
  (0 < arg_digits a -> bad_price = false -> 0 <= arg_spread a ->
   arg_density a <= 0 ->
   complained "Density must be larger than zero!" w run) /\
  (0 < arg_digits a -> bad_price = false -> 0 <= arg_spread a ->
   0 < arg_density a -> fleb (arg_volatility a) (Zfloat 0) = true ->
   complained "Volatility must be larger than zero!" w run).
Proof.
  intros Hs He Hd run bad_price.
  assert (H1 : (endDate <? startDate) = false) by (apply Z.ltb_ge; lia).
  unfold complained.
  repeat split.
  - intros Hdig. apply Z.leb_le in Hdig.
    subst run. unfold main, parse_dates. rewrite Hs, He.
    cbv beta iota delta [io_bind io_ret].
    run_check H1. run_check Hdig. reflexivity.
  - intros Hdig Hp. apply Z.leb_gt in Hdig.
    subst run. unfold main, parse_dates. rewrite Hs, He.
    cbv beta iota delta [io_bind io_ret].
    run_check H1. run_check Hdig. fold bad_price. run_check Hp. reflexivity.
  - intros Hdig Hp Hsp. apply Z.leb_gt in Hdig. apply Z.ltb_lt in Hsp.
    subst run. unfold main, parse_dates. rewrite Hs, He.
    cbv beta iota delta [io_bind io_ret].
    run_check H1. run_check Hdig. fold bad_price. run_check Hp. run_check Hsp.
    reflexivity.
  - intros Hdig Hp Hsp Hden. apply Z.leb_gt in Hdig. apply Z.ltb_ge in Hsp.
    apply Z.leb_le in Hden.
    subst run. unfold main, parse_dates. rewrite Hs, He.
    cbv beta iota delta [io_bind io_ret].
    run_check H1. run_check Hdig. fold bad_price. run_check Hp. run_check Hsp.
    run_check Hden. reflexivity.
  - intros Hdig Hp Hsp Hden Hv. apply Z.leb_gt in Hdig. apply Z.ltb_ge in Hsp.
    apply Z.leb_gt in Hden.
    subst run. unfold main, parse_dates. rewrite Hs, He.
    cbv beta iota delta [io_bind io_ret].
    run_check H1. run_check Hdig. fold bad_price. run_check Hp. run_check Hsp.
    run_check Hden. run_check Hv. reflexivity.
Qed.

(** X6: with [-v], for a run whose model returns and whose rows all
    format, the script reports the spread, the pattern and the number of
    rows on the error stream, each line with the tag [[INFO]] twice: [msg]
    prints the tag, and the text it is given starts with the tag too.  The
    rows go to standard output. *)
Theorem verbose_run_reports fuel (a : arguments) w l rows :
  valid a -> arg_verbose a = true -> arg_outputFile a = None ->
  generate sin exp pi random fuel a = Some (Ok l) ->
  csv_rows strftime_ms format_fixed format_fixed_int pow10_neg l (arg_digits a)
  = Ok rows ->
  exists spread w',
    int_fdiv (arg_spread a) f1e5 = Ok spread /\
    main sin exp pi random percent_2f strftime_ms format_fixed format_fixed_int
      pow10_neg fuel a w = (w', inl tt) /\
    stderr w'
    = stderr w
      ++ [("[INFO] [INFO] Spread: " ++ percent_2f spread)%string;
          ("[INFO] [INFO] Pattern: " ++ pattern_name (arg_pattern a))%string;
          ("[INFO] [INFO] Generated rows: "
           ++ Str.str_of_int (Z.of_nat (List.length l)))%string] /\
    stdout w' = stdout w ++ rows /\
    files w' = files w.
Proof.
  intros Hv Hq Ho Hg Hrows.
  destruct (valid_checks a Hv) as (sd & ed & Hs & He & H1 & H2 & H3 & H4 & H5 & H6).
  destruct (generate_inv fuel a sd ed _ Hs He Hg)
    as [(e & _ & Hr)|[(spread & e & _ & _ & Hr)|(spread & dt & Hsp & Hdt & Hr)]];
    try discriminate.
  exists spread. eexists. split; [exact Hsp|]. split.
  - unfold main, parse_dates. rewrite Hs, He.
    cbv beta iota delta [io_bind io_ret].
    run_check H1. run_check H2. run_check H3. run_check H4. run_check H5.
    run_check H6. run_check Hsp. run_check Hq.
    cbv beta iota delta [msg print_stderr].
    run_check Hdt. run_check Hr.
    rewrite Ho. cbv beta iota delta [stderr stdout files].
    rewrite (toCsv_stdout _ _ _ _ Hrows). reflexivity.
  - cbn [stderr stdout files]. repeat split.
    rewrite <- !app_assoc. reflexivity.
Qed.

End ScriptFacts.

(** * Remainders without rounding *)

Module Binary64Exact.

Import Binary64 Binary64Spec Binary64Facts Binary64Volumes Binary64Runs.
Import Binary64Spread.

(** An integer below [2^53], scaled by a power of two within the range of
    the format, is a float: rounding leaves it as it is. *)
Lemma binary_round_exact r e :
  Zpos r < 2 ^ 53 -> -1074 <= e <= 0 ->
  let F := Z.max (Zdigits2 (Zpos r) + e - 53) (-1074) in
  exists m,
    binary_round prec emax false r e = S754_finite false m F /\
    Zpos m = Zpos r * 2 ^ (e - F) /\ F <= e.
Proof.
  intros Hr He F.
  assert (Dr := digits_lt_53 _ Hr).
  assert (HF : F <= e) by (unfold F; lia).
  unfold binary_round.
  change (Zpos (digits2_pos r)) with (Zdigits2 (Zpos r)).
  rewrite fexp_eq. fold F.
  destruct (shl_align r e F) as [mz ez] eqn:Hsh.
  destruct (shl_align_spec _ _ _ _ _ Hsh) as [Hez Hmz].
  assert (Eez : ez = F) by lia. rewrite Eez in Hmz. clear Hez Hsh.
  rewrite Eez. clear Eez ez.
  assert (Dmz : Zdigits2 (Zpos mz) = Zdigits2 (Zpos r) + (e - F)).
  { rewrite Hmz. apply digits_shift; lia. }
  assert (Hfexp : fexp prec emax (Zdigits2 (Zpos mz) + F) - F = 0).
  { rewrite fexp_eq, Dmz. unfold F. lia. }
  unfold binary_round_aux, shr_fexp.
  rewrite Hfexp. cbn [shr shr_record_of_loc shr_m loc_of_shr_record
                        round_nearest_even].
  rewrite Hfexp. cbn [shr shr_record_of_loc shr_m].
  assert (HFle : (F <=? emax - prec) = true).
  { apply Z.leb_le. unfold emax, prec. lia. }
  rewrite HFle. exists mz. auto.
Qed.

(** The float remainder of a non-negative float by a positive modulus that
    is at most [B]: its integer part is below [B]. *)
Lemma py_fmod_below lo hi x my ey B :
  pfin lo hi x -> -1074 <= lo ->
  Zpos my < 2 ^ 53 -> -1074 <= ey <= 0 ->
  Zpos my <= B * 2 ^ (- ey) ->
  exists r,
    py_fmod x (S754_finite false my ey) = Ok r /\ 0 <= trunc r < B.
Proof.
  intros Hx Hlo Hmy Hey HB.
  assert (P0 : 0 < 2 ^ (- ey)) by (apply pow2_pos; lia).
  assert (HBpos : 0 < B) by nia.
  destruct x as [sx| | |[|] mx ex]; simpl in Hx; try tauto.
  - exists (S754_zero false). split; [reflexivity|simpl; lia].
  - destruct Hx as [Hmx Hex].
    unfold py_fmod.
    change (SFeqb (S754_finite false my ey) (S754_zero false)) with false.
    change (SFltb (S754_finite false my ey) (S754_zero false)) with false.
    cbv iota. unfold c_fmod.
    set (e := Z.min ex ey).
    rewrite !Z.shiftl_mul_pow2 by lia.
    set (X := Zpos mx * 2 ^ (ex - e)).
    set (Y := Zpos my * 2 ^ (ey - e)).
    assert (PX : 0 < 2 ^ (ex - e)) by (apply pow2_pos; lia).
    assert (PY : 0 < 2 ^ (ey - e)) by (apply pow2_pos; lia).
    assert (HX : 0 <= X) by (unfold X; nia).
    assert (HY : 0 < Y) by (unfold Y; nia).
    assert (HR := Z.rem_bound_pos X Y HX HY).
    assert (HRX : Z.rem X Y <= X).
    { rewrite Z.rem_mod_nonneg by lia. apply Z.mod_le; lia. }
    assert (HR53 : Z.rem X Y < 2 ^ 53).
    { destruct (Z.min_spec ex ey) as [[_ Hmin]|[_ Hmin]]; fold e in Hmin.
      - assert (X = Zpos mx).
        { unfold X. rewrite Hmin, Z.sub_diag. simpl. lia. }
        lia.
      - assert (Y = Zpos my).
        { unfold Y. rewrite Hmin, Z.sub_diag. simpl. lia. }
        lia. }
    (* the remainder, scaled, is below B *)
    assert (Pe : 0 < 2 ^ (- e)) by (apply pow2_pos; lia).
    assert (HYB : Y <= B * 2 ^ (- e)).
    { unfold Y. replace (- e) with (- ey + (ey - e)) by lia.
      rewrite Z.pow_add_r by lia. nia. }
    unfold of_scaled.
    destruct (Z.rem X Y) as [|r|r] eqn:HRr; try lia.
    + exists (S754_zero false). split; [reflexivity|simpl; lia].
    + simpl Z.abs. simpl cond_Zopp. unfold binary_normalize.
      assert (He : -1074 <= e <= 0) by (unfold e; lia).
      destruct (binary_round_exact r e HR53 He) as (m & Hm & Hval & HF).
      rewrite Hm.
      set (F := Z.max (Zdigits2 (Zpos r) + e - 53) (-1074)) in *.
      exists (S754_finite false m F). split; [reflexivity|].
      simpl trunc.
      assert (PF : 0 < 2 ^ (e - F)) by (apply pow2_pos; lia).
      assert (HFle : F <= 0) by lia.
      destruct (Z.eq_dec F 0) as [F0|Fneg].
      * assert (E0 : e = 0) by lia.
        rewrite F0, Z.shiftl_0_r. rewrite E0, F0 in Hval. rewrite E0 in HYB.
        change (2 ^ (0 - 0)) with 1 in Hval. change (2 ^ (- 0)) with 1 in HYB.
        lia.
      * rewrite Z.shiftl_div_pow2 by lia.
        assert (PnF : 0 < 2 ^ (- F)) by (apply pow2_pos; lia).
        split; [apply Z.div_pos; lia|].
        apply Z.div_lt_upper_bound; [lia|].
        rewrite Hval.
        replace (- F) with (- e + (e - F)) by lia.
        rewrite Z.pow_add_r by lia. nia.
Qed.

(** The modulus of a spread in points is at most [1001 - points]. *)
Lemma points_bounded : forallb points_below (range 0 1000) = true.
Proof. vm_compute. reflexivity. Qed.

Lemma points_modulus_below points : 0 <= points < 1000 ->
  exists spread my ey,
    spread_of_points points = Ok spread /\
    SFsub prec emax (of_Z 1000) (SFmul prec emax spread (of_Z 100000))
    = S754_finite false my ey /\
    Zpos my < 2 ^ 53 /\ -1074 <= ey <= 0 /\
    Zpos my <= (1001 - points) * 2 ^ (- ey).
Proof.
  intros Hp.
  assert (Hin : In points (range 0 1000)).
  { unfold range. apply in_map_iff. exists (Z.to_nat points). split; [lia|].
    apply in_seq. simpl. lia. }
  assert (H := proj1 (forallb_forall _ _) points_bounded _ Hin).
  unfold points_below in H.
  destruct (spread_of_points points) as [spread|e]; [|discriminate].
  destruct (SFsub prec emax (of_Z 1000) (SFmul prec emax spread (of_Z 100000)))
    as [| | |[|] my ey] eqn:HM; try discriminate.
  exists spread, my, ey. split; [reflexivity|]. split; [exact HM|].
  apply andb_prop in H. destruct H as [H H4].
  apply andb_prop in H. destruct H as [H H3].
  apply andb_prop in H. destruct H as [H1 H2].
  apply Z.ltb_lt in H1. apply Z.leb_le in H2, H3, H4. auto.
Qed.

End Binary64Exact.
(** * More on the models *)

Section CountFacts.

Context {PF : PyFloat}.

Variable sin : float -> result float.
Variable exp : float -> result float.
Variable pi : float.
Variable random : Z -> float.

(** X7: the wave, the curve and the random model return as many ticks as
    they counted: [ceil((endDate + 1 day - startDate) / deltaTime)], the
    quotient being that of the floats. *)
Theorem counted_models_length fuel p startDate endDate startPrice endPrice
  deltaTime spread volatility l :
  p = p_wave \/ p = p_curve \/ p = p_random ->
  run_model sin exp pi random fuel p startDate endDate startPrice endPrice
    deltaTime spread volatility = Some (Ok l) ->
  exists count,
    tick_count startDate endDate deltaTime = Ok count /\
    List.length l = Z.to_nat count.
Proof.
  intros Hp Hrun. destruct Hp as [-> | [-> | ->]]; simpl in Hrun;
    injection Hrun as Hrun.
  - apply wave_shaped in Hrun. apply Hrun.
  - apply curve_shaped in Hrun. apply Hrun.
  - apply random_shaped in Hrun.
    destruct Hrun as (_ & count & before & t & Hc & Hl & _).
    exists count. split; assumption.
Qed.

(** X8: the ticks of the linear model start at [startDate] and stay before
    the day after [endDate]: each is at its position times the interval
    after the start, and the last one is less than an interval before the
    limit. *)
Theorem linear_ticks_in_range fuel startDate endDate startPrice endPrice
  deltaTime spread l :
  0 <= deltaTime ->
  linearModel fuel startDate endDate startPrice endPrice deltaTime spread
  = Some (Ok l) ->
  forall j t, nth_error l j = Some t ->
    timestamp t = startDate + Z.of_nat j * deltaTime /\
    startDate <= timestamp t < endDate + Datetime.us_per_day.
Proof.
  intros Hdt Hrun j t Hj.
  destruct (linear_shaped _ _ _ _ _ _ _ _ Hrun)
    as (dp & limit & _ & Hlim & Hshape & _ & Hlast).
  apply datetime_add_Ok in Hlim. subst limit.
  destruct (Hshape j t Hj) as [[Ht _] _].
  split; [exact Ht|].
  assert (Hjl : (j < List.length l)%nat).
  { apply nth_error_Some. rewrite Hj. discriminate. }
  destruct Hlast as [H0|Hlt]; [lia|].
  rewrite Ht. split; [nia|].
  assert (Z.of_nat j <= Z.of_nat (List.length l) - 1) by lia. nia.
Qed.

(** From the second tick on, the bid prices of the wave model are absolute
    values. *)
Lemma wave_body_abs startPrice deltaPrice deltaTime spread volatility count i
  s s' :
  wave_body sin pi startPrice deltaPrice deltaTime spread volatility count i s
  = Ok s' ->
  exists y, bidPrice (next s') = fabs y.
Proof.
  unfold wave_body. intros H. inv_bind H.
  inversion H; subst s'; clear H. simpl.
  destruct (fltb (Zfloat 0) (fabs deltaPrice)); inv_bind E0;
    injection E0 as <-; eauto.
Qed.

Lemma wave_prices_absolute startDate endDate startPrice endPrice deltaTime
  spread volatility l :
  waveModel sin pi startDate endDate startPrice endPrice deltaTime spread
    volatility = Ok l ->
  forall j t, nth_error l (S j) = Some t -> exists y, bidPrice t = fabs y.
Proof.
  unfold waveModel. intros H. inv_bind H. inversion H; subst l; clear H.
  set (R := fun (j : nat) (t : tick) =>
              match j with O => True | S _ => exists y, bidPrice t = fabs y end).
  assert (H0 : held R 0 a).
  { apply initial_Ok in E. destruct E as (Hticks & _).
    split; [rewrite Hticks; reflexivity|].
    intros j t. unfold emit. rewrite Hticks. simpl.
    destruct j as [|[|j]]; simpl; try discriminate. intros _. exact I. }
  assert (H1 : held R (0 + List.length (range 0 a0)) a2).
  { apply (for_each_keeps (held R)
             (wave_body sin pi startPrice (fsub endPrice startPrice) deltaTime
                spread volatility a0)
             (range 0 a0) 0 a a2 H0); [|exact E2].
    intros j i s1 s2 _ Hheld Hb.
    apply (held_step _ _ s1 s2 Hheld).
    - apply (wave_body_Ok sin pi _ _ _ _ _ _ _ _ _ Hb).
    - exact (wave_body_abs _ _ _ _ _ _ _ _ _ Hb). }
  intros j t Hj. exact (held_ticks _ _ _ _ _ H1 Hj).
Qed.

End CountFacts.

Module Binary64Edge.

Import Binary64 Binary64Spec Binary64Facts Binary64Volumes Binary64Runs.
Import Binary64Zigzag Binary64Spread Binary64Exact Cli CliFacts.

(** X9: in binary64, from the epoch on and with a positive modulus of the
    volumes, the linear model returns as soon as the fuel exceeds the
    number of its ticks, and that number is the integer ceiling of the
    time span over the interval. *)
Theorem linear_model_returns fuel startDate endDate startPrice endPrice
  deltaTime spread :
  0 <= startDate <= endDate ->
  endDate + Datetime.us_per_day + deltaTime <= Datetime.max_datetime ->
  0 < deltaTime < Datetime.us_per_day ->
  modulus_ok spread ->
  (Z.to_nat (linear_count startDate endDate deltaTime) < fuel)%nat ->
  exists l n,
    @linearModel binary64 fuel startDate endDate startPrice endPrice deltaTime
      spread = Some (Ok l) /\
    Z.of_nat (List.length l) = n /\
    (n - 1) * deltaTime < endDate + Datetime.us_per_day - startDate
    <= n * deltaTime.
Proof.
  intros Hd Hmax Hdt HM Hfuel.
  destruct (linear_returns fuel startDate endDate startPrice endPrice deltaTime
              spread Hd Hmax Hdt HM Hfuel) as (q & l & _ & Hrun & Hlen & _).
  exists l, (linear_count startDate endDate deltaTime).
  split; [exact Hrun|].
  assert (Hpos : 0 < endDate + Datetime.us_per_day - startDate).
  { rewrite us_per_day_value. lia. }
  assert (H1 : 1 <= linear_count startDate endDate deltaTime).
  { unfold linear_count. apply Z.div_le_lower_bound; lia. }
  split; [rewrite Hlen; lia|].
  unfold linear_count.
  set (span := endDate + Datetime.us_per_day - startDate) in *.
  assert (Hdt0 : 0 < deltaTime) by lia. clearbody span. clear - Hdt0 Hpos.
  split; Z.div_mod_to_equations; nia.
Qed.

Lemma linear_model_returns_witness :
  exists l n,
    @linearModel binary64 (Z.to_nat 1441) jan_1 jan_1 (of_Z 2) (of_Z 4) minute
      ten_points = Some (Ok l) /\
    Z.of_nat (List.length l) = n /\
    (n - 1) * minute < jan_1 + Datetime.us_per_day - jan_1 <= n * minute.
Proof.
  apply (linear_model_returns (Z.to_nat 1441) jan_1 jan_1 (of_Z 2) (of_Z 4)
           minute ten_points).
  - rewrite jan_1_value. lia.
  - rewrite jan_1_value, minute_value, max_datetime_value, us_per_day_value. lia.
  - rewrite minute_value, us_per_day_value. lia.
  - exact ten_points_ok.
  - rewrite one_day_count. lia.
Defined.

(** X10: in binary64 the zigzag model returns exactly the counted number
    of ticks when [backward = int(volatility * 50)] is zero or from two up
    to the count. *)
Theorem zigzag_model_returns startDate endDate startPrice endPrice deltaTime
  spread volatility count :
  0 <= startDate <= endDate ->
  endDate + Datetime.us_per_day <= Datetime.max_datetime ->
  0 < deltaTime < Datetime.us_per_day ->
  modulus_ok spread ->
  finite (SFmul prec emax volatility (of_Z 50)) = true ->
  @tick_count binary64 startDate endDate deltaTime = Ok count ->
  trunc (SFmul prec emax volatility (of_Z 50)) = 0 \/
  2 <= trunc (SFmul prec emax volatility (of_Z 50)) <= count ->
  startDate + count * deltaTime <= Datetime.max_datetime ->
  exists l,
    @zigzagModel binary64 startDate endDate startPrice endPrice deltaTime
      spread volatility = Ok l /\
    Z.of_nat (List.length l) = count /\
    forall t, In t l -> askPrice t = SFadd prec emax (bidPrice t) spread.
Proof.
  intros Hd Hmax Hdt HM Hf Hcount Hb Hrange.
  set (backward := trunc (SFmul prec emax volatility (of_Z 50))) in *.
  assert (Hdt' : 0 < deltaTime < 2 ^ 62).
  { rewrite us_per_day_value in *. assert (86400000000 < 2 ^ 62) by reflexivity. lia. }
  destruct (tick_count_returns _ _ _ Hd Hmax Hdt') as (c & Hc & Hc1).
  rewrite Hcount in Hc. injection Hc as <-.
  destruct (zigzag_returns startDate endDate startPrice endPrice deltaTime spread
              volatility count Hd Hmax Hdt HM Hf) as (l & Hl & Hlen).
  - fold backward. lia.
  - exact Hcount.
  - fold backward.
    replace (Z.max 0 (count - backward) + backward) with count by lia.
    exact Hrange.
  - fold backward in Hlen. exists l. split; [exact Hl|]. split; [lia|].
    intros t Hin. destruct (In_nth_error _ _ Hin) as (j & Hj).
    destruct (zigzag_shaped _ _ _ _ _ _ _ _ Hl) as (Hshape & _).
    apply (Hshape j t Hj).
Qed.

Lemma zigzag_model_returns_witness :
  exists l,
    @zigzagModel binary64 jan_1 jan_1 (of_Z 2) (of_Z 4) minute ten_points
      (of_Z 1) = Ok l /\
    Z.of_nat (List.length l) = 1440 /\
    forall t, In t l -> askPrice t = SFadd prec emax (bidPrice t) ten_points.
Proof.
  apply (zigzag_model_returns jan_1 jan_1 (of_Z 2) (of_Z 4) minute ten_points
           (of_Z 1) 1440).
  - rewrite jan_1_value. lia.
  - rewrite jan_1_value, max_datetime_value, us_per_day_value. lia.
  - rewrite minute_value, us_per_day_value. lia.
  - exact ten_points_ok.
  - reflexivity.
  - vm_compute. reflexivity.
  - right. vm_compute. split; discriminate.
  - rewrite jan_1_value, minute_value, max_datetime_value. lia.
Defined.

(** A loop of the linear model whose clock does not move never stops. *)
Lemma still_loop_runs endDate deltaPrice spread startDate :
  0 <= startDate <= endDate ->
  endDate + Datetime.us_per_day <= Datetime.max_datetime ->
  modulus_ok spread ->
  forall fuel s, timestamp (next s) = startDate ->
    @linear_loop binary64 fuel endDate 0 deltaPrice spread s = None.
Proof.
  intros Hd Hmax HM. induction fuel as [|fuel IH]; intros s Hs; [reflexivity|].
  simpl. rewrite limit_returns by lia.
  assert (Hlt : (timestamp (next s) <? endDate + Datetime.us_per_day) = true).
  { apply Z.ltb_lt. rewrite us_per_day_value. lia. }
  rewrite Hlt.
  assert (Hsmall := max_datetime_small).
  assert (G1 : 0 <= timestamp (next s)) by lia.
  assert (G2 : timestamp (next s) + 0 <= Datetime.max_datetime).
  { rewrite us_per_day_value in Hmax. lia. }
  destruct (tick_returns (timestamp (next s)) 0 spread G1 ltac:(lia) G2 HM)
    as (bv & av & Ha & Hv).
  unfold linear_step. rewrite Ha. cbn [bind]. rewrite Hv. cbn [bind].
  apply IH. simpl. lia.
Qed.

(** X11: with an interval of zero the loop of the linear model never ends:
    the clock stays at the start date, before the limit, whatever the
    fuel.  A density that makes [60 / density] seconds round to no
    microsecond, as 120000000, gives that interval.  In binary64, for
    dates from the epoch on whose limit stays within the years of
    [datetime], and a positive modulus of the volumes. *)
Theorem zero_interval_never_ends fuel startDate endDate startPrice endPrice
  spread :
  0 <= startDate <= endDate ->
  endDate + Datetime.us_per_day <= Datetime.max_datetime ->
  modulus_ok spread ->
  @linearModel binary64 fuel startDate endDate startPrice endPrice 0 spread
  = None.
Proof.
  intros Hd Hmax HM. unfold linearModel. rewrite initial_returns.
  unfold drift. rewrite limit_returns by lia. cbn [bind].
  cbn [int_truediv binary64]. unfold truediv.
  destruct (Z.eqb_spec (endDate + Datetime.us_per_day - startDate - 0) 0) as [E|_].
  { rewrite us_per_day_value in E. lia. }
  cbn [Z.eqb bind].
  apply (still_loop_runs endDate _ spread startDate Hd Hmax HM). reflexivity.
Qed.

Lemma zero_interval_never_ends_witness :
  @interval binary64 too_dense = Ok 0 /\
  forall sin exp pi random fuel,
    generate sin exp pi random fuel (with_density too_dense rising) = None.
Proof.
  assert (Hi : @interval binary64 too_dense = Ok 0) by (vm_compute; reflexivity).
  split; [exact Hi|]. intros sin exp pi random fuel.
  rewrite (@generate_run binary64 sin exp pi random fuel
             (with_density too_dense rising) jan_1 jan_1 ten_points 0
             strptime_jan_1 strptime_jan_1 spread_ten_points Hi).
  apply (zero_interval_never_ends fuel jan_1 jan_1 (of_Z 2) (of_Z 4) ten_points).
  - rewrite jan_1_value. lia.
  - rewrite jan_1_value, max_datetime_value, us_per_day_value. lia.
  - exact ten_points_ok.
Defined.

(** X12: with an interval of zero the four counted models divide the time
    span by it, and raise [ZeroDivisionError]. *)
Theorem zero_interval_raises sin exp pi random fuel p startDate endDate
  startPrice endPrice spread volatility :
  p <> p_none ->
  0 <= startDate <= endDate ->
  endDate + Datetime.us_per_day <= Datetime.max_datetime ->
  @run_model binary64 sin exp pi random fuel p startDate endDate startPrice
    endPrice 0 spread volatility = Some (Raise ZeroDivisionError).
Proof.
  intros Hp Hd Hmax.
  assert (Hcount : @tick_count binary64 startDate endDate 0
                   = Raise ZeroDivisionError).
  { unfold tick_count. rewrite limit_returns by lia. reflexivity. }
  destruct p; [congruence| | | |]; simpl; apply (f_equal Some).
  - unfold waveModel. rewrite initial_returns. cbn [bind]. rewrite Hcount.
    reflexivity.
  - unfold curveModel. rewrite initial_returns. cbn [bind]. rewrite Hcount.
    reflexivity.
  - unfold zigzagModel. rewrite initial_returns. cbn [bind]. rewrite Hcount.
    reflexivity.
  - unfold randomModel. rewrite initial_returns. cbn [bind].
    unfold drift. rewrite limit_returns by lia. cbn [bind].
    cbn [int_truediv binary64]. unfold truediv.
    destruct (Z.eqb_spec (endDate + Datetime.us_per_day - startDate - 0) 0) as [E|_].
    { rewrite us_per_day_value in E. lia. }
    cbn [Z.eqb bind]. rewrite Hcount. reflexivity.
Qed.

Lemma zero_interval_raises_witness :
  forallb (fun p =>
             match raised (run 0 (with_pattern p (with_density too_dense rising))) with
             | Some ZeroDivisionError => true
             | _ => false
             end) [p_wave; p_curve; p_zigzag; p_random] = true /\
  @run_model binary64 plain_function plain_function (of_Z 3) even_odds 0
    p_random jan_1 jan_1 (of_Z 2) (of_Z 4) 0 ten_points (of_Z 1)
  = Some (Raise ZeroDivisionError).
Proof.
  split; [vm_compute; reflexivity|].
  apply (zero_interval_raises plain_function plain_function (of_Z 3) even_odds
           0%nat p_random jan_1 jan_1 (of_Z 2) (of_Z 4) ten_points (of_Z 1)).
  - discriminate.
  - rewrite jan_1_value. lia.
  - rewrite jan_1_value, max_datetime_value, us_per_day_value. lia.
Defined.

(** X13: an end date whose next day is past the last day of [datetime],
    9999-12-31, makes every model raise [OverflowError] when it adds the
    day. *)
Theorem last_day_overflows sin exp pi random fuel p startDate endDate
  startPrice endPrice deltaTime spread volatility :
  Datetime.max_datetime < endDate + Datetime.us_per_day ->
  @run_model binary64 sin exp pi random fuel p startDate endDate startPrice
    endPrice deltaTime spread volatility = Some (Raise OverflowError).
Proof.
  intros Hmax.
  assert (Hlim : Datetime.add endDate Datetime.us_per_day = Raise OverflowError).
  { unfold Datetime.add.
    destruct (Z.leb_spec (endDate + Datetime.us_per_day) Datetime.max_datetime);
      [lia|]. rewrite andb_false_r. reflexivity. }
  assert (Hcount : @tick_count binary64 startDate endDate deltaTime
                   = Raise OverflowError).
  { unfold tick_count. rewrite Hlim. reflexivity. }
  assert (Hdrift : @drift binary64 startDate endDate startPrice endPrice deltaTime
                   = Raise OverflowError).
  { unfold drift. rewrite Hlim. reflexivity. }
  destruct p; simpl.
  - unfold linearModel. rewrite initial_returns, Hdrift. reflexivity.
  - unfold waveModel. rewrite initial_returns. cbn [bind]. rewrite Hcount.
    reflexivity.
  - unfold curveModel. rewrite initial_returns. cbn [bind]. rewrite Hcount.
    reflexivity.
  - unfold zigzagModel. rewrite initial_returns. cbn [bind]. rewrite Hcount.
    reflexivity.
  - unfold randomModel. rewrite initial_returns. cbn [bind]. rewrite Hdrift.
    reflexivity.
Qed.

Lemma last_day_overflows_witness :
  Datetime.strptime (arg_startDate last_day) = Ok (Datetime.of_ymd 9999 12 31) /\
  forall sin exp pi random fuel,
    generate sin exp pi random fuel last_day = Some (Raise OverflowError).
Proof.
  assert (Hd : Datetime.strptime "9999.12.31" = Ok (Datetime.of_ymd 9999 12 31))
    by (vm_compute; reflexivity).
  split; [exact Hd|]. intros sin exp pi random fuel.
  rewrite (@generate_run binary64 sin exp pi random fuel last_day
             (Datetime.of_ymd 9999 12 31) (Datetime.of_ymd 9999 12 31)
             ten_points minute Hd Hd spread_ten_points interval_one).
  apply (last_day_overflows sin exp pi random fuel p_none
           (Datetime.of_ymd 9999 12 31) (Datetime.of_ymd 9999 12 31)
           (of_Z 2) (of_Z 4) minute ten_points (of_Z 1)).
  reflexivity.
Defined.

Lemma iter_add_nan d j :
  Nat.iter j (fun p => SFadd prec emax p d) S754_nan = S754_nan.
Proof. induction j as [|j IH]; simpl; [reflexivity|]. rewrite IH. reflexivity. Qed.

(** X14: a start price that is not a number passes the check of the
    prices, [startPrice <= 0] being false for it, and every tick of the
    linear model then has prices that are not numbers. *)
Theorem nan_price_passes fuel startDate endDate endPrice deltaTime spread :
  0 <= startDate <= endDate ->
  endDate + Datetime.us_per_day + deltaTime <= Datetime.max_datetime ->
  0 < deltaTime < Datetime.us_per_day ->
  modulus_ok spread ->
  (Z.to_nat (linear_count startDate endDate deltaTime) < fuel)%nat ->
  @fleb binary64 S754_nan (@Zfloat binary64 0) = false /\
  exists l,
    @linearModel binary64 fuel startDate endDate S754_nan endPrice deltaTime
      spread = Some (Ok l) /\
    l <> [] /\
    forall t, In t l -> bidPrice t = S754_nan /\ askPrice t = S754_nan.
Proof.
  intros Hd Hmax Hdt HM Hfuel. split; [reflexivity|].
  destruct (linear_returns fuel startDate endDate S754_nan endPrice deltaTime
              spread Hd Hmax Hdt HM Hfuel) as (q & l & _ & Hrun & Hlen & Hshape).
  exists l. split; [exact Hrun|]. split.
  - intros ->. simpl in Hlen.
    assert (1 <= linear_count startDate endDate deltaTime).
    { unfold linear_count. apply Z.div_le_lower_bound; [lia|].
      rewrite us_per_day_value. lia. }
    lia.
  - intros t Hin. destruct (In_nth_error _ _ Hin) as (j & Hj).
    destruct (Hshape j t Hj) as [_ [Hb Ha]]. split.
    + rewrite Hb. apply iter_add_nan.
    + rewrite Ha. apply iter_add_nan.
Qed.

Lemma nan_price_passes_witness :
  valid not_a_price /\
  @fleb binary64 S754_nan (@Zfloat binary64 0) = false /\
  exists l,
    @linearModel binary64 (Z.to_nat 1441) jan_1 jan_1 S754_nan (of_Z 4) minute
      ten_points = Some (Ok l) /\
    l <> [] /\
    forall t, In t l -> bidPrice t = S754_nan /\ askPrice t = S754_nan.
Proof.
  split.
  - exists jan_1, jan_1. repeat split; try reflexivity; try discriminate.
  - apply (nan_price_passes (Z.to_nat 1441) jan_1 jan_1 (of_Z 4) minute ten_points).
    + rewrite jan_1_value. lia.
    + rewrite jan_1_value, minute_value, max_datetime_value, us_per_day_value. lia.
    + rewrite minute_value, us_per_day_value. lia.
    + exact ten_points_ok.
    + rewrite one_day_count. lia.
Defined.

(** X15: a spread of 1000 points makes the modulus [1e3 - spread * 1e5]
    zero, and the volumes of every timestamp from the epoch on raise
    [ZeroDivisionError]. *)
Theorem thousand_points_raise t :
  0 <= t <= Datetime.max_datetime ->
  exists spread,
    spread_of_points 1000 = Ok spread /\
    @volumesFromTimestamp binary64 t spread = Raise ZeroDivisionError.
Proof.
  intros Ht. eexists. split; [vm_compute; reflexivity|].
  assert (Ht' : 0 <= t < 2 ^ 62).
  { assert (H := max_datetime_small). lia. }
  unfold volumesFromTimestamp.
  assert (Hts := timestamp_float_pfin t Ht').
  set (ts := @timestamp_float binary64 t) in *.
  rewrite fdiv_int_b64 by (split; reflexivity). cbn [bind].
  assert (H60 : ppos (-52) 10 (of_Z 60)) by (apply of_Z_ppos; split; reflexivity).
  assert (Hmin := SFdiv_pfin _ _ _ _ _ _ Hts H60 ltac:(lia)).
  rewrite (int_of_float_b64 _ _ _ Hmin). cbn [bind].
  assert (Hn := trunc_pfin _ _ _ Hmin).
  rewrite (StrFacts.last3_digits _ Hn). cbn [bind].
  set (n := trunc (SFdiv prec emax ts (of_Z 60))) in *.
  assert (Hk := Z.mod_pos_bound n 1000 ltac:(lia)).
  assert (Hd : 0 < n mod 1000 + 1 < 2 ^ 62).
  { assert (1001 < 2 ^ 62) by reflexivity. lia. }
  rewrite (fdiv_int_b64 _ _ Hd). cbn [bind].
  cbn [fmod fsub fmul binary64]. unfold f1e3, f1e5. cbn [Zfloat binary64].
  replace (SFsub prec emax (of_Z 1000)
             (SFmul prec emax (S754_finite false 5764607523034235 (-59))
                (of_Z 100000)))
    with (S754_zero false) by (vm_compute; reflexivity).
  reflexivity.
Qed.

Lemma thousand_points_raise_witness :
  exists spread,
    spread_of_points 1000 = Ok spread /\
    @volumesFromTimestamp binary64 (jan_1 + minute) spread
    = Raise ZeroDivisionError.
Proof.
  apply (thousand_points_raise (jan_1 + minute)).
  rewrite jan_1_value, minute_value, max_datetime_value. lia.
Defined.

(** X16: for every spread of 0 to 999 points and every timestamp from the
    epoch on, the volumes are computed without an exception; the bid
    volume is from 0 to [1000 - points], and the ask volume is the bid
    volume plus the spread in points. *)
Theorem volumes_for_points t points :
  0 <= t <= Datetime.max_datetime ->
  0 <= points < 1000 ->
  exists spread bidVolume,
    spread_of_points points = Ok spread /\
    @volumesFromTimestamp binary64 t spread
    = Ok (bidVolume,
          SFadd prec emax (of_Z bidVolume) (SFmul prec emax spread (of_Z 100000))) /\
    0 <= bidVolume <= 1000 - points.
Proof.
  intros Ht Hp.
  destruct (points_modulus_below points Hp)
    as (spread & my & ey & Hs & HM & Hmy & Hey & Hbound).
  assert (Hok : modulus_ok spread).
  { unfold modulus_ok. rewrite HM. simpl. lia. }
  assert (Ht' : 0 <= t < 2 ^ 62).
  { assert (H := max_datetime_small). lia. }
  destruct (volumes_formula t spread Ht' Hok) as (r & Hr & Hv & _).
  assert (Hts := timestamp_float_pfin t Ht').
  assert (Hd : 0 < trunc (SFdiv prec emax (@timestamp_float binary64 t) (of_Z 60))
                   mod 1000 + 1 < 2 ^ 62).
  { assert (Hk := Z.mod_pos_bound
                    (trunc (SFdiv prec emax (@timestamp_float binary64 t) (of_Z 60)))
                    1000 ltac:(lia)).
    assert (1001 < 2 ^ 62) by reflexivity. lia. }
  assert (Hx := SFdiv_pfin _ _ _ _ _ _ Hts (of_Z_ppos _ Hd) ltac:(lia)).
  rewrite HM in Hr.
  destruct (py_fmod_below _ _ _ my ey (1001 - points) Hx ltac:(lia) Hmy Hey Hbound)
    as (r' & Hr' & Hb).
  rewrite Hr in Hr'. injection Hr' as <-.
  exists spread, (trunc r). split; [exact Hs|]. split; [exact Hv|lia].
Qed.

Lemma volumes_for_points_witness :
  exists spread bidVolume,
    spread_of_points 10 = Ok spread /\
    @volumesFromTimestamp binary64 (jan_1 + minute) spread
    = Ok (bidVolume,
          SFadd prec emax (of_Z bidVolume) (SFmul prec emax spread (of_Z 100000))) /\
    0 <= bidVolume <= 1000 - 10.
Proof.
  apply (volumes_for_points (jan_1 + minute) 10).
  - rewrite jan_1_value, minute_value, max_datetime_value. lia.
  - lia.
Defined.

(** X17: from the second tick on, the bid prices of the wave model are
    absolute values: in binary64 none of them is below zero. *)
Theorem wave_prices_not_negative sin pi startDate endDate startPrice endPrice
  deltaTime spread volatility l :
  @waveModel binary64 sin pi startDate endDate startPrice endPrice deltaTime
    spread volatility = Ok l ->
  forall j t, nth_error l (S j) = Some t ->
    SFltb (bidPrice t) (S754_zero false) = false /\
    sign (bidPrice t) = false.
Proof.
  intros Hl j t Hj.
  destruct (@wave_prices_absolute binary64 sin pi _ _ _ _ _ _ _ _ Hl j t Hj)
    as (y & Hy).
  rewrite Hy. cbn [fabs binary64].
  destruct y as [s|s| |s m e]; split; reflexivity.
Qed.

Lemma wave_day_run :
  @waveModel binary64 plain_function (of_Z 3) jan_1 jan_1 (of_Z 2) (of_Z 4)
    six_hours ten_points (of_Z 1) = Ok wave_day.
Proof.
  assert (H : returned (Some (@waveModel binary64 plain_function (of_Z 3) jan_1
                                jan_1 (of_Z 2) (of_Z 4) six_hours ten_points
                                (of_Z 1))) = true)
    by (vm_compute; reflexivity).
  unfold wave_day.
  destruct (@waveModel binary64 plain_function (of_Z 3) jan_1 jan_1 (of_Z 2)
              (of_Z 4) six_hours ten_points (of_Z 1)) as [l|e];
    [reflexivity|discriminate].
Qed.

Lemma wave_prices_not_negative_witness :
  exists t,
    nth_error wave_day 1 = Some t /\
    SFltb (bidPrice t) (S754_zero false) = false /\
    sign (bidPrice t) = false.
Proof.
  destruct (@wave_shaped binary64 plain_function (of_Z 3) _ _ _ _ _ _ _ _
              wave_day_run)
    as (_ & count & Hcount & Hlen).
  assert (H4 : @tick_count binary64 jan_1 jan_1 six_hours = Ok 4)
    by (vm_compute; reflexivity).
  rewrite H4 in Hcount. injection Hcount as <-.
  destruct (nth_error wave_day 1) as [t|] eqn:Ht.
  - exists t. split; [reflexivity|].
    exact (wave_prices_not_negative plain_function (of_Z 3) jan_1 jan_1 (of_Z 2)
             (of_Z 4) six_hours ten_points (of_Z 1) wave_day wave_day_run
             0%nat t Ht).
  - apply nth_error_None in Ht. rewrite Hlen in Ht. simpl in Ht. lia.
Defined.

Lemma intervals_checked : forallb interval_near (range 1 1001) = true.
Proof. vm_compute. reflexivity. Qed.

(** X18: for a density of 1 to 1000 ticks a minute, the interval of the
    script is [60 / density] seconds rounded to the nearest microsecond:
    it is positive, at most a minute, and [density] intervals differ from
    a minute by at most half a microsecond each. *)
Theorem interval_rounds density :
  1 <= density <= 1000 ->
  exists deltaTime,
    @interval binary64 density = Ok deltaTime /\
    0 < deltaTime <= 60 * Datetime.us_per_second /\
    2 * Z.abs (deltaTime * density - 60 * Datetime.us_per_second) <= density.
Proof.
  intros Hd.
  assert (Hin : In density (range 1 1001)).
  { unfold range. apply in_map_iff. exists (Z.to_nat (density - 1)).
    split; [lia|]. apply in_seq. simpl. lia. }
  assert (H := proj1 (forallb_forall _ _) intervals_checked _ Hin).
  unfold interval_near in H.
  destruct (@interval binary64 density) as [dt|e]; [|discriminate].
  exists dt. split; [reflexivity|].
  apply andb_prop in H. destruct H as [H H3].
  apply andb_prop in H. destruct H as [H1 H2].
  apply Z.ltb_lt in H1. apply Z.leb_le in H2, H3.
  unfold Datetime.us_per_second. lia.
Qed.

Lemma interval_rounds_witness :
  exists deltaTime,
    @interval binary64 7 = Ok deltaTime /\
    0 < deltaTime <= 60 * Datetime.us_per_second /\
    2 * Z.abs (deltaTime * 7 - 60 * Datetime.us_per_second) <= 7.
Proof. apply (interval_rounds 7). lia. Defined.

End Binary64Edge.

(** * The extra properties on runs from the command line *)

Module CliRuns.

Import Binary64 Binary64Spec Binary64Facts Binary64Volumes Binary64Runs.
Import Binary64Zigzag Binary64Spread Binary64Edge Cli CliFacts.

Lemma valid_rising : valid rising.
Proof. exists jan_1, jan_1. repeat split; try reflexivity; try discriminate. Qed.

(** A day of the linear model at the defaults, whatever the prices and the
    output options. *)
Lemma day_run sin exp pi random fuel (a : @arguments binary64) :
  arg_startDate a = "2014.01.01"%string ->
  arg_endDate a = "2014.01.01"%string ->
  arg_spread a = 10 -> arg_density a = 1 -> arg_pattern a = p_none ->
  exists l,
    generate sin exp pi random (Z.to_nat 1441 + fuel) a = Some (Ok l) /\
    Z.of_nat (List.length l) = 1440.
Proof.
  intros Hs He Hsp Hden Hp.
  destruct (linear_cli sin exp pi random (Z.to_nat 1441 + fuel) a jan_1 jan_1
              minute Hp Hsp) as (q & l & _ & Hrun & Hlen & _).
  - rewrite Hs. exact strptime_jan_1.
  - rewrite He. exact strptime_jan_1.
  - rewrite Hden. exact interval_one.
  - rewrite jan_1_value. lia.
  - rewrite jan_1_value, minute_value, max_datetime_value, us_per_day_value. lia.
  - rewrite minute_value, us_per_day_value. lia.
  - rewrite one_day_count. lia.
  - exists l. split; [exact Hrun|]. rewrite Hlen, one_day_count. lia.
Qed.

Lemma wide_random_run fuel : run fuel wide_random = Some (Raise ZeroDivisionError).
Proof. apply raised_spec. vm_compute. reflexivity. Qed.

Lemma valid_wide_random : valid wide_random.
Proof. exists jan_1, jan_1. repeat split; try reflexivity; try discriminate. Qed.

Lemma valid_digits digits : 0 < digits -> valid (with_digits digits rising).
Proof.
  intros Hd. exists jan_1, jan_1.
  repeat split; try reflexivity; try discriminate. exact Hd.
Qed.

(** The formatting that prints nothing formats every row at five digits. *)
Lemma rows_of_five (l : list (@tick binary64)) : exists rows, rows_of l 5 = Ok rows.
Proof.
  unfold rows_of. induction l as [|t l [rs Hrs]].
  - exists []. reflexivity.
  - eexists. cbn [csv_rows]. rewrite Hrs. reflexivity.
Qed.

(** A day of the defaults has a first tick. *)
Lemma day_first_tick (l : list (@tick binary64)) :
  Z.of_nat (List.length l) = 1440 -> exists t l', l = t :: l'.
Proof. destruct l as [|t l']; [discriminate|]. intros _. exists t, l'. reflexivity. Qed.

Lemma script_writes_rows_witness :
  exists l rows,
    rows_of l (arg_digits rising) = Ok rows /\
    script (Z.to_nat 1441) rising nothing_written
    = (mkWorld (stderr nothing_written) (stdout nothing_written ++ rows)
         (files nothing_written), inl tt) /\
    List.length rows = List.length l /\
    Forall (fun r : row => List.length r = 5%nat) rows /\
    Z.of_nat (List.length l) = 1440 /\
    script (Z.to_nat 1441) (with_digits 2147483648 rising) nothing_written
    = (nothing_written, inr (Uncaught ValueError)).
Proof.
  destruct (day_run plain_function plain_function (of_Z 3) even_odds 0 rising
              eq_refl eq_refl eq_refl eq_refl eq_refl) as (l & Hrun & Hlen).
  rewrite Nat.add_0_r in Hrun.
  destruct (rows_of_five l) as (rows & Hrows).
  destruct (@script_writes_rows binary64 plain_function plain_function (of_Z 3)
              even_odds no_text no_text no_text2 no_text2 no_floor
              (Z.to_nat 1441) rising nothing_written l valid_rising eq_refl
              eq_refl Hrun) as [Hok _].
  destruct (Hok rows Hrows) as (Hmain & Hl & Hf).
  destruct (day_run plain_function plain_function (of_Z 3) even_odds 0
              (with_digits 2147483648 rising)
              eq_refl eq_refl eq_refl eq_refl eq_refl) as (l2 & Hrun2 & Hlen2).
  rewrite Nat.add_0_r in Hrun2.
  destruct (day_first_tick l2 Hlen2) as (t & l' & Hl2).
  destruct (@script_writes_rows binary64 plain_function plain_function (of_Z 3)
              even_odds no_text no_text no_text2 no_text2 no_floor
              (Z.to_nat 1441) (with_digits 2147483648 rising) nothing_written l2
              (valid_digits 2147483648 eq_refl) eq_refl eq_refl Hrun2)
    as [_ Hbad].
  exists l, rows.
  exact (conj Hrows (conj Hmain (conj Hl (conj Hf (conj Hlen
           (Hbad t l' (of_Z 0) Hl2 eq_refl eq_refl)))))).
Defined.

Lemma script_writes_file_witness :
  exists l rows,
    rows_of l (arg_digits (to_file "ticks.csv" rising)) = Ok rows /\
    script (Z.to_nat 1441) (to_file "ticks.csv" rising) nothing_written
    = (mkWorld (stderr nothing_written) (stdout nothing_written)
         (("ticks.csv"%string, rows) :: files nothing_written), inl tt) /\
    Z.of_nat (List.length l) = 1440 /\
    script (Z.to_nat 1441) (with_digits 2147483648 (to_file "ticks.csv" rising))
      nothing_written
    = (mkWorld (stderr nothing_written) (stdout nothing_written)
         (("ticks.csv"%string, []) :: files nothing_written),
       inr (Uncaught ValueError)).
Proof.
  destruct (day_run plain_function plain_function (of_Z 3) even_odds 0
              (to_file "ticks.csv" rising)
              eq_refl eq_refl eq_refl eq_refl eq_refl) as (l & Hrun & Hlen).
  rewrite Nat.add_0_r in Hrun.
  destruct (rows_of_five l) as (rows & Hrows).
  destruct (@script_writes_file binary64 plain_function plain_function (of_Z 3)
              even_odds no_text no_text no_text2 no_text2 no_floor
              (Z.to_nat 1441) (to_file "ticks.csv" rising) nothing_written l
              "ticks.csv" valid_rising eq_refl eq_refl Hrun) as [Hok _].
  destruct (Hok rows Hrows) as [Hfile _].
  destruct (day_run plain_function plain_function (of_Z 3) even_odds 0
              (with_digits 2147483648 (to_file "ticks.csv" rising))
              eq_refl eq_refl eq_refl eq_refl eq_refl) as (l2 & Hrun2 & Hlen2).
  rewrite Nat.add_0_r in Hrun2.
  destruct (day_first_tick l2 Hlen2) as (t & l' & Hl2).
  destruct (@script_writes_file binary64 plain_function plain_function (of_Z 3)
              even_odds no_text no_text no_text2 no_text2 no_floor
              (Z.to_nat 1441) (with_digits 2147483648 (to_file "ticks.csv" rising))
              nothing_written l2 "ticks.csv"
              (valid_digits 2147483648 eq_refl) eq_refl eq_refl Hrun2)
    as [_ Hbad].
  exists l, rows.
  assert (Hpath : "ticks.csv"%string <> EmptyString) by discriminate.
  exact (conj Hrows (conj (Hfile Hpath) (conj Hlen
           (Hbad t l' (of_Z 0) Hl2 eq_refl eq_refl Hpath)))).
Defined.

Lemma model_exception_ends_script_witness :
  script 0 wide_random nothing_written
  = (nothing_written, inr (Uncaught ZeroDivisionError)) /\
  exit_status (Uncaught ZeroDivisionError) = Some 1.
Proof.
  apply (@model_exception_ends_script binary64 plain_function plain_function
           (of_Z 3) even_odds no_text no_text no_text2 no_text2 no_floor
           0%nat wide_random nothing_written ZeroDivisionError).
  - exact valid_wide_random.
  - reflexivity.
  - exact (wide_random_run 0).
Defined.

Lemma bad_date_exits_witness :
  complained "Bad date format!" nothing_written
    (script 0 dashed nothing_written).
Proof.
  apply (@bad_date_exits binary64 plain_function plain_function (of_Z 3)
           even_odds no_text no_text no_text2 no_text2 no_floor 0%nat dashed
           nothing_written).
  left. exists ValueError. vm_compute. reflexivity.
Defined.

Lemma failed_check_exits_witness :
  complained "Digits must be larger than zero!" nothing_written
    (script 0 (with_digits 0 rising) nothing_written).
Proof.
  apply (@failed_check_exits binary64 plain_function plain_function (of_Z 3)
           even_odds no_text no_text no_text2 no_text2 no_floor 0%nat
           (with_digits 0 rising) jan_1 jan_1 nothing_written
           strptime_jan_1 strptime_jan_1).
  - rewrite jan_1_value. lia.
  - simpl. lia.
Defined.

Lemma verbose_run_reports_witness :
  exists l rows spread w',
    rows_of l (arg_digits (verbosely rising)) = Ok rows /\
    @int_fdiv binary64 (arg_spread (verbosely rising)) (@f1e5 binary64)
    = Ok spread /\
    script (Z.to_nat 1441) (verbosely rising) nothing_written = (w', inl tt) /\
    stderr w'
    = stderr nothing_written
      ++ [("[INFO] [INFO] Spread: " ++ no_text spread)%string;
          ("[INFO] [INFO] Pattern: "
           ++ pattern_name (arg_pattern (verbosely rising)))%string;
          ("[INFO] [INFO] Generated rows: "
           ++ Str.str_of_int (Z.of_nat (List.length l)))%string] /\
    stdout w' = stdout nothing_written ++ rows /\
    files w' = files nothing_written.
Proof.
  destruct (day_run plain_function plain_function (of_Z 3) even_odds 0
              (verbosely rising)
              eq_refl eq_refl eq_refl eq_refl eq_refl) as (l & Hrun & Hlen).
  rewrite Nat.add_0_r in Hrun.
  destruct (rows_of_five l) as (rows & Hrows).
  destruct (@verbose_run_reports binary64 plain_function plain_function (of_Z 3)
              even_odds no_text no_text no_text2 no_text2 no_floor
              (Z.to_nat 1441) (verbosely rising) nothing_written l rows
              valid_rising eq_refl eq_refl Hrun Hrows)
    as (spread & w' & H).
  exists l, rows, spread, w'. exact (conj Hrows H).
Defined.

Lemma counted_models_length_witness :
  exists l count,
    @run_model binary64 plain_function plain_function (of_Z 3) even_odds 0
      p_random jan_1 jan_1 (of_Z 2) (of_Z 4) minute ten_points (of_Z 1)
    = Some (Ok l) /\
    @tick_count binary64 jan_1 jan_1 minute = Ok count /\
    List.length l = Z.to_nat count.
Proof.
  destruct (random_returns even_odds jan_1 jan_1 (of_Z 2) (of_Z 4) minute
              ten_points (of_Z 1) 1440) as (l & Hl).
  - rewrite jan_1_value. lia.
  - rewrite jan_1_value, max_datetime_value, us_per_day_value. lia.
  - rewrite minute_value, us_per_day_value. lia.
  - exact ten_points_ok.
  - vm_compute. reflexivity.
  - rewrite jan_1_value, minute_value, max_datetime_value. lia.
  - destruct (@counted_models_length binary64 plain_function plain_function
                (of_Z 3) even_odds 0%nat p_random jan_1 jan_1 (of_Z 2) (of_Z 4)
                minute ten_points (of_Z 1) l
                (or_intror (or_intror eq_refl)) (f_equal Some Hl))
      as (count & Hc & Hlen).
    exists l, count. split; [exact (f_equal Some Hl)|]. split; assumption.
Defined.

Lemma linear_ticks_in_range_witness :
  exists l,
    @linearModel binary64 (Z.to_nat 1441) jan_1 jan_1 (of_Z 2) (of_Z 4) minute
      ten_points = Some (Ok l) /\
    Z.of_nat (List.length l) = 1440 /\
    Forall (fun t : @tick binary64 =>
              jan_1 <= timestamp t < jan_1 + Datetime.us_per_day) l.
Proof.
  destruct (linear_returns (Z.to_nat 1441) jan_1 jan_1 (of_Z 2) (of_Z 4) minute
              ten_points) as (q & l & _ & Hrun & Hlen & _).
  - rewrite jan_1_value. lia.
  - rewrite jan_1_value, minute_value, max_datetime_value, us_per_day_value. lia.
  - rewrite minute_value, us_per_day_value. lia.
  - exact ten_points_ok.
  - rewrite one_day_count. lia.
  - exists l. split; [exact Hrun|]. split; [rewrite Hlen, one_day_count; lia|].
    apply Forall_forall. intros t Hin.
    destruct (In_nth_error _ _ Hin) as (j & Hj).
    apply (@linear_ticks_in_range binary64 (Z.to_nat 1441) jan_1 jan_1 (of_Z 2)
             (of_Z 4) minute ten_points l ltac:(rewrite minute_value; lia) Hrun
             j t Hj).
Defined.

End CliRuns.

(** * Where the zigzag and the curve end, without rounding *)

Module ExactEnds.

Import Exact ExactFacts.

Lemma fdiv_int_exact (x : Qc) n y :
  @fdiv_int exact x n = Ok y -> of_Z n <> 0%Qc /\ y = (x / of_Z n)%Qc.
Proof.
  unfold fdiv_int, float_of_int, fdiv. cbn [is_finite Zfloat feqb fdiv_raw exact bind].
  destruct (Qeq_bool (of_Z n) (of_Z 0)) eqn:E; [discriminate|].
  intros H. injection H as <-. split; [|reflexivity].
  intros Hz. rewrite Hz, of_Z_zero in E. discriminate.
Qed.

Lemma fdiv_exact (x y z : Qc) :
  @fdiv exact x y = Ok z -> y <> 0%Qc /\ z = (x / y)%Qc.
Proof.
  unfold fdiv. cbn [feqb Zfloat fdiv_raw exact].
  destruct (Qeq_bool y (of_Z 0)) eqn:E; [discriminate|].
  intros H. injection H as <-. split; [|reflexivity].
  intros Hz. rewrite Hz, of_Z_zero in E. discriminate.
Qed.

Lemma line_start (b l : Qc) : b = (b + 0 * l)%Qc.
Proof. ring. Qed.

Lemma line_step (b x l : Qc) : (b + x * l + l)%Qc = (b + (x + 1) * l)%Qc.
Proof. ring. Qed.

Lemma tail_reach (b e : Qc) (n : Z) : of_Z n <> 0%Qc ->
  (b + of_Z n * ((e - b) / of_Z n))%Qc = e.
Proof. intros Hn. field. exact Hn. Qed.

(** X19: in exact arithmetic, when [backward = int(volatility * 50)] is at
    least two, the tail of the zigzag model is a line that ends on the end
    price: the last tick of the model has the bid price [endPrice]. *)
Theorem exact_zigzag_reaches_end startDate endDate startPrice endPrice deltaTime
  spread volatility l :
  2 <= trunc (volatility * of_Z 50)%Qc ->
  @zigzagModel exact startDate endDate startPrice endPrice deltaTime spread
    volatility = Ok l ->
  exists t,
    nth_error l (Nat.pred (List.length l)) = Some t /\
    bidPrice t = endPrice.
Proof.
  intros Hb H. unfold zigzagModel in H. inv_bind H.
  inversion H; subst l; clear H.
  (* backward *)
  assert (Hback : a3 = trunc (volatility * of_Z 50)%Qc).
  { unfold fmul_int, float_of_int in E2.
    cbn [is_finite Zfloat fmul exact bind] in E2. injection E2 as <-.
    unfold int_of_float in E3. cbn [is_nan is_finite trunc_finite exact] in E3.
    injection E3 as <-. reflexivity. }
  rewrite <- Hback in Hb. clear Hback.
  (* the body *)
  assert (H0 := @held_initial exact _ deltaTime _ _ _ E).
  assert (H1 := @loop_placed_quoted exact _ _ _ _ _ _ _ _
                  (fun i s1 s2 Hbody =>
                     @zigzag_body_Ok exact _ _ _ _ _ i s1 s2 Hbody) H0 E4).
  destruct H1 as [Hlen1 _]. simpl in Hlen1.
  set (n0 := List.length (range 0 (a0 - a3))) in *.
  set (b0 := bidPrice (next a4)) in *.
  destruct (fdiv_int_exact _ _ _ E5) as [Hnz Hlift].
  (* the tail *)
  set (R := fun (j : nat) (t : @tick exact) =>
              (n0 <= j)%nat ->
              bidPrice t = (b0 + of_Z (Z.of_nat j - Z.of_nat n0) * a5)%Qc).
  assert (Hs1 : held R n0 a4).
  { split; [exact Hlen1|]. intros j t Hj Hge.
    unfold emit in Hj.
    rewrite nth_error_app2 in Hj by lia. rewrite Hlen1 in Hj.
    destruct (j - n0)%nat as [|k] eqn:Hk; [|destruct k; discriminate].
    simpl in Hj. injection Hj as <-.
    replace (Z.of_nat j - Z.of_nat n0) with 0 by lia.
    rewrite of_Z_zero. exact (line_start _ _). }
  assert (H2 : held R (n0 + List.length (range (a0 - a3) a0)) a6).
  { apply (for_each_keeps (held R) (zigzag_tail deltaTime spread a5)
             (range (a0 - a3) a0) n0 a4 a6 Hs1); [|exact E6].
    intros j i s1 s2 _ Hheld Htail.
    destruct (@zigzag_tail_Ok exact _ _ _ _ _ _ Htail) as (Hadv & _ & Hbid).
    apply (held_step _ _ s1 s2 Hheld); [apply Hadv|].
    intros _. rewrite Hbid.
    rewrite (held_next _ _ _ Hheld) by lia.
    cbn [fadd exact].
    replace (Z.of_nat (S (n0 + j)) - Z.of_nat n0)
      with ((Z.of_nat (n0 + j) - Z.of_nat n0) + 1) by lia.
    rewrite of_Z_add, of_Z_one. exact (line_step _ _ _). }
  rewrite range_length in H2.
  replace (a0 - (a0 - a3)) with a3 in H2 by lia.
  destruct H2 as [Hlen2 HR].
  rewrite Hlen2.
  destruct (nth_error (ticks a6) (Nat.pred (n0 + Z.to_nat a3))) as [t|] eqn:Ht.
  - exists t. split; [reflexivity|].
    assert (Hin : nth_error (emit a6) (Nat.pred (n0 + Z.to_nat a3)) = Some t).
    { unfold emit. rewrite nth_error_app1; [exact Ht|].
      apply nth_error_Some. rewrite Ht. discriminate. }
    rewrite (HR _ _ Hin) by lia.
    replace (Z.of_nat (Nat.pred (n0 + Z.to_nat a3)) - Z.of_nat n0) with (a3 - 1)
      by lia.
    rewrite Hlift. cbn [fsub exact]. fold b0. apply tail_reach. exact Hnz.
  - apply nth_error_None in Ht. lia.
Qed.

Lemma exact_zigzag_day_run :
  @zigzagModel exact Cli.jan_1 Cli.jan_1 (of_Z 2) (of_Z 4) Cli.six_hours
    Cli.exact_spread (Q2Qc (1 # 25)) = Ok Cli.exact_zigzag_day.
Proof.
  assert (H : returned (Some (@zigzagModel exact Cli.jan_1 Cli.jan_1 (of_Z 2)
                                (of_Z 4) Cli.six_hours Cli.exact_spread
                                (Q2Qc (1 # 25)))) = true)
    by (vm_compute; reflexivity).
  unfold Cli.exact_zigzag_day.
  destruct (@zigzagModel exact Cli.jan_1 Cli.jan_1 (of_Z 2) (of_Z 4)
              Cli.six_hours Cli.exact_spread (Q2Qc (1 # 25))) as [l|e];
    [reflexivity|discriminate].
Qed.

Lemma exact_zigzag_reaches_end_witness :
  exists t,
    nth_error Cli.exact_zigzag_day (Nat.pred (List.length Cli.exact_zigzag_day))
    = Some t /\
    bidPrice t = of_Z 4.
Proof.
  apply (exact_zigzag_reaches_end Cli.jan_1 Cli.jan_1 (of_Z 2) (of_Z 4)
           Cli.six_hours Cli.exact_spread (Q2Qc (1 # 25)) Cli.exact_zigzag_day).
  - vm_compute. discriminate.
  - exact exact_zigzag_day_run.
Defined.

Lemma weight_end (s d x den : Qc) : den <> 0%Qc ->
  (s + (of_Z 1 - (x - x) / den) * d)%Qc = (s + d)%Qc.
Proof. intros Hd. rewrite of_Z_one. field. exact Hd. Qed.

Lemma range_end (s e : Qc) : (s + (e - s))%Qc = e.
Proof. ring. Qed.

(** The price the curve model gives the tick whose index is the count
    minus one. *)
Lemma curve_body_last exp startPrice deltaPrice deltaTime spread count d i s s' :
  i + 1 = count - 1 ->
  @curve_body exact exp startPrice deltaPrice deltaTime spread count d i s = Ok s' ->
  bidPrice (next s') = (startPrice + deltaPrice)%Qc.
Proof.
  intros Hi. unfold curve_body. rewrite Hi. intros H. inv_bind H.
  inversion H; subst s'; clear H. simpl.
  rewrite E0 in E2. injection E2 as <-.
  rewrite E1 in E3. injection E3 as <-.
  destruct (fdiv_exact _ _ _ E7) as [Hden ->].
  unfold int_fsub, float_of_int in E8.
  cbn [is_finite Zfloat fsub exact bind] in E8. injection E8 as <-.
  exact (weight_end startPrice deltaPrice a1 a6 Hden).
Qed.

(** X20: in exact arithmetic the weight of the curve model is one at the
    last of its [count >= 2] ticks, whatever the exponential function is:
    the last tick has the bid price [endPrice]. *)
Theorem exact_curve_reaches_end exp startDate endDate startPrice endPrice
  deltaTime spread volatility l count :
  @curveModel exact exp startDate endDate startPrice endPrice deltaTime spread
    volatility = Ok l ->
  @tick_count exact startDate endDate deltaTime = Ok count ->
  2 <= count ->
  exists t,
    nth_error l (Nat.pred (List.length l)) = Some t /\
    Z.of_nat (List.length l) = count /\
    bidPrice t = endPrice.
Proof.
  intros H Hcount Hc. unfold curveModel in H. inv_bind H.
  inversion H; subst l; clear H.
  rewrite Hcount in E0. injection E0 as <-.
  set (R := fun (j : nat) (t : @tick exact) =>
              Z.of_nat j = count - 1 -> bidPrice t = endPrice).
  assert (H0 : held R 0 a).
  { apply initial_Ok in E. destruct E as (Hticks & _).
    split; [rewrite Hticks; reflexivity|].
    intros j t. unfold emit. rewrite Hticks. simpl.
    destruct j as [|[|j]]; simpl; try discriminate.
    intros _ Hj. simpl in Hj. lia. }
  assert (H1 : held R (0 + List.length (range 0 count)) a2).
  { apply (for_each_keeps (held R)
             (curve_body exp startPrice (fsub endPrice startPrice) deltaTime
                spread count a1)
             (range 0 count) 0 a a2 H0); [|exact E2].
    intros j i s1 s2 Hj Hheld Hbody.
    assert (Hjl : (j < List.length (range 0 count))%nat).
    { apply nth_error_Some. rewrite Hj. discriminate. }
    rewrite range_length in Hjl.
    rewrite range_nth in Hj by exact Hjl. injection Hj as <-.
    apply (held_step _ _ s1 s2 Hheld).
    - apply (@curve_body_Ok exact exp _ _ _ _ _ _ _ _ _ Hbody).
    - intros Hlast.
      assert (Hi : 0 + Z.of_nat j + 1 = count - 1) by lia.
      rewrite (curve_body_last exp _ _ _ _ _ _ _ _ _ Hi Hbody).
      exact (range_end _ _). }
  rewrite range_length, Z.sub_0_r in H1. simpl in H1.
  destruct H1 as [Hlen HR]. rewrite Hlen.
  destruct (nth_error (ticks a2) (Nat.pred (Z.to_nat count))) as [t|] eqn:Ht.
  - exists t. split; [reflexivity|]. split; [lia|].
    assert (Hin : nth_error (emit a2) (Nat.pred (Z.to_nat count)) = Some t).
    { unfold emit. rewrite nth_error_app1; [exact Ht|].
      apply nth_error_Some. rewrite Ht. discriminate. }
    apply (HR _ _ Hin). lia.
  - apply nth_error_None in Ht. lia.
Qed.

Lemma exact_curve_day_run :
  @curveModel exact Cli.exact_identity Cli.jan_1 Cli.jan_1 (of_Z 2) (of_Z 4)
    Cli.six_hours Cli.exact_spread (of_Z 1) = Ok Cli.exact_curve_day.
Proof.
  assert (H : returned (Some (@curveModel exact Cli.exact_identity Cli.jan_1
                                Cli.jan_1 (of_Z 2) (of_Z 4) Cli.six_hours
                                Cli.exact_spread (of_Z 1))) = true)
    by (vm_compute; reflexivity).
  unfold Cli.exact_curve_day.
  destruct (@curveModel exact Cli.exact_identity Cli.jan_1 Cli.jan_1 (of_Z 2)
              (of_Z 4) Cli.six_hours Cli.exact_spread (of_Z 1)) as [l|e];
    [reflexivity|discriminate].
Qed.

Lemma exact_curve_reaches_end_witness :
  exists t,
    nth_error Cli.exact_curve_day (Nat.pred (List.length Cli.exact_curve_day))
    = Some t /\
    Z.of_nat (List.length Cli.exact_curve_day) = 4 /\
    bidPrice t = of_Z 4.
Proof.
  apply (exact_curve_reaches_end Cli.exact_identity Cli.jan_1 Cli.jan_1 (of_Z 2)
           (of_Z 4) Cli.six_hours Cli.exact_spread (of_Z 1) Cli.exact_curve_day 4).
  - exact exact_curve_day_run.
  - vm_compute. reflexivity.
  - lia.
Defined.

End ExactEnds.
